(** * Student Grading System: grading engine and repository layer

    A shallow embedding of [main.py]: the grading function
    [calculate_total_percentage_gpa_grade], the attendance percentage and the
    SQLite repository functions, followed by the properties the specification
    states about them.

    Python floats are IEEE-754 binary64 values.  They are modelled by the
    executable reference semantics of the standard library ([SpecFloat], with
    a 53 bit significand and [emax = 1024]), so every sum, quotient and
    product below rounds exactly as the interpreter's does. *)

From Stdlib Require Import ZArith List String Ascii Bool Lia QArith Qpower Lqa.
From Stdlib Require Import Floats.SpecFloat.
From Stdlib Require Import DecimalString Sorting.Sorted Sorting.Permutation.
Import ListNotations.

Local Open Scope Z_scope.

(** ** Binary64 arithmetic *)

Definition float : Type := spec_float.

Module F64.

Definition prec : Z := 53.
Definition emax : Z := 1024.

Definition add : float -> float -> float := SFadd prec emax.
Definition mul : float -> float -> float := SFmul prec emax.
Definition div : float -> float -> float := SFdiv prec emax.

Definition is_finite (f : float) : bool :=
  match f with
  | S754_zero _ | S754_finite _ _ _ => true
  | S754_infinity _ | S754_nan => false
  end.

Definition is_zero (f : float) : bool :=
  match f with
  | S754_zero _ => true
  | _ => false
  end.

(** Nearest double to an integer, ties to even (C's conversion of a
    [long] and the rounding [PyLong_AsDouble] performs). *)
Definition of_Z (z : Z) : float := binary_normalize prec emax z 0 false.

(** Nearest double to the fraction [n / d] carrying sign [s], for
    [0 <= n]; the quotient of two exact integers is rounded once. *)
Definition of_ratio (s : bool) (n : Z) (d : positive) : float :=
  match n with
  | Zpos p => div (S754_finite s p 0) (S754_finite false d 0)
  | _ => S754_zero s
  end.

(** Nearest double to the decimal [m * 10 ^ e10] with sign [s]: what
    [strtod] returns for a decimal numeral, and the value of a float
    literal of the source text. *)
Definition of_decimal (s : bool) (m e10 : Z) : float :=
  of_ratio s (m * 10 ^ Z.max e10 0) (Z.to_pos (10 ^ Z.max (- e10) 0)).

(** Nearest integer to [n / d] for [0 < d], ties to even. *)
Definition round_half_even (n d : Z) : Z :=
  let q := n / d in
  match 2 * (n mod d) ?= d with
  | Lt => q
  | Gt => q + 1
  | Eq => if Z.even q then q else q + 1
  end.

(** [round(x, ndigits)] on a float, for [0 <= ndigits]: the exact binary
    value is rounded to [ndigits] decimal places, ties to even, and the
    resulting decimal is converted back to the nearest double; infinities
    and NaN round to themselves and the sign of a zero is kept. *)
Definition round_ndigits (x : float) (ndigits : Z) : float :=
  match x with
  | S754_finite s m e =>
      let p10 := 10 ^ ndigits in
      let q := if 0 <=? e then Zpos m * 2 ^ e * p10
               else round_half_even (Zpos m * p10) (2 ^ (- e)) in
      of_ratio s q (Z.to_pos p10)
  | _ => x
  end.

(** Exact comparison of a float with an integer, as Python compares a
    [float] with an [int]: no rounding of the integer takes place. *)
Definition compare_Z (f : float) (z : Z) : option comparison :=
  match f with
  | S754_nan => None
  | S754_infinity s => Some (if s then Lt else Gt)
  | S754_zero _ => Some (0 ?= z)
  | S754_finite s m e =>
      let n := cond_Zopp s (Zpos m) in
      Some (if 0 <=? e then n * 2 ^ e ?= z else n ?= z * 2 ^ (- e))
  end.

(** [f >= z] and [f <= z]; false when [f] is NaN. *)
Definition geb_Z (f : float) (z : Z) : bool :=
  match compare_Z f z with
  | Some (Gt | Eq) => true
  | _ => false
  end.

Definition leb_Z (f : float) (z : Z) : bool :=
  match compare_Z f z with
  | Some (Lt | Eq) => true
  | _ => false
  end.

Definition eqb_Z (f : float) (z : Z) : bool :=
  match compare_Z f z with
  | Some Eq => true
  | _ => false
  end.

Definition eqb : float -> float -> bool := SFeqb.

End F64.

(** ** Python values, exceptions and numeric operators *)

Inductive exn : Type :=
| TypeError
| ValueError
| OverflowError
| ZeroDivisionError
| IndexError
| IntegrityError.

Inductive result (A : Type) : Type :=
| Ok (a : A)
| Raise (e : exn).

Arguments Ok {A} a.
Arguments Raise {A} e.

Definition bind {A B : Type} (r : result A) (k : A -> result B) : result B :=
  match r with
  | Ok a => k a
  | Raise e => Raise e
  end.

Notation "x <- r ;; k" := (bind r (fun x => k))
  (at level 61, r at next level, right associativity).

(** [try: body except: handler] with a bare [except]. *)
Definition try_except {A : Type} (body handler : result A) : result A :=
  match body with
  | Ok a => Ok a
  | Raise _ => handler
  end.

(** The raw values a mark can take: what the caller passes and what the
    [sqlite3] driver hands back for a column. *)
Inductive pyval : Type :=
| PyNone
| PyBool (b : bool)
| PyInt (z : Z)
| PyFloat (f : float)
| PyStr (s : string)
| PyBytes (s : string).

(** Numbers: the running total, the percentage and the GPA are Python
    [int]s or [float]s. *)
Inductive num : Type :=
| NInt (z : Z)
| NFloat (f : float).

Module Py.

(** *** [float(str)] *)

Definition is_space (c : ascii) : bool :=
  let n := Z.of_N (N_of_ascii c) in
  ((9 <=? n) && (n <=? 13)) || (n =? 32).

Fixpoint lstrip (l : list ascii) : list ascii :=
  match l with
  | c :: t => if is_space c then lstrip t else l
  | [] => []
  end.

Definition strip (l : list ascii) : list ascii :=
  rev (lstrip (rev (lstrip l))).

Definition digit_val (c : ascii) : option Z :=
  let n := Z.of_N (N_of_ascii c) in
  if (48 <=? n) && (n <=? 57) then Some (n - 48) else None.

Definition is_char (c : ascii) (code : Z) : bool :=
  Z.of_N (N_of_ascii c) =? code.

Definition to_lower (c : ascii) : ascii :=
  let n := N_of_ascii c in
  if ((65 <=? n) && (n <=? 90))%N then ascii_of_N (n + 32) else c.

(** [digit (["_"] digit)*] after its first digit: the value so far, the
    number of digits read and the rest of the input. *)
Fixpoint digitpart_tail (acc cnt : Z) (l : list ascii) : Z * Z * list ascii :=
  match l with
  | [] => (acc, cnt, [])
  | c :: t =>
      match digit_val c with
      | Some d => digitpart_tail (10 * acc + d) (cnt + 1) t
      | None =>
          if is_char c 95 then
            match t with
            | c2 :: t2 =>
                match digit_val c2 with
                | Some d => digitpart_tail (10 * acc + d) (cnt + 1) t2
                | None => (acc, cnt, l)
                end
            | [] => (acc, cnt, l)
            end
          else (acc, cnt, l)
      end
  end.

Definition digitpart (l : list ascii) : option (Z * Z * list ascii) :=
  match l with
  | c :: t =>
      match digit_val c with
      | Some d => Some (digitpart_tail d 1 t)
      | None => None
      end
  | [] => None
  end.

(** [number ::= [digitpart] "." digitpart | digitpart ["."]]: the digits
    as one integer, the decimal exponent they carry, and the rest. *)
Definition number (l : list ascii) : option (Z * Z * list ascii) :=
  match digitpart l with
  | Some (i, _, rest) =>
      match rest with
      | c :: rest' =>
          if is_char c 46 then
            match digitpart rest' with
            | Some (f, k, rest'') => Some (i * 10 ^ k + f, - k, rest'')
            | None => Some (i, 0, rest')
            end
          else Some (i, 0, rest)
      | [] => Some (i, 0, [])
      end
  | None =>
      match l with
      | c :: rest' =>
          if is_char c 46 then
            match digitpart rest' with
            | Some (f, k, rest'') => Some (f, - k, rest'')
            | None => None
            end
          else None
      | [] => None
      end
  end.

(** [exponent ::= ("e" | "E") [sign] digitpart], read to the end of the
    input; the empty input is the absent exponent. *)
Definition exponent (l : list ascii) : option Z :=
  match l with
  | [] => Some 0
  | c :: t =>
      if is_char c 101 || is_char c 69 then
        let '(neg, t') :=
          match t with
          | s :: u => if is_char s 45 then (true, u)
                      else if is_char s 43 then (false, u) else (false, t)
          | [] => (false, t)
          end in
        match digitpart t' with
        | Some (x, _, []) => Some (if neg then - x else x)
        | _ => None
        end
      else None
  end.

Definition ascii_list_eqb (a b : list ascii) : bool :=
  String.eqb (string_of_list_ascii a) (string_of_list_ascii b).

(** The value of [float(s)] for an ASCII string, [None] where Python
    raises [ValueError]. *)
Definition float_of_string (s : string) : option float :=
  let l := strip (list_ascii_of_string s) in
  let '(neg, body) :=
    match l with
    | c :: t => if is_char c 45 then (true, t)
                else if is_char c 43 then (false, t) else (false, l)
    | [] => (false, l)
    end in
  let low := map to_lower body in
  if ascii_list_eqb low (list_ascii_of_string "inf")
     || ascii_list_eqb low (list_ascii_of_string "infinity")
  then Some (S754_infinity neg)
  else if ascii_list_eqb low (list_ascii_of_string "nan") then Some S754_nan
  else
    match number body with
    | Some (m, e, rest) =>
        match exponent rest with
        | Some x => Some (F64.of_decimal neg m (e + x))
        | None => None
        end
    | None => None
    end.

(** *** Conversions *)

(** [float(n)] for an [int]: [OverflowError] when [n] is too large. *)
Definition int_to_float (z : Z) : result float :=
  let f := F64.of_Z z in
  if F64.is_finite f then Ok f else Raise OverflowError.

(** The builtin [float(m)]. *)
Definition py_float (m : pyval) : result float :=
  match m with
  | PyNone => Raise TypeError
  | PyBool b => int_to_float (Z.b2z b)
  | PyInt z => int_to_float z
  | PyFloat f => Ok f
  | PyStr s | PyBytes s =>
      match float_of_string s with
      | Some f => Ok f
      | None => Raise ValueError
      end
  end.

Definition num_to_float (n : num) : result float :=
  match n with
  | NInt z => int_to_float z
  | NFloat f => Ok f
  end.

(** Truth value of an object, as [if present] tests it. *)
Definition truthy (v : pyval) : bool :=
  match v with
  | PyNone => false
  | PyBool b => b
  | PyInt z => negb (z =? 0)
  | PyFloat f => negb (F64.is_zero f)
  | PyStr s | PyBytes s => negb (String.eqb s EmptyString)
  end.

(** *** Arithmetic on numbers *)

(** [a + b] *)
Definition add (a b : num) : result num :=
  match a, b with
  | NInt x, NInt y => Ok (NInt (x + y))
  | _, _ =>
      fa <- num_to_float a ;;
      fb <- num_to_float b ;;
      Ok (NFloat (F64.add fa fb))
  end.

(** [a * b] *)
Definition mul (a b : num) : result num :=
  match a, b with
  | NInt x, NInt y => Ok (NInt (x * y))
  | _, _ =>
      fa <- num_to_float a ;;
      fb <- num_to_float b ;;
      Ok (NFloat (F64.mul fa fb))
  end.

(** [a / b] on two [int]s: the correctly rounded quotient. *)
Definition int_truediv (a b : Z) : result float :=
  if b =? 0 then Raise ZeroDivisionError
  else
    let f := F64.of_ratio (xorb (a <? 0) (b <? 0)) (Z.abs a)
                          (Z.to_pos (Z.abs b)) in
    if F64.is_finite f then Ok f else Raise OverflowError.

(** [a / b] *)
Definition truediv (a b : num) : result num :=
  match a, b with
  | NInt x, NInt y => f <- int_truediv x y ;; Ok (NFloat f)
  | _, _ =>
      fa <- num_to_float a ;;
      fb <- num_to_float b ;;
      if F64.is_zero fb then Raise ZeroDivisionError
      else Ok (NFloat (F64.div fa fb))
  end.

(** [round(a, ndigits)] for [0 <= ndigits]: an [int] is returned as it
    is. *)
Definition round (a : num) (ndigits : Z) : num :=
  match a with
  | NInt z => NInt z
  | NFloat f => NFloat (F64.round_ndigits f ndigits)
  end.

(** [a >= z], [a <= z] and [a == z] against an [int]. *)
Definition ge_int (a : num) (z : Z) : bool :=
  match a with
  | NInt x => z <=? x
  | NFloat f => F64.geb_Z f z
  end.

Definition le_int (a : num) (z : Z) : bool :=
  match a with
  | NInt x => x <=? z
  | NFloat f => F64.leb_Z f z
  end.

Definition eq_int (a : num) (z : Z) : bool :=
  match a with
  | NInt x => x =? z
  | NFloat f => F64.eqb_Z f z
  end.

(** [a == b] *)
Definition eq (a b : num) : bool :=
  match a, b with
  | NInt x, NInt y => x =? y
  | NFloat f, NInt y => F64.eqb_Z f y
  | NInt x, NFloat g => F64.eqb_Z g x
  | NFloat f, NFloat g => F64.eqb f g
  end.

End Py.

(** Float literals of the source text. *)
Definition lit_4_0 : float := Eval vm_compute in F64.of_decimal false 40 (-1).
Definition lit_3_7 : float := Eval vm_compute in F64.of_decimal false 37 (-1).
Definition lit_3_0 : float := Eval vm_compute in F64.of_decimal false 30 (-1).
Definition lit_2_0 : float := Eval vm_compute in F64.of_decimal false 20 (-1).
Definition lit_1_0 : float := Eval vm_compute in F64.of_decimal false 10 (-1).
Definition lit_0_0 : float := Eval vm_compute in F64.of_decimal false 0 (-1).

(** ** Grading logic *)

(** One turn of the loop:
    [try: total += float(m)] / [except: total += 0]. *)
Definition add_mark (total : num) (m : pyval) : result num :=
  try_except
    (f <- Py.py_float m ;; Py.add total (NFloat f))
    (Py.add total (NInt 0)).

(** The loop [for _, m in marks_list], from the running [total]. *)
Fixpoint sum_marks (total : num) (marks_list : list (string * pyval))
  : result num :=
  match marks_list with
  | [] => Ok total
  | (_, m) :: rest => t <- add_mark total m ;; sum_marks t rest
  end.

(** [round((total / max_total) * 100, 2) if max_total > 0 else 0.0] *)
Definition percentage_of (total : num) (max_total : Z) : result num :=
  if 0 <? max_total then
    q <- Py.truediv total (NInt max_total) ;;
    p <- Py.mul q (NInt 100) ;;
    Ok (Py.round p 2)
  else Ok (NFloat lit_0_0).

(** The threshold ladder, highest first. *)
Definition gpa_grade (percentage : num) : num * string :=
  if Py.ge_int percentage 90 then (NFloat lit_4_0, "A+"%string)
  else if Py.ge_int percentage 80 then (NFloat lit_3_7, "A"%string)
  else if Py.ge_int percentage 70 then (NFloat lit_3_0, "B"%string)
  else if Py.ge_int percentage 60 then (NFloat lit_2_0, "C"%string)
  else if Py.ge_int percentage 50 then (NFloat lit_1_0, "D"%string)
  else (NFloat lit_0_0, "F"%string).

Definition grade_tuple : Type := num * Z * num * num * string.

Definition calculate_total_percentage_gpa_grade
  (marks_list : list (string * pyval)) : result grade_tuple :=
  match marks_list with
  | [] => Ok (NInt 0, 0, NInt 0, NInt 0, "N/A"%string)
  | _ :: _ =>
      let max_total := 100 * Z.of_nat (List.length marks_list) in
      total <- sum_marks (NInt 0) marks_list ;;
      percentage <- percentage_of total max_total ;;
      let '(gpa, grade) := gpa_grade percentage in
      Ok (total, max_total, percentage, gpa, grade)
  end.

(** Equality of two result tuples, component by component with [==]. *)
Definition tuple_eq (a b : grade_tuple) : bool :=
  let '(t1, m1, p1, g1, l1) := a in
  let '(t2, m2, p2, g2, l2) := b in
  Py.eq t1 t2 && (m1 =? m2) && Py.eq p1 p2 && Py.eq g1 g2 && String.eqb l1 l2.

(** ** The SQLite store *)

(** Rows of the four tables created by [init_db].  A table is the list of
    its rows in rowid order; each [AUTOINCREMENT] key has its sequence
    counter, the largest rowid the table has ever held. *)
Record student_row : Type := {
  st_id : Z;
  st_student_id : string;
  st_name : string;
  st_klass : string
}.

Record subject_row : Type := {
  sub_id : Z;
  sub_name : string
}.

Record mark_row : Type := {
  mk_id : Z;
  mk_student_db_id : Z;
  mk_subject_db_id : Z;
  mk_marks : float
}.

Record attendance_row : Type := {
  at_id : Z;
  at_student_db_id : Z;
  at_date : string;
  at_present : Z
}.

Record db : Type := {
  students : list student_row;
  subjects : list subject_row;
  marks : list mark_row;
  attendance : list attendance_row;
  seq_students : Z;
  seq_subjects : Z;
  seq_marks : Z;
  seq_attendance : Z
}.

(** The database [init_db] creates on first start: four empty tables. *)
Definition init_db : db :=
  {| students := []; subjects := []; marks := []; attendance := [];
     seq_students := 0; seq_subjects := 0; seq_marks := 0;
     seq_attendance := 0 |}.

(** [UNIQUE] on [students.student_id]: some row other than [self] holds
    the code. *)
Definition student_id_taken (d : db) (self : option Z) (code : string) : bool :=
  existsb (fun r => String.eqb (st_student_id r) code
                    && match self with
                       | Some i => negb (st_id r =? i)
                       | None => true
                       end)
          (students d).

(** [UNIQUE] on [subjects.name]. *)
Definition subject_name_taken (d : db) (self : option Z) (name : string) : bool :=
  existsb (fun r => String.eqb (sub_name r) name
                    && match self with
                       | Some i => negb (sub_id r =? i)
                       | None => true
                       end)
          (subjects d).

(** [INSERT INTO students ...]; returns [lastrowid]. *)
Definition add_student_to_db (d : db) (student_id name klass : string)
  : result (db * Z) :=
  if student_id_taken d None student_id then Raise IntegrityError
  else
    let i := seq_students d + 1 in
    Ok ({| students := students d ++
                       [{| st_id := i; st_student_id := student_id;
                           st_name := name; st_klass := klass |}];
           subjects := subjects d; marks := marks d;
           attendance := attendance d;
           seq_students := i; seq_subjects := seq_subjects d;
           seq_marks := seq_marks d;
           seq_attendance := seq_attendance d |}, i).

(** [UPDATE students SET student_id=?, name=?, klass=? WHERE id=?] *)
Definition update_student_in_db (d : db) (db_id : Z)
  (student_id name klass : string) : result db :=
  if existsb (fun r => st_id r =? db_id) (students d)
     && student_id_taken d (Some db_id) student_id
  then Raise IntegrityError
  else
    Ok {| students :=
            map (fun r => if st_id r =? db_id
                          then {| st_id := st_id r;
                                  st_student_id := student_id;
                                  st_name := name; st_klass := klass |}
                          else r) (students d);
          subjects := subjects d; marks := marks d;
          attendance := attendance d;
          seq_students := seq_students d; seq_subjects := seq_subjects d;
          seq_marks := seq_marks d; seq_attendance := seq_attendance d |}.

(** The three [DELETE] statements of [delete_student_from_db]. *)
Definition delete_student_from_db (d : db) (db_id : Z) : db :=
  {| students := filter (fun r => negb (st_id r =? db_id)) (students d);
     subjects := subjects d;
     marks := filter (fun r => negb (mk_student_db_id r =? db_id)) (marks d);
     attendance :=
       filter (fun r => negb (at_student_db_id r =? db_id)) (attendance d);
     seq_students := seq_students d; seq_subjects := seq_subjects d;
     seq_marks := seq_marks d; seq_attendance := seq_attendance d |}.

(** [INSERT OR IGNORE INTO subjects (name) VALUES (?)] *)
Definition add_subject_to_db (d : db) (name : string) : db :=
  if subject_name_taken d None name then d
  else
    let i := seq_subjects d + 1 in
    {| students := students d;
       subjects := subjects d ++ [{| sub_id := i; sub_name := name |}];
       marks := marks d; attendance := attendance d;
       seq_students := seq_students d; seq_subjects := i;
       seq_marks := seq_marks d; seq_attendance := seq_attendance d |}.

Definition with_marks (d : db) (rows : list mark_row) (seq : Z) : db :=
  {| students := students d; subjects := subjects d; marks := rows;
     attendance := attendance d;
     seq_students := seq_students d; seq_subjects := seq_subjects d;
     seq_marks := seq; seq_attendance := seq_attendance d |}.

(** [WHERE student_db_id=? AND subject_db_id=?] *)
Definition mark_matches (student_db_id subject_db_id : Z) (r : mark_row) : bool :=
  (mk_student_db_id r =? student_db_id) && (mk_subject_db_id r =? subject_db_id).

(** [set_mark_in_db]: look the pair up, then update the row found or
    insert a new one.  The ids are the integer keys the window holds, the
    value is the [float(raw)] it passes. *)
Definition set_mark_in_db (d : db) (student_db_id subject_db_id : Z)
  (value : float) : db :=
  match find (mark_matches student_db_id subject_db_id) (marks d) with
  | Some row =>
      with_marks d
        (map (fun r => if mk_id r =? mk_id row
                       then {| mk_id := mk_id r;
                               mk_student_db_id := mk_student_db_id r;
                               mk_subject_db_id := mk_subject_db_id r;
                               mk_marks := value |}
                       else r) (marks d))
        (seq_marks d)
  | None =>
      let i := seq_marks d + 1 in
      with_marks d
        (marks d ++ [{| mk_id := i; mk_student_db_id := student_db_id;
                        mk_subject_db_id := subject_db_id;
                        mk_marks := value |}])
        i
  end.

(** [DELETE FROM marks WHERE subject_db_id=?] *)
Definition delete_marks_for_subject (d : db) (subject_db_id : Z) : db :=
  with_marks d
    (filter (fun r => negb (mk_subject_db_id r =? subject_db_id)) (marks d))
    (seq_marks d).

(** [add_attendance_to_db]: the flag is stored as [1 if present else 0]. *)
Definition add_attendance_to_db (d : db) (student_db_id : Z)
  (date_str : string) (present : pyval) : db :=
  let i := seq_attendance d + 1 in
  {| students := students d; subjects := subjects d; marks := marks d;
     attendance := attendance d ++
                   [{| at_id := i; at_student_db_id := student_db_id;
                       at_date := date_str;
                       at_present := if Py.truthy present then 1 else 0 |}];
     seq_students := seq_students d; seq_subjects := seq_subjects d;
     seq_marks := seq_marks d; seq_attendance := i |}.

(** The attendance rows [WHERE student_db_id=?]. *)
Definition attendance_of (d : db) (student_db_id : Z) : list attendance_row :=
  filter (fun r => at_student_db_id r =? student_db_id) (attendance d).

(** [SELECT SUM(present)]: [NULL] over no rows. *)
Definition sum_present (rows : list attendance_row) : option Z :=
  match rows with
  | [] => None
  | _ :: _ => Some (fold_left (fun acc r => acc + at_present r) rows 0)
  end.

(** [x or 0] on the fetched sum. *)
Definition or_zero (x : option Z) : Z :=
  match x with
  | Some z => if z =? 0 then 0 else z
  | None => 0
  end.

Definition get_attendance_percent_from_db (d : db) (student_db_id : Z)
  : result num :=
  let rows := attendance_of d student_db_id in
  let total := Z.of_nat (List.length rows) in
  if total =? 0 then Ok (NFloat lit_0_0)
  else
    let present := or_zero (sum_present rows) in
    q <- Py.truediv (NInt present) (NInt total) ;;
    p <- Py.mul q (NInt 100) ;;
    Ok (Py.round p 2).

(** [UPDATE subjects SET name=? WHERE id=?], the statement of
    [edit_subject]. *)
Definition update_subject_name (d : db) (subj_id : Z) (new_name : string)
  : result db :=
  if existsb (fun r => sub_id r =? subj_id) (subjects d)
     && subject_name_taken d (Some subj_id) new_name
  then Raise IntegrityError
  else
    Ok {| students := students d;
          subjects := map (fun r => if sub_id r =? subj_id
                                    then {| sub_id := sub_id r;
                                            sub_name := new_name |}
                                    else r) (subjects d);
          marks := marks d; attendance := attendance d;
          seq_students := seq_students d; seq_subjects := seq_subjects d;
          seq_marks := seq_marks d; seq_attendance := seq_attendance d |}.

(** The two [DELETE] statements of [delete_subject]. *)
Definition delete_subject_from_db (d : db) (subj_id : Z) : db :=
  {| students := students d;
     subjects := filter (fun r => negb (sub_id r =? subj_id)) (subjects d);
     marks := filter (fun r => negb (mk_subject_db_id r =? subj_id)) (marks d);
     attendance := attendance d;
     seq_students := seq_students d; seq_subjects := seq_subjects d;
     seq_marks := seq_marks d; seq_attendance := seq_attendance d |}.

(** ** The subject editor of the window *)

(** What the user sees when a handler returns. *)
Inductive dialog : Type :=
| ShowError (msg : string)
| ShowInfo (msg : string)
| NoDialog.

(** [StudentGradingApp.edit_subject]: [sel] is the list box selection,
    [cached] the window's [self.subjects], [answer] what the rename prompt
    returns.  The result is the dialog shown and the store afterwards, or
    the exception that escapes the handler. *)
Definition edit_subject (sel : option nat) (cached : list (Z * string))
  (answer : option string) (d : db) : result (dialog * db) :=
  match sel with
  | None => Ok (ShowError "Select a subject to edit.", d)
  | Some index =>
      match nth_error cached index with
      | None => Raise IndexError
      | Some (subj_id, old_name) =>
          match answer with
          | None => Ok (NoDialog, d)
          | Some new_name =>
              if String.eqb new_name EmptyString then Ok (NoDialog, d)
              else
                match update_subject_name d subj_id new_name with
                | Raise IntegrityError =>
                    Ok (ShowError "Subject name already exists.", d)
                | Raise e => Raise e
                | Ok d' =>
                    Ok (ShowInfo ("Subject renamed to '" ++ new_name ++ "'."),
                        d')
                end
          end
      end
  end.

(** ** Runs of the repository *)

(** The operations that write to the store. *)
Inductive op : Type :=
| AddStudent (student_id name klass : string)
| UpdateStudent (db_id : Z) (student_id name klass : string)
| DeleteStudent (db_id : Z)
| AddSubject (name : string)
| RenameSubject (subj_id : Z) (new_name : string)
| DeleteSubject (subj_id : Z)
| SetMark (student_db_id subject_db_id : Z) (value : float)
| DeleteMarksForSubject (subject_db_id : Z)
| AddAttendance (student_db_id : Z) (date_str : string) (present : pyval).

(** One operation on the store; a statement that raises commits
    nothing. *)
Definition apply_op (d : db) (o : op) : db :=
  match o with
  | AddStudent sid name klass =>
      match add_student_to_db d sid name klass with
      | Ok (d', _) => d'
      | Raise _ => d
      end
  | UpdateStudent i sid name klass =>
      match update_student_in_db d i sid name klass with
      | Ok d' => d'
      | Raise _ => d
      end
  | DeleteStudent i => delete_student_from_db d i
  | AddSubject name => add_subject_to_db d name
  | RenameSubject i name =>
      match update_subject_name d i name with
      | Ok d' => d'
      | Raise _ => d
      end
  | DeleteSubject i => delete_subject_from_db d i
  | SetMark st sj v => set_mark_in_db d st sj v
  | DeleteMarksForSubject sj => delete_marks_for_subject d sj
  | AddAttendance st date present => add_attendance_to_db d st date present
  end.

Definition run (ops : list op) (d : db) : db := fold_left apply_op ops d.

(** ** Queries of the repository *)

(** [ORDER BY name]: the rows in ascending byte order of a text column
    (the [BINARY] collation).  Rows with equal keys keep their scan order
    here; SQLite leaves that order open, and nothing below depends on it. *)
Fixpoint insert_by {A : Type} (key : A -> string) (x : A) (l : list A) : list A :=
  match l with
  | [] => [x]
  | y :: rest =>
      if String.leb (key x) (key y) then x :: l
      else y :: insert_by key x rest
  end.

Definition order_by {A : Type} (key : A -> string) (l : list A) : list A :=
  fold_right (insert_by key) [] l.

Definition student_tuple (r : student_row) : Z * string * string * string :=
  (st_id r, st_student_id r, st_name r, st_klass r).

(** [SELECT id, student_id, name, klass FROM students ORDER BY name] *)
Definition list_students_from_db (d : db) : list (Z * string * string * string) :=
  map student_tuple (order_by st_name (students d)).

(** The [LIKE] operator on ASCII text: [%] stands for any run of
    characters, [_] for any one character, and letters match without
    regard to case. *)
Definition like_char (p c : ascii) : bool :=
  Ascii.eqb (Py.to_lower p) (Py.to_lower c).

Fixpoint like (pattern text : list ascii) : bool :=
  match pattern with
  | [] => match text with [] => true | _ :: _ => false end
  | p :: rest =>
      if Py.is_char p 37 then
        (fix any_run (t : list ascii) : bool :=
           like rest t
           || match t with
              | [] => false
              | _ :: t' => any_run t'
              end) text
      else
        match text with
        | [] => false
        | c :: t' =>
            if Py.is_char p 95 then like rest t'
            else like_char p c && like rest t'
        end
  end.

(** The longest pattern SQLite accepts, in bytes. *)
Definition like_pattern_limit : Z := 50000.

(** [find_students_by_name]: [WHERE name LIKE '%<name>%' ORDER BY name];
    [None] is the [OperationalError] SQLite raises for a pattern that is
    too long. *)
Definition find_students_by_name (d : db) (name : string)
  : option (list (Z * string * string * string)) :=
  let pattern := ("%" ++ name ++ "%")%string in
  if like_pattern_limit <? Z.of_nat (String.length pattern) then None
  else
    Some (map student_tuple
            (order_by st_name
               (filter (fun r => like (list_ascii_of_string pattern)
                                      (list_ascii_of_string (st_name r)))
                       (students d)))).

Definition subject_tuple (r : subject_row) : Z * string :=
  (sub_id r, sub_name r).

(** [SELECT id, name FROM subjects ORDER BY name] *)
Definition list_subjects_from_db (d : db) : list (Z * string) :=
  map subject_tuple (order_by sub_name (subjects d)).

(** The join of [get_marks_for_student_from_db]: each mark of the student
    with the subject row its [subject_db_id] names. *)
Definition joined_marks (d : db) (student_db_id : Z) : list (string * float) :=
  flat_map
    (fun m =>
       if mk_student_db_id m =? student_db_id then
         map (fun s => (sub_name s, mk_marks m))
             (filter (fun s => sub_id s =? mk_subject_db_id m) (subjects d))
       else [])
    (marks d).

(** What a [REAL] cell gives back for the float that was bound to it:
    the float itself, except that SQLite stores NaN as [NULL] and does not
    keep the sign of a zero. *)
Definition real_column (value : float) : pyval :=
  match value with
  | S754_nan => PyNone
  | S754_zero _ => PyFloat (S754_zero false)
  | _ => PyFloat value
  end.

(** [get_marks_for_student_from_db]: the pairs (subject name, mark),
    ordered by subject name. *)
Definition get_marks_for_student_from_db (d : db) (student_db_id : Z)
  : list (string * pyval) :=
  map (fun p => (fst p, real_column (snd p)))
      (order_by fst (joined_marks d student_db_id)).

(** ** Text of the entries *)

(** [str.strip()] on ASCII text, the text the entries hold here as in
    [float]. *)
Definition is_str_space (c : ascii) : bool :=
  let n := Z.of_N (N_of_ascii c) in
  ((9 <=? n) && (n <=? 13)) || ((28 <=? n) && (n <=? 32)).

Fixpoint str_lstrip (l : list ascii) : list ascii :=
  match l with
  | c :: t => if is_str_space c then str_lstrip t else l
  | [] => []
  end.

Definition str_strip (s : string) : string :=
  string_of_list_ascii
    (rev (str_lstrip (rev (str_lstrip (list_ascii_of_string s))))).

(** [str(n)] for an [int]. *)
Definition str_of_int (n : Z) : string := NilZero.string_of_int (Z.to_int n).

(** ** The table of the window *)

(** A row of the table of the window. *)
Record display_row : Type := {
  row_db_id : Z;
  row_student_id : string;
  row_name : string;
  row_klass : string;
  row_total : num;
  row_percentage : num;
  row_gpa : num;
  row_grade : string;
  row_attendance : num
}.

(** The loop of [refresh_student_list] over the students fetched;
    [fg] is the grade filter. *)
Fixpoint display_rows (d : db) (fg : string)
  (fetched : list (Z * string * string * string)) : result (list display_row) :=
  match fetched with
  | [] => Ok []
  | (db_id, sid, name, klass) :: rest =>
      t <- calculate_total_percentage_gpa_grade
             (get_marks_for_student_from_db d db_id) ;;
      a <- get_attendance_percent_from_db d db_id ;;
      rows <- display_rows d fg rest ;;
      let '(total, _, percentage, gpa, grade) := t in
      if negb (String.eqb fg "All") && negb (String.eqb grade fg) then Ok rows
      else
        Ok ({| row_db_id := db_id; row_student_id := sid; row_name := name;
               row_klass := klass; row_total := total;
               row_percentage := percentage; row_gpa := gpa;
               row_grade := grade; row_attendance := a |} :: rows)
  end.

(** [StudentGradingApp.refresh_student_list]: the rows the table shows for
    the search text and the grade filter; [None] when the search raises. *)
Definition refresh_student_list (search_var fg : string) (d : db)
  : option (result (list display_row)) :=
  let query := str_strip search_var in
  if String.eqb query EmptyString then
    Some (display_rows d fg (list_students_from_db d))
  else
    match find_students_by_name d query with
    | Some fetched => Some (display_rows d fg fetched)
    | None => None
    end.

(** ** The handlers of the window *)

(** Handlers that refresh the table before their last dialog reach the
    dialog only if the refresh returns: [None] is an exception that
    leaves the handler. *)
Definition after_refresh (search_var fg : string) (d : db) (m : dialog)
  : option dialog :=
  match refresh_student_list search_var fg d with
  | Some (Ok _) => Some m
  | _ => None
  end.


(** [StudentGradingApp.delete_subject]: [sel] is the list box selection,
    [cached] the window's [self.subjects], [confirm] the answer to the
    question the handler asks. *)
Definition delete_subject (sel : option nat) (cached : list (Z * string))
  (confirm : bool) (search_var fg : string) (d : db) : option dialog * db :=
  match sel with
  | None => (Some (ShowError "Select a subject to delete."), d)
  | Some index =>
      match nth_error cached index with
      | None => (None, d)
      | Some (subj_id, name) =>
          if confirm then
            let d' := delete_subject_from_db d subj_id in
            (after_refresh search_var fg d'
               (ShowInfo ("Subject '" ++ name ++ "' removed.")), d')
          else (Some NoDialog, d)
      end
  end.

(** [StudentGradingApp.add_student]: the three entries, and [now], the
    whole seconds [int(datetime.datetime.now().timestamp())] gives.  In
    this handler and the ones after it the dialog comes before the refresh
    of the table, which changes neither the dialog nor the store. *)
Definition add_student (sid_var name_var class_var : string) (now : Z) (d : db)
  : dialog * db :=
  let sid := str_strip sid_var in
  let name := str_strip name_var in
  let klass := str_strip class_var in
  if String.eqb name EmptyString then (ShowError "Name is required.", d)
  else
    let sid := if String.eqb sid EmptyString
               then ("S" ++ str_of_int now)%string else sid in
    match add_student_to_db d sid name klass with
    | Raise _ => (ShowError "Student ID already exists.", d)
    | Ok (d', _) => (ShowInfo ("Student '" ++ name ++ "' added."), d')
    end.

(** [StudentGradingApp.update_selected_student]: [sel] is the id of the
    selected row of the table, if any. *)
Definition update_selected_student (sel : option Z)
  (sid_var name_var class_var : string) (d : db) : dialog * db :=
  match sel with
  | None => (ShowError "Select a student.", d)
  | Some db_id =>
      let sid := str_strip sid_var in
      let name := str_strip name_var in
      let klass := str_strip class_var in
      if String.eqb name EmptyString then (ShowError "Name cannot be empty.", d)
      else
        match update_student_in_db d db_id sid name klass with
        | Raise _ => (ShowError "Student ID already exists.", d)
        | Ok d' => (ShowInfo "Student updated.", d')
        end
  end.

(** [StudentGradingApp.delete_selected_student]: the selected row gives the
    id and the name as the table shows it. *)
Definition delete_selected_student (sel : option (Z * string)) (confirm : bool)
  (d : db) : dialog * db :=
  match sel with
  | None => (ShowError "Select a student.", d)
  | Some (db_id, name) =>
      if confirm then
        (ShowInfo ("Student '" ++ name ++ "' removed."),
         delete_student_from_db d db_id)
      else (NoDialog, d)
  end.

(** [StudentGradingApp.mark_present_today]: [today] is
    [datetime.date.today().isoformat()]. *)
Definition mark_present_today (sel : option (Z * string)) (today : string)
  (d : db) : dialog * db :=
  match sel with
  | None => (ShowError "Select a student.", d)
  | Some (db_id, name) =>
      (ShowInfo (name ++ " marked present (" ++ today ++ ")."),
       add_attendance_to_db d db_id today (PyBool true))
  end.

(** The loop of [save_marks_for_selected] over [self.subjects]; [entries]
    gives the text of the entry of each subject. *)
Fixpoint save_marks_loop (student_db_id : Z) (entries : Z -> string)
  (cached : list (Z * string)) (d : db) : dialog * db :=
  match cached with
  | [] => (ShowInfo "Marks updated.", d)
  | (subj_id, subj_name) :: rest =>
      let raw := str_strip (entries subj_id) in
      if String.eqb raw EmptyString then
        save_marks_loop student_db_id entries rest d
      else
        match Py.py_float (PyStr raw) with
        | Raise _ =>
            (ShowError ("Invalid marks for " ++ subj_name ++ "."), d)
        | Ok val =>
            if F64.geb_Z val 0 && F64.leb_Z val 100 then
              save_marks_loop student_db_id entries rest
                (set_mark_in_db d student_db_id subj_id val)
            else
              (ShowError ("Marks for " ++ subj_name ++ " must be 0-100."), d)
        end
  end.

(** [StudentGradingApp.save_marks_for_selected]: [selected] is
    [self.selected_student_db_id]. *)
Definition save_marks_for_selected (selected : option Z)
  (entries : Z -> string) (cached : list (Z * string)) (d : db)
  : dialog * db :=
  match selected with
  | None => (ShowError "Select a student first.", d)
  | Some student_db_id =>
      if student_db_id =? 0 then (ShowError "Select a student first.", d)
      else save_marks_loop student_db_id entries cached d
  end.

(** ** Notions used by the statements *)

(** A mark that [float] accepts and whose value lies in [0, 100]. *)
Definition valid_mark (m : pyval) : bool :=
  match Py.py_float m with
  | Ok f => F64.geb_Z f 0 && F64.leb_Z f 100
  | Raise _ => false
  end.

(** A mark that [float] rejects. *)
Definition unparseable (m : pyval) : Prop :=
  exists e, Py.py_float m = Raise e.

(** [a < z] against an [int]. *)
Definition lt_int (a : num) (z : Z) : bool :=
  match a with
  | NInt x => x <? z
  | NFloat f =>
      match F64.compare_Z f z with
      | Some Lt => true
      | _ => false
      end
  end.

(** The threshold table as the specification prints it: the least
    percentage of the row, its GPA and its letter. *)
Definition threshold_table : list (Z * float * string) :=
  [ (90, lit_4_0, "A+"%string);
    (80, lit_3_7, "A"%string);
    (70, lit_3_0, "B"%string);
    (60, lit_2_0, "C"%string);
    (50, lit_1_0, "D"%string) ].

(** Reading a table highest-first, the first row that matches wins; the
    last line of the table is the default. *)
Fixpoint first_match (percentage : num) (rows : list (Z * float * string))
  : num * string :=
  match rows with
  | [] => (NFloat lit_0_0, "F"%string)
  | (least, gpa, letter) :: rest =>
      if Py.ge_int percentage least then (NFloat gpa, letter)
      else first_match percentage rest
  end.

(** The same table as disjoint bands [least <= percentage < below]. *)
Record band : Type := {
  band_least : option Z;
  band_below : option Z;
  band_gpa : float;
  band_letter : string
}.

Definition bands : list band :=
  [ {| band_least := Some 90; band_below := None;
       band_gpa := lit_4_0; band_letter := "A+" |};
    {| band_least := Some 80; band_below := Some 90;
       band_gpa := lit_3_7; band_letter := "A" |};
    {| band_least := Some 70; band_below := Some 80;
       band_gpa := lit_3_0; band_letter := "B" |};
    {| band_least := Some 60; band_below := Some 70;
       band_gpa := lit_2_0; band_letter := "C" |};
    {| band_least := Some 50; band_below := Some 60;
       band_gpa := lit_1_0; band_letter := "D" |};
    {| band_least := None; band_below := Some 50;
       band_gpa := lit_0_0; band_letter := "F" |} ].

Definition in_band (percentage : num) (b : band) : bool :=
  match band_least b with
  | Some z => Py.ge_int percentage z
  | None => true
  end
  && match band_below b with
     | Some z => lt_int percentage z
     | None => true
     end.


(** The attendance percentage as the specification words it, on the
    sequence of [present] flags of one student. *)
Definition attendance_percent_spec (records : list bool) : result num :=
  match records with
  | [] => Ok (NFloat lit_0_0)
  | _ :: _ =>
      let present := Z.of_nat (count_occ bool_dec records true) in
      let total := Z.of_nat (List.length records) in
      q <- Py.truediv (NInt present) (NInt total) ;;
      p <- Py.mul q (NInt 100) ;;
      Ok (Py.round p 2)
  end.

(** Every stored attendance flag is 0 or 1. *)
Definition flags_01 (d : db) : Prop :=
  Forall (fun r => at_present r = 0 \/ at_present r = 1) (attendance d).

(** The rows of [marks] for one (student, subject) pair. *)
Definition marks_of (d : db) (student_db_id subject_db_id : Z) : list mark_row :=
  filter (mark_matches student_db_id subject_db_id) (marks d).

(** Row ids of [marks] are distinct and were all issued by the sequence. *)
Definition marks_keys_ok (d : db) : Prop :=
  NoDup (map mk_id (marks d)) /\
  Forall (fun r => mk_id r <= seq_marks d) (marks d).

(** At most one mark per (student, subject) pair. *)
Definition one_mark_per_pair (d : db) : Prop :=
  forall st sj, (List.length (marks_of d st sj) <= 1)%nat.

(** A run of [set_mark_in_db] calls. *)
Definition set_marks (calls : list (Z * Z * float)) (d : db) : db :=
  fold_left (fun acc c => let '(st, sj, value) := c in
                          set_mark_in_db acc st sj value) calls d.

(** The value of the last call for the pair, if any. *)
Definition last_set (calls : list (Z * Z * float)) (st sj : Z) : option float :=
  match find (fun c => let '(st', sj', _) := c in (st' =? st) && (sj' =? sj))
             (rev calls) with
  | Some (_, _, value) => Some value
  | None => None
  end.


(** ** Notions used by the proofs *)

(** Powers of two and the rational [m * 2 ^ e] a mantissa and an exponent
    denote. *)
Definition bpow (e : Z) : Q := Qpower 2 e.

Definition F2Q (m e : Z) : Q := (inject_Z m * bpow e)%Q.

(** [f] is a zero or a positive finite float of value at most [q]. *)
Definition fle (f : float) (q : Q) : Prop :=
  match f with
  | S754_zero _ => True
  | S754_finite false m e => (F2Q (Zpos m) e <= q)%Q
  | _ => False
  end.

(** [f] is a positive float, possibly infinite, of value at least [q]. *)
Definition fge (f : float) (q : Q) : Prop :=
  match f with
  | S754_finite false m e => (q <= F2Q (Zpos m) e)%Q
  | S754_infinity false => True
  | _ => False
  end.

(** [q] is the value of a positive finite binary64 number. *)
Definition representable (q : Q) : Prop :=
  exists b eb : Z,
    0 < b < 2 ^ F64.prec /\
    emin F64.prec F64.emax <= eb <= F64.emax - F64.prec /\
    (q == F2Q b eb)%Q.

(** The sticky information of a shifted mantissa, and of a location. *)
Definition inexact (mrs : shr_record) : bool := shr_r mrs || shr_s mrs.

Definition loc_exact (l : location) : bool :=
  match l with
  | loc_Exact => true
  | loc_Inexact _ => false
  end.

(** The running total stays an [int] zero or a float bounded by [q]. *)
Definition total_le (t : num) (q : Q) : Prop :=
  match t with
  | NInt z => z = 0
  | NFloat f => fle f q
  end.

(** A running total that is an [int] is the initial [0]. *)
Definition int_total (t : num) : Prop :=
  match t with
  | NInt z => z = 0
  | NFloat _ => True
  end.

(** The row update of [set_mark_in_db]. *)
Definition overwrite (row : mark_row) (value : float) (r : mark_row) : mark_row :=
  if mk_id r =? mk_id row
  then {| mk_id := mk_id r; mk_student_db_id := mk_student_db_id r;
          mk_subject_db_id := mk_subject_db_id r; mk_marks := value |}
  else r.

(** Distinct keys and one mark per pair, together. *)
Definition marks_inv (d : db) : Prop := marks_keys_ok d /\ one_mark_per_pair d.


(** ** Notions of the further properties *)

(** ** Invariants of the store *)

(** Keys issued by a sequence: distinct and not above the counter. *)
Definition keys_issued {A : Type} (key : A -> Z) (rows : list A) (seq : Z) : Prop :=
  NoDup (map key rows) /\ Forall (fun r => key r <= seq) rows.

(** The [PRIMARY KEY] and [UNIQUE] constraints of the four tables. *)
Definition constraints_hold (d : db) : Prop :=
  keys_issued st_id (students d) (seq_students d) /\
  keys_issued sub_id (subjects d) (seq_subjects d) /\
  keys_issued mk_id (marks d) (seq_marks d) /\
  keys_issued at_id (attendance d) (seq_attendance d) /\
  NoDup (map st_student_id (students d)) /\
  NoDup (map sub_name (subjects d)).

(** The tables other than [marks]. *)
Definition tables_ok (d : db) : Prop :=
  keys_issued st_id (students d) (seq_students d) /\
  keys_issued sub_id (subjects d) (seq_subjects d) /\
  keys_issued at_id (attendance d) (seq_attendance d) /\
  NoDup (map st_student_id (students d)) /\
  NoDup (map sub_name (subjects d)).

Definition student_exists (d : db) (i : Z) : Prop :=
  exists r, In r (students d) /\ st_id r = i.

Definition subject_exists (d : db) (i : Z) : Prop :=
  exists r, In r (subjects d) /\ sub_id r = i.

(** Every mark names a student and a subject of the store, every
    attendance row a student. *)
Definition references_hold (d : db) : Prop :=
  (forall m, In m (marks d) ->
             student_exists d (mk_student_db_id m) /\
             subject_exists d (mk_subject_db_id m)) /\
  (forall a, In a (attendance d) -> student_exists d (at_student_db_id a)).

(** The rows an operation writes name rows that exist. *)
Definition targets_exist (d : db) (o : op) : Prop :=
  match o with
  | SetMark st sj _ => student_exists d st /\ subject_exists d sj
  | AddAttendance st _ _ => student_exists d st
  | _ => True
  end.

(** Ascending order of a text key, and strictly ascending order. *)
Definition ascending {A : Type} (key : A -> string) (l : list A) : Prop :=
  Sorted (fun a b => String.leb (key a) (key b) = true) l.

Definition strictly_ascending {A : Type} (key : A -> string) (l : list A) : Prop :=
  Sorted (fun a b => String.ltb (key a) (key b) = true) l.



(** The mark lies in [0, 100]. *)
Definition in_range (f : float) : bool := F64.geb_Z f 0 && F64.leb_Z f 100.

(** What [save_marks_loop] does with the entry of one subject. *)
Inductive entry_kind : Type :=
| Blank
| Accepted (value : float)
| Rejected.

Definition classify_entry (text : string) : entry_kind :=
  let raw := str_strip text in
  if String.eqb raw EmptyString then Blank
  else
    match Py.py_float (PyStr raw) with
    | Raise _ => Rejected
    | Ok val => if in_range val then Accepted val else Rejected
    end.

(** A mark that [float] accepts with the value of the integer [k]. *)
Definition mark_is_int (m : pyval) (k : Z) : bool :=
  match Py.py_float m with
  | Ok f => F64.eqb_Z f k
  | Raise _ => false
  end.

(** A mark that [float] turns into NaN. *)
Definition mark_is_nan (m : pyval) : bool :=
  match Py.py_float m with
  | Ok S754_nan => true
  | _ => false
  end.

(** [f] is a zero or a positive finite float of value [q]. *)
Definition fval (f : float) (q : Q) : Prop :=
  match f with
  | S754_zero _ => (q == 0)%Q
  | S754_finite false m e => (F2Q (Zpos m) e == q)%Q
  | _ => False
  end.

(** The loop of [like] after a [%]: [f] holds on some tail of the
    text. *)
Fixpoint any_run (f : list ascii -> bool) (t : list ascii) : bool :=
  f t || match t with
         | [] => false
         | _ :: t' => any_run f t'
         end.

(** An operation that records attendance only as the window does, with
    [present] true. *)
Definition records_presence_only (o : op) : bool :=
  match o with
  | AddAttendance _ _ present => Py.truthy present
  | _ => true
  end.

(** Every attendance row carries the flag 1. *)
Definition all_present (d : db) : Prop :=
  Forall (fun r => at_present r = 1) (attendance d).

(** The GPA and the letter that the thresholds give for the exact
    average [s / n] of [n] marks whose sum is [s]. *)
Definition exact_grade (s n : Z) : num * string :=
  if 90 * n <=? s then (NFloat lit_4_0, "A+"%string)
  else if 80 * n <=? s then (NFloat lit_3_7, "A"%string)
  else if 70 * n <=? s then (NFloat lit_3_0, "B"%string)
  else if 60 * n <=? s then (NFloat lit_2_0, "C"%string)
  else if 50 * n <=? s then (NFloat lit_1_0, "D"%string)
  else (NFloat lit_0_0, "F"%string).

(** The sum of a list of integers. *)
Definition sum_Z (ks : list Z) : Z := fold_right Z.add 0 ks.

(** The marks are whole numbers of [0 .. 100], [ks] in order. *)
Definition whole_marks (marks_list : list (string * pyval)) (ks : list Z) : Prop :=
  Forall2 (fun entry k => mark_is_int (snd entry) k = true /\ 0 <= k <= 100)
          marks_list ks.

(** The float 100.0 that [float(100)] gives. *)
Definition hundred : float := S754_finite false 7036874417766400 (-46).

(** The row the table shows for a student of the store: its columns are
    the student's, the grading of the student's marks and the attendance
    percentage. *)
Definition row_of_student (d : db) (r : display_row) : Prop :=
  In (row_db_id r, row_student_id r, row_name r, row_klass r)
     (map student_tuple (students d)) /\
  (exists max_total,
      calculate_total_percentage_gpa_grade
        (get_marks_for_student_from_db d (row_db_id r)) =
      Ok (row_total r, max_total, row_percentage r, row_gpa r, row_grade r)) /\
  get_attendance_percent_from_db d (row_db_id r) = Ok (row_attendance r).

(** The grades the filter of the window offers besides [All]. *)
Definition grade_options : list string :=
  ["A+"; "A"; "B"; "C"; "D"; "F"]%string.

(** [n] presses of the button of [mark_present_today] for one row of the
    table on one day. *)
Definition presses (n : nat) (db_id : Z) (name today : string) (d : db) : db :=
  Nat.iter n (fun acc => snd (mark_present_today (Some (db_id, name)) today acc)) d.

(** The name a subject is listed under after [old] is renamed to [new]. *)
Definition renamed (old new name : string) : string :=
  if String.eqb name old then new else name.

(** ** Binary digits *)

Lemma digits2_pos_size (p : positive) : digits2_pos p = Pos.size p.
Proof. induction p; simpl; congruence. Qed.

Lemma digits2_pos_upper (p : positive) : Zpos p < 2 ^ Zpos (digits2_pos p).
Proof.
  rewrite digits2_pos_size.
  pose proof (Pos.size_gt p) as H.
  change 2 with (Zpos 2). rewrite <- Pos2Z.inj_pow. lia.
Qed.

Lemma digits2_pos_lower (p : positive) : 2 ^ (Zpos (digits2_pos p) - 1) <= Zpos p.
Proof.
  rewrite digits2_pos_size.
  pose proof (Pos.size_le p) as H.
  assert (E : 2 ^ Zpos (Pos.size p) = 2 * 2 ^ (Zpos (Pos.size p) - 1)).
  { rewrite <- Z.pow_succ_r by lia. f_equal. lia. }
  assert (H' : 2 ^ Zpos (Pos.size p) <= Zpos p~0).
  { change 2 with (Zpos 2). rewrite <- Pos2Z.inj_pow. lia. }
  lia.
Qed.

Lemma Zdigits2_nonneg (m : Z) : 0 <= Zdigits2 m.
Proof. destruct m; simpl; lia. Qed.

Lemma Zdigits2_bounds (m : Z) :
  0 < m -> 2 ^ (Zdigits2 m - 1) <= m < 2 ^ Zdigits2 m.
Proof.
  destruct m as [|p|p]; try lia. intros _. simpl.
  split; [apply digits2_pos_lower | apply digits2_pos_upper].
Qed.

Lemma Zdigits2_mono (a b : Z) : 0 <= a <= b -> Zdigits2 a <= Zdigits2 b.
Proof.
  intros [Ha Hab].
  destruct (Z.eq_dec a 0) as [->|Hn]; [apply Zdigits2_nonneg|].
  assert (Hb : 0 < b) by lia.
  pose proof (Zdigits2_bounds a ltac:(lia)) as [La _].
  pose proof (Zdigits2_bounds b Hb) as [_ Ub].
  destruct (Z_lt_le_dec (Zdigits2 b) (Zdigits2 a)) as [C|C]; [|exact C].
  exfalso.
  assert (2 ^ Zdigits2 b <= 2 ^ (Zdigits2 a - 1)).
  { apply Z.pow_le_mono_r; [lia|]. lia. }
  lia.
Qed.

Lemma Zdigits2_ge_pow (m k : Z) : 0 <= k -> 2 ^ k <= m -> k + 1 <= Zdigits2 m.
Proof.
  intros Hk H.
  assert (0 < 2 ^ k) by (apply Z.pow_pos_nonneg; lia).
  pose proof (Zdigits2_bounds m ltac:(lia)) as [_ U].
  destruct (Z_lt_le_dec (Zdigits2 m) (k + 1)) as [C|C]; [|exact C].
  exfalso.
  assert (2 ^ Zdigits2 m <= 2 ^ k).
  { apply Z.pow_le_mono_r; [lia|]. lia. }
  lia.
Qed.

(** ** Shifting a mantissa right *)

Lemma iter_pos_nat {A : Type} (f : A -> A) (p : positive) (x : A) :
  iter_pos f p x = Nat.iter (Pos.to_nat p) f x.
Proof.
  revert x. induction p as [p IH|p IH|]; intro x.
  - change (iter_pos f p~1 x) with (iter_pos f p (iter_pos f p (f x))).
    rewrite !IH, Pos2Nat.inj_xI.
    rewrite <- Nat.iter_succ_r, <- Nat.iter_add.
    f_equal. lia.
  - change (iter_pos f p~0 x) with (iter_pos f p (iter_pos f p x)).
    rewrite !IH, Pos2Nat.inj_xO.
    rewrite <- Nat.iter_add. f_equal. lia.
  - reflexivity.
Qed.

Lemma shr_1_m (mrs : shr_record) :
  0 <= shr_m mrs -> shr_m (shr_1 mrs) = shr_m mrs / 2.
Proof.
  destruct mrs as [m r s]. simpl. intro Hm.
  destruct m as [|[p|p|]|]; simpl; try lia; try reflexivity.
  - apply Z.div_unique with (r := 1); lia.
  - apply Z.div_unique with (r := 0); lia.
Qed.

Lemma shr_1_inexact (mrs : shr_record) :
  0 <= shr_m mrs ->
  inexact (shr_1 mrs) = inexact mrs || Z.odd (shr_m mrs).
Proof.
  destruct mrs as [m r s]. unfold inexact. simpl. intro Hm.
  destruct m as [|[p|p|]|]; simpl; try lia;
    destruct r, s; reflexivity.
Qed.

Lemma mod_pow2_succ (m n : Z) :
  0 <= n ->
  (m mod 2 ^ (n + 1) =? 0) = (m mod 2 ^ n =? 0) && Z.even (m / 2 ^ n).
Proof.
  intro Hn.
  assert (Hp : 0 < 2 ^ n) by (apply Z.pow_pos_nonneg; lia).
  rewrite Z.pow_add_r by lia. change (2 ^ 1) with 2.
  rewrite Z.rem_mul_r by lia.
  pose proof (Z.mod_pos_bound m (2 ^ n) Hp) as B1.
  pose proof (Z.mod_pos_bound (m / 2 ^ n) 2 ltac:(lia)) as B2.
  rewrite <- Z.negb_odd, Zodd_mod.
  destruct (Z.eqb_spec (m mod 2 ^ n) 0) as [E|E];
    destruct (Z.eqb_spec ((m / 2 ^ n) mod 2) 1) as [E2|E2]; simpl.
  - apply Z.eqb_neq. rewrite E, E2. lia.
  - apply Z.eqb_eq. assert ((m / 2 ^ n) mod 2 = 0) as -> by lia. lia.
  - apply Z.eqb_neq. nia.
  - apply Z.eqb_neq. nia.
Qed.

Lemma shr_iter (n : nat) (mrs : shr_record) :
  0 <= shr_m mrs ->
  shr_m (Nat.iter n shr_1 mrs) = shr_m mrs / 2 ^ Z.of_nat n /\
  inexact (Nat.iter n shr_1 mrs) =
    inexact mrs || negb (shr_m mrs mod 2 ^ Z.of_nat n =? 0).
Proof.
  intro Hm. induction n as [|n [IHm IHi]].
  - simpl. rewrite Z.div_1_r, Z.mod_1_r. simpl.
    split; [reflexivity | now rewrite orb_false_r].
  - assert (Hp : 0 < 2 ^ Z.of_nat n) by (apply Z.pow_pos_nonneg; lia).
    assert (Hq : 0 <= shr_m (Nat.iter n shr_1 mrs)).
    { rewrite IHm. apply Z.div_pos; lia. }
    rewrite Nat2Z.inj_succ, <- Z.add_1_r. simpl Nat.iter. split.
    + rewrite shr_1_m, IHm by exact Hq.
      rewrite Z.div_div by lia. rewrite Z.pow_add_r by lia. reflexivity.
    + rewrite shr_1_inexact, IHi, IHm by exact Hq.
      rewrite mod_pow2_succ by lia.
      rewrite negb_andb, Z.negb_even, orb_assoc. reflexivity.
Qed.

Lemma shr_record_of_loc_m (m : Z) (l : location) :
  shr_m (shr_record_of_loc m l) = m.
Proof. destruct l as [|[ | | ]]; reflexivity. Qed.

Lemma shr_record_of_loc_inexact (m : Z) (l : location) :
  inexact (shr_record_of_loc m l) = negb (loc_exact l).
Proof. destruct l as [|[ | | ]]; reflexivity. Qed.

Lemma loc_of_shr_record_exact (mrs : shr_record) :
  loc_exact (loc_of_shr_record mrs) = negb (inexact mrs).
Proof. destruct mrs as [m [|] [|]]; reflexivity. Qed.

Lemma shr_fexp_spec (m e : Z) (l : location) (mrs' : shr_record) (e' : Z) :
  0 <= m ->
  shr_fexp F64.prec F64.emax m e l = (mrs', e') ->
  let n := Z.max (fexp F64.prec F64.emax (Zdigits2 m + e) - e) 0 in
  shr_m mrs' = m / 2 ^ n /\ e' = e + n /\
  inexact mrs' = negb (loc_exact l) || negb (m mod 2 ^ n =? 0).
Proof.
  intros Hm. unfold shr_fexp, shr.
  destruct (fexp F64.prec F64.emax (Zdigits2 m + e) - e) as [|p|p] eqn:En;
    intro H; inversion H; subst; clear H; simpl Z.max.
  - rewrite Z.div_1_r, Z.mod_1_r, shr_record_of_loc_m, shr_record_of_loc_inexact.
    simpl. rewrite orb_false_r. repeat split; lia.
  - rewrite iter_pos_nat.
    pose proof (shr_iter (Pos.to_nat p) (shr_record_of_loc m l)) as S.
    rewrite shr_record_of_loc_m, shr_record_of_loc_inexact in S.
    rewrite positive_nat_Z in S. specialize (S Hm). destruct S as [S1 S2].
    replace (Z.max (Zpos p) 0) with (Zpos p) by lia.
    repeat split; assumption.
  - replace (Z.max (Zneg p) 0) with 0 by lia.
    rewrite Z.div_1_r, Z.mod_1_r, shr_record_of_loc_m, shr_record_of_loc_inexact.
    simpl. rewrite orb_false_r. repeat split; lia.
Qed.

Lemma round_nearest_even_bounds (m : Z) (l : location) :
  m <= round_nearest_even m l <= m + 1 /\
  (loc_exact l = true -> round_nearest_even m l = m).
Proof.
  destruct l as [|[ | | ]]; simpl;
    (split; [destruct (Z.even m); lia | (reflexivity || discriminate)]).
Qed.


(** ** Powers of two as rationals *)

Lemma bpow_pos (e : Z) : (0 < bpow e)%Q.
Proof. apply Qpower_0_lt. reflexivity. Qed.

Lemma bpow_add (a b : Z) : (bpow (a + b) == bpow a * bpow b)%Q.
Proof. apply Qpower_plus. discriminate. Qed.

Lemma bpow_Z (n : Z) : 0 <= n -> (bpow n == inject_Z (2 ^ n))%Q.
Proof. intro H. rewrite Zpower_Qpower by exact H. reflexivity. Qed.

Lemma bpow_le (a b : Z) : a <= b -> (bpow a <= bpow b)%Q.
Proof. intro H. apply Qpower_le_compat_l; [exact H | discriminate]. Qed.

Lemma bpow_lt_inv (a b : Z) : (bpow a < bpow b)%Q -> a < b.
Proof. intro H. apply Qpower_lt_compat_l_inv with (q := 2%Q); [exact H | reflexivity]. Qed.

Opaque bpow.

Lemma F2Q_shift (m n e : Z) : 0 <= n -> (F2Q (m * 2 ^ n) e == F2Q m (e + n))%Q.
Proof.
  intro H. unfold F2Q.
  rewrite inject_Z_mult, bpow_add, (bpow_Z n H). ring.
Qed.

Lemma F2Q_le (m1 m2 e : Z) : m1 <= m2 <-> (F2Q m1 e <= F2Q m2 e)%Q.
Proof.
  unfold F2Q. rewrite Qmult_le_r by apply bpow_pos.
  rewrite Zle_Qle. reflexivity.
Qed.

Lemma F2Q_lt (m1 m2 e : Z) : m1 < m2 <-> (F2Q m1 e < F2Q m2 e)%Q.
Proof.
  unfold F2Q. rewrite Qmult_lt_r by apply bpow_pos.
  rewrite Zlt_Qlt. reflexivity.
Qed.

Lemma F2Q_floor (m n e : Z) :
  0 <= n -> 0 <= m -> (F2Q (m / 2 ^ n) (e + n) <= F2Q m e)%Q.
Proof.
  intros Hn Hm. rewrite <- F2Q_shift by exact Hn. apply F2Q_le.
  assert (0 < 2 ^ n) by (apply Z.pow_pos_nonneg; lia).
  rewrite Z.mul_comm. apply Z.mul_div_le. lia.
Qed.

Lemma F2Q_floor_lt (m n e : Z) :
  0 <= n -> 0 <= m -> m mod 2 ^ n <> 0 ->
  (F2Q (m / 2 ^ n) (e + n) < F2Q m e)%Q.
Proof.
  intros Hn Hm Hr. rewrite <- F2Q_shift by exact Hn. apply F2Q_lt.
  assert (Hp : 0 < 2 ^ n) by (apply Z.pow_pos_nonneg; lia).
  pose proof (Z.div_mod m (2 ^ n) ltac:(lia)) as E.
  pose proof (Z.mod_pos_bound m (2 ^ n) Hp). lia.
Qed.

Lemma F2Q_digits_lower (m e : Z) :
  0 < m -> (bpow (Zdigits2 m - 1 + e) <= F2Q m e)%Q.
Proof.
  intro Hm. pose proof (Zdigits2_bounds m Hm) as [L _].
  assert (Hd : 0 <= Zdigits2 m - 1).
  { pose proof (Zdigits2_ge_pow m 0 ltac:(lia) ltac:(simpl; lia)). lia. }
  rewrite bpow_add, (bpow_Z _ Hd).
  apply (proj1 (F2Q_le _ _ e)). exact L.
Qed.

Lemma F2Q_upper (b p eb : Z) :
  0 <= p -> b < 2 ^ p -> (F2Q b eb < bpow (p + eb))%Q.
Proof.
  intros Hp Hb. rewrite bpow_add, (bpow_Z _ Hp).
  apply (proj1 (F2Q_lt _ _ eb)). exact Hb.
Qed.

Lemma F2Q_nonneg (m e : Z) : 0 <= m -> (0 <= F2Q m e)%Q.
Proof.
  intro H. unfold F2Q. apply Qmult_le_0_compat.
  - rewrite Zle_Qle in H. exact H.
  - apply Qlt_le_weak, bpow_pos.
Qed.

Lemma F2Q_0 (e : Z) : (F2Q 0 e == 0)%Q.
Proof. unfold F2Q. change (inject_Z 0) with 0%Q. ring. Qed.

Lemma F2Q_pos (m e : Z) : 0 < m -> (0 < F2Q m e)%Q.
Proof.
  intro H. unfold F2Q. apply Qmult_lt_0_compat; [|apply bpow_pos].
  change 0%Q with (inject_Z 0). rewrite <- Zlt_Qlt. exact H.
Qed.

(** ** Rounding to the format *)

Ltac unfold_format := unfold fexp, emin, F64.prec, F64.emax in *.

(** A bound of the format that lies above the value stays above it after
    rounding up on the grid of exponent [e']. *)
Lemma grid_step (m' e' b eb : Z) :
  e' <= eb -> (F2Q m' e' < F2Q b eb)%Q -> (F2Q (m' + 1) e' <= F2Q b eb)%Q.
Proof.
  intros He H.
  replace eb with (e' + (eb - e')) in * by lia.
  rewrite <- F2Q_shift in * by lia.
  apply F2Q_lt in H. apply F2Q_le. lia.
Qed.

Lemma above_format_absurd (mx ex b eb e' : Z) :
  0 <= mx ->
  ex <= e' ->
  e' = fexp F64.prec F64.emax (Zdigits2 mx + ex) ->
  0 < b < 2 ^ F64.prec ->
  emin F64.prec F64.emax <= eb ->
  (F2Q mx ex <= F2Q b eb)%Q ->
  e' <= eb.
Proof.
  intros Hm Hex He' Hb Heb Hle.
  destruct (Z_le_gt_dec e' eb) as [C|C]; [exact C|exfalso].
  unfold_format.
  destruct (Z.eq_dec mx 0) as [->|Hn].
  - simpl in He'. lia.
  - pose proof (F2Q_digits_lower mx ex ltac:(lia)) as L.
    pose proof (F2Q_upper b 53 eb ltac:(lia) ltac:(lia)) as U.
    assert (LT : (bpow (Zdigits2 mx - 1 + ex) < bpow (53 + eb))%Q).
    { eapply Qle_lt_trans; [exact L|]. eapply Qle_lt_trans; [exact Hle|exact U]. }
    apply bpow_lt_inv in LT. lia.
Qed.

(** Truncating to the grid of exponent [e + n] keeps a value above a bound
    of the format. *)
Lemma floor_above (m e n b eb : Z) :
  0 <= m -> 0 <= n ->
  e + n = fexp F64.prec F64.emax (Zdigits2 m + e) \/ n = 0 ->
  0 < b < 2 ^ F64.prec ->
  emin F64.prec F64.emax <= eb ->
  (F2Q b eb <= F2Q m e)%Q ->
  (F2Q b eb <= F2Q (m / 2 ^ n) (e + n))%Q.
Proof.
  intros Hm Hn He Hb Heb Hle.
  assert (Hp : 0 < 2 ^ n) by (apply Z.pow_pos_nonneg; lia).
  destruct (Z.eq_dec n 0) as [->|Hn0].
  { rewrite Z.div_1_r, Z.add_0_r. exact Hle. }
  destruct He as [He|He]; [|lia].
  assert (Hmpos : 0 < m).
  { destruct (Z.eq_dec m 0) as [->|]; [|lia].
    exfalso. rewrite F2Q_0 in Hle.
    pose proof (F2Q_pos b eb ltac:(lia)). lra. }
  destruct (Z_le_gt_dec (e + n) eb) as [C|C].
  - (* the bound lies on the grid *)
    replace eb with (e + n + (eb - (e + n))) in * by lia.
    rewrite <- F2Q_shift in * by lia.
    apply F2Q_le.
    set (B := b * 2 ^ (eb - (e + n))) in *.
    rewrite <- F2Q_shift in Hle by lia.
    apply F2Q_le in Hle.
    apply Z.div_le_lower_bound; lia.
  - (* the result keeps a full significand *)
    unfold_format.
    pose proof (Zdigits2_bounds m Hmpos) as [L _].
    assert (Hd : Zdigits2 m - 1 = 52 + n) by lia.
    rewrite Hd in L.
    assert (2 ^ 52 <= m / 2 ^ n).
    { apply Z.div_le_lower_bound; [lia|].
      rewrite Z.pow_add_r in L by lia. lia. }
    pose proof (F2Q_upper b 53 eb ltac:(lia) ltac:(lia)) as U.
    apply Qlt_le_weak. eapply Qlt_le_trans; [exact U|].
    eapply Qle_trans; [apply bpow_le with (b := 52 + (e + n)); lia|].
    rewrite bpow_add, (bpow_Z 52) by lia.
    apply (proj1 (F2Q_le _ _ (e + n))). exact H.
Qed.

Section RoundAux.

(** The mantissa [mx] at exponent [ex] with location [lx] is what an
    operation hands to the rounding; it carries enough digits, and [q] is a
    number of the format. *)
Variables (mx ex : Z) (lx : location) (q : Q).
Hypothesis Hm : 0 <= mx.
Hypothesis HP : ex <= fexp F64.prec F64.emax (Zdigits2 mx + ex).
Hypothesis Hrep : representable q.

(** Rounding does not step over a number of the format from below. *)
Theorem binary_round_aux_le :
  (F2Q mx ex <= q)%Q ->
  (loc_exact lx = false -> (F2Q mx ex < q)%Q) ->
  fle (binary_round_aux F64.prec F64.emax false mx ex lx) q.
Proof.
  intros Hle Hlt. destruct Hrep as (b & eb & Hb & Heb & Hq).
  rewrite Hq in Hle. 
  assert (Hlt' : loc_exact lx = false -> (F2Q mx ex < F2Q b eb)%Q).
  { intro E. rewrite <- Hq. auto. }
  clear Hlt.
  unfold binary_round_aux.
  destruct (shr_fexp F64.prec F64.emax mx ex lx) as [mrs' e'] eqn:E1.
  destruct (shr_fexp_spec _ _ _ _ _ Hm E1) as (M1 & X1 & I1).
  set (n1 := Z.max (fexp F64.prec F64.emax (Zdigits2 mx + ex) - ex) 0) in *.
  assert (Hn1 : 0 <= n1) by (unfold n1; lia).
  assert (He' : e' = fexp F64.prec F64.emax (Zdigits2 mx + ex)) by (unfold n1 in *; lia).
  assert (Hp1 : 0 < 2 ^ n1) by (apply Z.pow_pos_nonneg; lia).
  assert (Hm' : 0 <= shr_m mrs') by (rewrite M1; apply Z.div_pos; lia).
  (* value after the first shift *)
  assert (V1 : (F2Q (shr_m mrs') e' <= F2Q b eb)%Q).
  { rewrite M1, X1. eapply Qle_trans; [apply F2Q_floor; lia | exact Hle]. }
  assert (V1s : inexact mrs' = true -> (F2Q (shr_m mrs') e' < F2Q b eb)%Q).
  { rewrite I1, M1, X1. intro I.
    apply orb_true_iff in I. destruct I as [I|I].
    - eapply Qle_lt_trans; [apply F2Q_floor; lia|].
      apply Hlt'. now apply negb_true_iff in I.
    - eapply Qlt_le_trans; [apply F2Q_floor_lt; lia | exact Hle]. }
  (* rounding *)
  set (m2 := round_nearest_even (shr_m mrs') (loc_of_shr_record mrs')) in *.
  destruct (round_nearest_even_bounds (shr_m mrs') (loc_of_shr_record mrs'))
    as [[R1 R2] R3].
  fold m2 in R1, R2, R3. rewrite loc_of_shr_record_exact in R3.
  assert (Hfmt : e' <= eb).
  { eapply above_format_absurd with (mx := mx) (ex := ex); eauto; lia. }
  assert (V2 : (F2Q m2 e' <= F2Q b eb)%Q).
  { destruct (inexact mrs') eqn:I.
    - eapply Qle_trans; [|apply grid_step; [exact Hfmt | apply V1s; reflexivity]].
      apply F2Q_le. lia.
    - rewrite R3 by reflexivity. exact V1. }
  assert (Hm2 : 0 <= m2) by lia.
  destruct (shr_fexp F64.prec F64.emax m2 e' loc_Exact) as [mrs'' e''] eqn:E2.
  destruct (shr_fexp_spec _ _ _ _ _ Hm2 E2) as (M2 & X2 & _).
  set (n2 := Z.max (fexp F64.prec F64.emax (Zdigits2 m2 + e') - e') 0) in *.
  assert (Hn2 : 0 <= n2) by (unfold n2; lia).
  assert (V3 : (F2Q (shr_m mrs'') e'' <= F2Q b eb)%Q).
  { rewrite M2, X2. eapply Qle_trans; [apply F2Q_floor; lia | exact V2]. }
  destruct (shr_m mrs'') as [|p|p] eqn:E3.
  - exact I.
  - assert (Hfin : e'' <= F64.emax - F64.prec).
    { destruct (Z.eq_dec n2 0) as [Z2|Z2].
      - lia.
      - assert (Hm2p : 0 < m2).
        { destruct (Z.eq_dec m2 0) as [Z0|Z0]; [|lia].
          rewrite Z0 in M2. rewrite Z.div_0_l in M2; lia. }
        assert (e'' <= eb); [|lia].
        eapply above_format_absurd with (mx := m2) (ex := e'); eauto; lia. }
    apply Z.leb_le in Hfin. rewrite Hfin.
    simpl. rewrite Hq. exact V3.
  - assert (0 <= m2 / 2 ^ n2).
    { apply Z.div_pos; [lia|]. apply Z.pow_pos_nonneg; lia. }
    lia.
Qed.


(** Nor from above. *)
Theorem binary_round_aux_ge :
  (q <= F2Q mx ex)%Q ->
  fge (binary_round_aux F64.prec F64.emax false mx ex lx) q.
Proof.
  intros Hle. destruct Hrep as (b & eb & Hb & Heb & Hq).
  rewrite Hq in Hle.
  unfold binary_round_aux.
  destruct (shr_fexp F64.prec F64.emax mx ex lx) as [mrs' e'] eqn:E1.
  destruct (shr_fexp_spec _ _ _ _ _ Hm E1) as (M1 & X1 & _).
  set (n1 := Z.max (fexp F64.prec F64.emax (Zdigits2 mx + ex) - ex) 0) in *.
  assert (Hn1 : 0 <= n1) by (unfold n1; lia).
  assert (Hp1 : 0 < 2 ^ n1) by (apply Z.pow_pos_nonneg; lia).
  assert (Hm' : 0 <= shr_m mrs') by (rewrite M1; apply Z.div_pos; lia).
  assert (V1 : (F2Q b eb <= F2Q (shr_m mrs') e')%Q).
  { rewrite M1, X1. apply floor_above; try exact Hle; unfold n1; lia. }
  set (m2 := round_nearest_even (shr_m mrs') (loc_of_shr_record mrs')) in *.
  destruct (round_nearest_even_bounds (shr_m mrs') (loc_of_shr_record mrs'))
    as [[R1 R2] _].
  fold m2 in R1, R2.
  assert (V2 : (F2Q b eb <= F2Q m2 e')%Q).
  { eapply Qle_trans; [exact V1|]. apply F2Q_le. lia. }
  assert (Hm2 : 0 <= m2) by lia.
  destruct (shr_fexp F64.prec F64.emax m2 e' loc_Exact) as [mrs'' e''] eqn:E2.
  destruct (shr_fexp_spec _ _ _ _ _ Hm2 E2) as (M2 & X2 & _).
  set (n2 := Z.max (fexp F64.prec F64.emax (Zdigits2 m2 + e') - e') 0) in *.
  assert (Hn2 : 0 <= n2) by (unfold n2; lia).
  assert (V3 : (F2Q b eb <= F2Q (shr_m mrs'') e'')%Q).
  { rewrite M2, X2. apply floor_above; try exact V2; unfold n2; lia. }
  assert (Bpos : (0 < F2Q b eb)%Q) by (apply F2Q_pos; lia).
  destruct (shr_m mrs'') as [|p|p] eqn:E3.
  - exfalso. rewrite F2Q_0 in V3. lra.
  - destruct (e'' <=? F64.emax - F64.prec); simpl; [|exact I].
    rewrite Hq. exact V3.
  - assert (0 <= m2 / 2 ^ n2).
    { apply Z.div_pos; [lia|]. apply Z.pow_pos_nonneg; lia. }
    lia.
Qed.

End RoundAux.

(** ** Aligning mantissas *)

Lemma pos_iter_xO (m d : positive) :
  Zpos (Pos.iter xO m d) = Zpos m * 2 ^ Zpos d.
Proof.
  induction d as [|d IH] using Pos.peano_ind.
  - simpl. lia.
  - rewrite Pos.iter_succ, Pos2Z.inj_succ, Z.pow_succ_r by lia.
    rewrite Pos2Z.inj_xO, IH. lia.
Qed.

Lemma pos_iter_xO_digits (m d : positive) :
  Zpos (digits2_pos (Pos.iter xO m d)) = Zpos (digits2_pos m) + Zpos d.
Proof.
  induction d as [|d IH] using Pos.peano_ind.
  - simpl. lia.
  - rewrite Pos.iter_succ, Pos2Z.inj_succ. simpl digits2_pos.
    rewrite Pos2Z.inj_succ, IH. lia.
Qed.

Lemma shl_align_spec (m : positive) (e e' : Z) :
  let '(mz, ez) := shl_align m e e' in
  ez = Z.min e e' /\
  Zpos mz = Zpos m * 2 ^ (e - ez) /\
  Zpos (digits2_pos mz) = Zpos (digits2_pos m) + (e - ez).
Proof.
  unfold shl_align. destruct (e' - e) as [|d|d] eqn:E.
  - replace (Z.min e e') with e by lia. rewrite Z.sub_diag. simpl. lia.
  - replace (Z.min e e') with e by lia. rewrite Z.sub_diag. simpl. lia.
  - replace (Z.min e e') with e' by lia.
    replace (e - e') with (Zpos d) by lia.
    rewrite pos_iter_xO, pos_iter_xO_digits. lia.
Qed.

Lemma shl_align_value (m : positive) (e e' : Z) :
  (F2Q (Zpos (fst (shl_align m e e'))) (snd (shl_align m e e')) == F2Q (Zpos m) e)%Q.
Proof.
  pose proof (shl_align_spec m e e') as S.
  destruct (shl_align m e e') as [mz ez]. destruct S as (S1 & S2 & _).
  simpl. rewrite S2. rewrite F2Q_shift by lia.
  replace (ez + (e - ez)) with e by lia. reflexivity.
Qed.

Lemma binary_round_bounds (m : positive) (e : Z) :
  (forall q, representable q -> (F2Q (Zpos m) e <= q)%Q ->
             fle (binary_round F64.prec F64.emax false m e) q) /\
  (forall q, representable q -> (q <= F2Q (Zpos m) e)%Q ->
             fge (binary_round F64.prec F64.emax false m e) q).
Proof.
  unfold binary_round.
  pose proof (shl_align_spec m e (fexp F64.prec F64.emax (Zpos (digits2_pos m) + e))) as S.
  pose proof (shl_align_value m e (fexp F64.prec F64.emax (Zpos (digits2_pos m) + e))) as V.
  destruct (shl_align m e _) as [mz ez]. destruct S as (S1 & S2 & S3).
  simpl in V.
  assert (P : ez <= fexp F64.prec F64.emax (Zdigits2 (Zpos mz) + ez)).
  { simpl Zdigits2. rewrite S3.
    replace (Zpos (digits2_pos m) + (e - ez) + ez) with (Zpos (digits2_pos m) + e) by lia.
    lia. }
  split; intros q Hr Hq.
  - apply binary_round_aux_le; try assumption; try lia.
    + rewrite V. exact Hq.
    + discriminate.
  - apply binary_round_aux_ge; try assumption; try lia.
    rewrite V. exact Hq.
Qed.


Lemma F2Q_mul (a b e1 e2 : Z) : (F2Q a e1 * F2Q b e2 == F2Q (a * b) (e1 + e2))%Q.
Proof. unfold F2Q. rewrite inject_Z_mult, bpow_add. ring. Qed.

Lemma F2Q_add (a b e : Z) : (F2Q a e + F2Q b e == F2Q (a + b) e)%Q.
Proof. unfold F2Q. rewrite inject_Z_plus. ring. Qed.

Lemma F2Q_int (z : Z) : (F2Q z 0 == inject_Z z)%Q.
Proof. unfold F2Q. rewrite (bpow_Z 0) by lia. change (inject_Z (2 ^ 0)) with 1%Q. ring. Qed.

Lemma representable_int (z : Z) : 0 < z < 2 ^ 53 -> representable (inject_Z z).
Proof.
  intro H. exists z, 0. unfold emin, F64.prec, F64.emax.
  repeat split; try lia. symmetry. apply F2Q_int.
Qed.

Lemma fle_weaken (f : float) (q q' : Q) : fle f q -> (q <= q')%Q -> fle f q'.
Proof.
  destruct f as [s|s| |[|] m e]; simpl; auto. intros. lra.
Qed.

(** ** Sums *)

Lemma add_fle (x y : float) (q1 q2 q3 : Q) :
  fle x q1 -> fle y q2 -> (0 <= q1)%Q -> (0 <= q2)%Q ->
  representable q3 -> (q1 + q2 <= q3)%Q ->
  fle (F64.add x y) q3.
Proof.
  intros Hx Hy H1 H2 Hr Hs.
  destruct x as [sx|sx| |sx mx ex]; simpl in Hx; try contradiction;
  destruct y as [sy|sy| |sy my ey]; simpl in Hy; try contradiction.
  - destruct sx, sy; exact I.
  - destruct sy; [contradiction|]. simpl. lra.
  - destruct sx; [contradiction|]. simpl. lra.
  - destruct sx; [contradiction|]. destruct sy; [contradiction|].
    unfold F64.add, SFadd. cbv zeta.
    set (ez := Z.min ex ey).
    pose proof (shl_align_spec mx ex ez) as Sx.
    pose proof (shl_align_value mx ex ez) as Vx.
    pose proof (shl_align_spec my ey ez) as Sy.
    pose proof (shl_align_value my ey ez) as Vy.
    destruct (shl_align mx ex ez) as [ax ex'].
    destruct (shl_align my ey ez) as [ay ey'].
    destruct Sx as (Sx & _). destruct Sy as (Sy & _).
    simpl in Vx, Vy |- *.
    assert (Ex : ex' = ez) by (unfold ez in *; lia).
    assert (Ey : ey' = ez) by (unfold ez in *; lia).
    rewrite Ex in Vx. rewrite Ey in Vy. clear Sx Sy Ex Ey.
    apply (proj1 (binary_round_bounds (ax + ay) ez)); [exact Hr|].
    rewrite Pos2Z.inj_add, <- F2Q_add, Vx, Vy. lra.
Qed.

(** ** Products *)

Lemma mul_fle (x : float) (my : positive) (ey : Z) (q1 q3 : Q) :
  fle x q1 -> 2 ^ (F64.prec - 1) <= Zpos my ->
  representable q3 -> (q1 * F2Q (Zpos my) ey <= q3)%Q ->
  fle (F64.mul x (S754_finite false my ey)) q3.
Proof.
  intros Hx Hmy Hr Hq.
  destruct x as [sx|sx| |sx mx ex]; simpl in Hx; try contradiction.
  - exact I.
  - destruct sx; [contradiction|].
    unfold F64.mul, SFmul. simpl xorb.
    apply binary_round_aux_le; [lia | | exact Hr | | discriminate].
    + unfold F64.prec in Hmy. simpl in Hmy.
      assert (52 + 1 <= Zdigits2 (Zpos (mx * my))).
      { apply Zdigits2_ge_pow; [lia|]. rewrite Pos2Z.inj_mul. nia. }
      unfold_format. lia.
    + rewrite Pos2Z.inj_mul, <- F2Q_mul.
      eapply Qle_trans; [|exact Hq].
      apply Qmult_le_compat_r; [exact Hx|].
      apply Qlt_le_weak, F2Q_pos. lia.
Qed.

(** ** Quotients *)

Lemma new_location_exact (n r : Z) :
  loc_exact (new_location n r) = (r =? 0).
Proof.
  unfold new_location, new_location_even, new_location_odd.
  destruct (Z.even n); destruct (r =? 0); reflexivity.
Qed.

Lemma div_core_spec (mx my : positive) (ex ey mz ez : Z) (lz : location) :
  SFdiv_core_binary F64.prec F64.emax (Zpos mx) ex (Zpos my) ey = (mz, ez, lz) ->
  0 <= mz /\
  ez <= fexp F64.prec F64.emax (Zdigits2 mz + ez) /\
  (F2Q mz ez * F2Q (Zpos my) ey <= F2Q (Zpos mx) ex)%Q /\
  (loc_exact lz = false -> (F2Q mz ez * F2Q (Zpos my) ey < F2Q (Zpos mx) ex)%Q).
Proof.
  unfold SFdiv_core_binary.
  set (d1 := Zdigits2 (Zpos mx)). set (d2 := Zdigits2 (Zpos my)).
  set (e' := Z.min (fexp F64.prec F64.emax (d1 + ex - (d2 + ey))) (ex - ey)).
  set (s := ex - ey - e').
  assert (Hs : 0 <= s) by (unfold s, e'; lia).
  set (m' := match s with
             | 0 => Zpos mx
             | Zpos _ => Z.shiftl (Zpos mx) s
             | Zneg _ => 0
             end).
  assert (Hm' : m' = Zpos mx * 2 ^ s).
  { unfold m'. destruct s as [|p|p] eqn:Es; try lia.
    rewrite Z.shiftl_mul_pow2 by lia. reflexivity. }
  clearbody m'.
  pose proof (Z_div_mod m' (Zpos my) ltac:(lia)) as DM.
  destruct (Z.div_eucl m' (Zpos my)) as [q r].
  destruct DM as [DM Hr].
  intro H. inversion H; subst mz ez lz; clear H.
  assert (Hp : 0 < 2 ^ s) by (apply Z.pow_pos_nonneg; lia).
  assert (Hq : 0 <= q) by nia.
  pose proof (Zdigits2_bounds (Zpos mx) ltac:(lia)) as [L1 U1].
  pose proof (Zdigits2_bounds (Zpos my) ltac:(lia)) as [L2 U2].
  fold d1 in L1, U1. fold d2 in L2, U2.
  assert (Hd1 : 1 <= d1) by (unfold d1; simpl; lia).
  assert (Hd2 : 1 <= d2) by (unfold d2; simpl; lia).
  assert (Ev : (F2Q (Zpos mx) ex == F2Q (Zpos mx * 2 ^ s) (e' + ey))%Q).
  { rewrite F2Q_shift by lia.
    replace (e' + ey + s) with ex by (unfold s; lia). reflexivity. }
  split; [exact Hq|]. split; [|split].
  - (* enough precision for the rounding *)
    assert (Hdq : d1 + s - d2 <= Zdigits2 q).
    { destruct (Z_le_gt_dec (d1 + s - d2) 0) as [C|C].
      - pose proof (Zdigits2_nonneg q). lia.
      - set (k := d1 + s - d2 - 1).
        assert (Hk : 0 <= k) by (unfold k; lia).
        assert (Hpow : 2 ^ (d1 - 1) * 2 ^ s = 2 ^ k * 2 ^ d2).
        { rewrite <- !Z.pow_add_r by lia. f_equal. unfold k. lia. }
        assert (0 < 2 ^ k) by (apply Z.pow_pos_nonneg; lia).
        assert (2 ^ k <= q) by nia.
        pose proof (Zdigits2_ge_pow q k Hk ltac:(lia)). unfold k in *. lia. }
    unfold_format. lia.
  - rewrite F2Q_mul, Ev. apply F2Q_le. nia.
  - rewrite new_location_exact. intro E. apply Z.eqb_neq in E.
    rewrite F2Q_mul, Ev. apply F2Q_lt. nia.
Qed.

Lemma div_fle (x : float) (my : positive) (ey : Z) (qx q : Q) :
  fle x qx -> representable q -> (qx <= q * F2Q (Zpos my) ey)%Q ->
  fle (F64.div x (S754_finite false my ey)) q.
Proof.
  intros Hx Hr Hq.
  assert (Ypos : (0 < F2Q (Zpos my) ey)%Q) by (apply F2Q_pos; lia).
  destruct x as [sx|sx| |sx mx ex]; simpl in Hx; try contradiction.
  - exact I.
  - destruct sx; [contradiction|].
    unfold F64.div, SFdiv.
    destruct (SFdiv_core_binary F64.prec F64.emax (Zpos mx) ex (Zpos my) ey)
      as [[mz ez] lz] eqn:E.
    destruct (div_core_spec _ _ _ _ _ _ _ E) as (Hm & HP & Hv & Hs).
    simpl xorb.
    apply binary_round_aux_le; try assumption.
    + apply (Qmult_le_r _ _ _ Ypos). lra.
    + intro El. apply (Qmult_lt_r _ _ _ Ypos). specialize (Hs El). lra.
Qed.

(** ** Conversions of integers *)

Lemma of_Z_exact (z : Z) :
  0 < z < 2 ^ 53 ->
  exists m e, F64.of_Z z = S754_finite false m e /\
              (F2Q (Zpos m) e == inject_Z z)%Q.
Proof.
  intro Hz. destruct z as [|p|p]; try lia.
  pose proof (representable_int (Zpos p) Hz) as Hr.
  destruct (binary_round_bounds p 0) as [U L].
  specialize (U _ Hr). specialize (L _ Hr).
  rewrite F2Q_int in U, L.
  specialize (U (Qle_refl _)). specialize (L (Qle_refl _)).
  unfold F64.of_Z, binary_normalize.
  destruct (binary_round F64.prec F64.emax false p 0) as [s|s| |s m e];
    simpl in U, L; try contradiction.
  destruct s; [contradiction|]. exists m, e. split; [reflexivity|].
  apply Qle_antisym; assumption.
Qed.

Lemma of_Z_finite (z : Z) :
  0 < z <= 2 ^ 1023 ->
  exists m e, F64.of_Z z = S754_finite false m e.
Proof.
  intro Hz. destruct z as [|p|p]; try lia.
  destruct (binary_round_bounds p 0) as [U L].
  assert (R1 : representable (F2Q (2 ^ 52) 971)).
  { exists (2 ^ 52), 971. unfold emin, F64.prec, F64.emax.
    repeat split; try lia; reflexivity. }
  assert (R2 : representable (F2Q 1 0)).
  { exists 1, 0. unfold emin, F64.prec, F64.emax.
    repeat split; try lia; reflexivity. }
  specialize (U _ R1). specialize (L _ R2).
  assert (H1 : (F2Q (Zpos p) 0 <= F2Q (2 ^ 52) 971)%Q).
  { replace 971 with (0 + 971) by lia. rewrite <- F2Q_shift by lia.
    apply F2Q_le. rewrite <- Z.pow_add_r by lia. exact (proj2 Hz). }
  assert (H2 : (F2Q 1 0 <= F2Q (Zpos p) 0)%Q) by (apply F2Q_le; lia).
  specialize (U H1). specialize (L H2).
  unfold F64.of_Z, binary_normalize.
  destruct (binary_round F64.prec F64.emax false p 0) as [s|s| |s m e];
    simpl in U, L; try contradiction.
  destruct s; [contradiction|]. exists m, e. reflexivity.
Qed.

(** ** Rounding to decimal places *)

Lemma round_half_even_le (n d K : Z) :
  0 < d -> 0 <= n -> n <= K * d ->
  0 <= F64.round_half_even n d <= K.
Proof.
  intros Hd Hn HK. unfold F64.round_half_even.
  pose proof (Z.div_mod n d ltac:(lia)) as E.
  pose proof (Z.mod_pos_bound n d Hd) as B.
  assert (0 <= n / d) by (apply Z.div_pos; lia).
  assert (n / d <= K) by (apply Z.div_le_upper_bound; lia).
  destruct (Z.compare_spec (2 * (n mod d)) d) as [C|C|C].
  - assert (n / d < K) by nia. destruct (Z.even (n / d)); lia.
  - lia.
  - assert (n / d < K) by nia. lia.
Qed.

Lemma F2Q_nonneg_exp (m e : Z) : 0 <= e -> (F2Q m e == inject_Z (m * 2 ^ e))%Q.
Proof.
  intro H. rewrite <- F2Q_int, (F2Q_shift m e 0 H), Z.add_0_l. reflexivity.
Qed.

Lemma inject_Z_as_F2Q (N e : Z) : e <= 0 -> (inject_Z N == F2Q (N * 2 ^ (- e)) e)%Q.
Proof.
  intro H. rewrite (F2Q_shift N (- e) e) by lia.
  replace (e + - e) with 0 by lia. symmetry. apply F2Q_int.
Qed.

Lemma fle_int_bound (m : positive) (e N : Z) :
  (F2Q (Zpos m) e <= inject_Z N)%Q ->
  if 0 <=? e then Zpos m * 2 ^ e <= N else Zpos m <= N * 2 ^ (- e).
Proof.
  intro H. destruct (Z.leb_spec 0 e) as [C|C].
  - rewrite (F2Q_nonneg_exp _ _ C) in H. rewrite <- Zle_Qle in H. exact H.
  - rewrite (inject_Z_as_F2Q N e) in H by lia. apply F2Q_le in H. exact H.
Qed.

Lemma int_bound_fle (m : positive) (e N : Z) :
  (if 0 <=? e then Zpos m * 2 ^ e <= N else Zpos m <= N * 2 ^ (- e)) ->
  (F2Q (Zpos m) e <= inject_Z N)%Q.
Proof.
  intro H. destruct (Z.leb_spec 0 e) as [C|C].
  - rewrite (F2Q_nonneg_exp _ _ C). rewrite <- Zle_Qle. exact H.
  - rewrite (inject_Z_as_F2Q N e) by lia. apply F2Q_le. exact H.
Qed.

Lemma round_fle (x : float) (N : Z) :
  0 < N < 2 ^ 53 ->
  fle x (inject_Z N) ->
  fle (F64.round_ndigits x 2) (inject_Z N).
Proof.
  intros HN Hx.
  destruct x as [sx|sx| |sx m e]; simpl in Hx; try contradiction.
  - exact I.
  - destruct sx; [contradiction|].
    unfold F64.round_ndigits. cbv zeta.
    change (10 ^ 2) with 100. change (Z.to_pos 100) with 100%positive.
    pose proof (fle_int_bound m e N Hx) as B.
    set (q := if 0 <=? e then Zpos m * 2 ^ e * 100
              else F64.round_half_even (Zpos m * 100) (2 ^ (- e))).
    assert (Hq : 0 <= q <= 100 * N).
    { unfold q. destruct (Z.leb_spec 0 e) as [C|C].
      - assert (0 < 2 ^ e) by (apply Z.pow_pos_nonneg; lia). nia.
      - assert (0 < 2 ^ (- e)) by (apply Z.pow_pos_nonneg; lia).
        apply round_half_even_le; nia. }
    clearbody q. unfold F64.of_ratio. destruct q as [|p|p]; try lia.
    + exact I.
    + apply div_fle with (qx := F2Q (Zpos p) 0).
      * simpl. apply Qle_refl.
      * apply representable_int. exact HN.
      * rewrite !F2Q_int. rewrite <- inject_Z_mult, <- Zle_Qle. lia.
Qed.

(** ** Comparisons with integers *)

Lemma fle_compare (f : float) (N : Z) :
  0 <= N -> fle f (inject_Z N) ->
  F64.leb_Z f N = true /\ F64.geb_Z f 0 = true.
Proof.
  intros HN H. unfold F64.leb_Z, F64.geb_Z, F64.compare_Z.
  destruct f as [s|s| |s m e]; simpl in H; try contradiction.
  - split.
    + destruct (Z.compare_spec 0 N); try reflexivity; lia.
    + reflexivity.
  - destruct s; [contradiction|]. simpl cond_Zopp.
    pose proof (fle_int_bound m e N H) as B.
    destruct (0 <=? e) eqn:C.
    + assert (0 < 2 ^ e) by (apply Z.pow_pos_nonneg; lia). split.
      * destruct (Z.compare_spec (Zpos m * 2 ^ e) N); try reflexivity; lia.
      * destruct (Z.compare_spec (Zpos m * 2 ^ e) 0); try reflexivity; nia.
    + split.
      * destruct (Z.compare_spec (Zpos m) (N * 2 ^ (- e))); try reflexivity; lia.
      * simpl. reflexivity.
Qed.

Lemma compare_fle (f : float) (N : Z) :
  F64.geb_Z f 0 = true -> F64.leb_Z f N = true -> fle f (inject_Z N).
Proof.
  unfold F64.leb_Z, F64.geb_Z, F64.compare_Z.
  destruct f as [s|s| |s m e]; simpl; try discriminate.
  - intros _ _. exact I.
  - destruct s; discriminate.
  - destruct s; simpl cond_Zopp.
    + intros H _. exfalso. destruct (0 <=? e) eqn:C.
      * apply Z.leb_le in C.
        assert (0 < 2 ^ e) by (apply Z.pow_pos_nonneg; lia).
        destruct (Z.compare_spec (Zneg m * 2 ^ e) 0); try discriminate; nia.
      * simpl in H. discriminate.
    + intros _ H. apply int_bound_fle.
      destruct (0 <=? e).
      * destruct (Z.compare_spec (Zpos m * 2 ^ e) N); try discriminate; lia.
      * destruct (Z.compare_spec (Zpos m) (N * 2 ^ (- e))); try discriminate; lia.
Qed.


(** ** The percentage chain *)

Lemma int_to_float_100 :
  Py.int_to_float 100 = Ok (S754_finite false 7036874417766400 (-46)).
Proof. reflexivity. Qed.

Lemma F2Q_hundred : (F2Q 7036874417766400 (-46) == inject_Z 100)%Q.
Proof.
  destruct (of_Z_exact 100 ltac:(lia)) as (m & e & E & V).
  vm_compute in E. inversion E; subst. exact V.
Qed.

Lemma inject_Z_1 : inject_Z 1 = 1%Q.
Proof. reflexivity. Qed.

Lemma times_100_round (f : float) :
  fle f (inject_Z 1) ->
  exists p0 p,
    Py.mul (NFloat f) (NInt 100) = Ok (NFloat p0) /\
    Py.round (NFloat p0) 2 = NFloat p /\
    fle p (inject_Z 100).
Proof.
  intro Hf.
  exists (F64.mul f (S754_finite false 7036874417766400 (-46))).
  eexists. split; [|split; [reflexivity|]].
  - unfold Py.mul. simpl Py.num_to_float. rewrite int_to_float_100. reflexivity.
  - apply round_fle; [lia|].
    apply mul_fle with (q1 := inject_Z 1).
    + exact Hf.
    + unfold F64.prec. simpl. lia.
    + apply representable_int. lia.
    + rewrite F2Q_hundred, inject_Z_1. lra.
Qed.

Lemma percentage_of_bounded (t : float) (M : Z) :
  0 < M < 2 ^ 53 ->
  fle t (inject_Z M) ->
  exists p, percentage_of (NFloat t) M = Ok (NFloat p) /\ fle p (inject_Z 100).
Proof.
  intros HM Ht. unfold percentage_of.
  destruct (Z.ltb_spec 0 M) as [_|C]; [|lia].
  destruct (of_Z_exact M HM) as (m & e & E & V).
  assert (Hq : fle (F64.div t (S754_finite false m e)) (inject_Z 1)).
  { apply div_fle with (qx := inject_Z M); [exact Ht| |].
    - apply representable_int. lia.
    - rewrite V, inject_Z_1. lra. }
  destruct (times_100_round _ Hq) as (p0 & p & E1 & E2 & Hp).
  exists p. split; [|exact Hp].
  assert (Ed : Py.truediv (NFloat t) (NInt M) =
               Ok (NFloat (F64.div t (S754_finite false m e)))).
  { unfold Py.truediv. simpl Py.num_to_float. unfold Py.int_to_float.
    rewrite E. reflexivity. }
  rewrite Ed. cbn [bind]. rewrite E1. cbn [bind]. rewrite E2. reflexivity.
Qed.

(** ** The running total over valid marks *)

Lemma valid_mark_fle (m : pyval) :
  valid_mark m = true ->
  exists f, Py.py_float m = Ok f /\ fle f (inject_Z 100).
Proof.
  unfold valid_mark. destruct (Py.py_float m) as [f|e]; [|discriminate].
  intro H. apply andb_true_iff in H. destruct H as [H0 H1].
  exists f. split; [reflexivity|]. apply compare_fle; assumption.
Qed.

Lemma inject_Z_nonneg (z : Z) : 0 <= z -> (0 <= inject_Z z)%Q.
Proof. intro H. change 0%Q with (inject_Z 0). rewrite <- Zle_Qle. exact H. Qed.

Lemma add_mark_valid (t : num) (m : pyval) (k : Z) :
  total_le t (inject_Z (100 * k)) ->
  0 <= k -> 100 * (k + 1) < 2 ^ 53 ->
  valid_mark m = true ->
  exists f, add_mark t m = Ok (NFloat f) /\ fle f (inject_Z (100 * (k + 1))).
Proof.
  intros Ht Hk Hb Hm.
  destruct (valid_mark_fle m Hm) as (g & Eg & Hg).
  assert (Hr : representable (inject_Z (100 * (k + 1)))).
  { apply representable_int. lia. }
  unfold add_mark. rewrite Eg. cbn [bind].
  destruct t as [z|f]; simpl in Ht.
  - subst z. exists (F64.add (S754_zero false) g). split; [reflexivity|].
    apply add_fle with (q1 := 0%Q) (q2 := inject_Z 100); auto.
    + exact I.
    + lra.
    + apply inject_Z_nonneg. lia.
    + rewrite Qplus_0_l. rewrite <- Zle_Qle. lia.
  - exists (F64.add f g). split; [reflexivity|].
    apply add_fle with (q1 := inject_Z (100 * k)) (q2 := inject_Z 100); auto.
    + apply inject_Z_nonneg. lia.
    + apply inject_Z_nonneg. lia.
    + rewrite <- inject_Z_plus, <- Zle_Qle. lia.
Qed.

Lemma sum_marks_valid (l : list (string * pyval)) :
  forall (t : num) (k : Z),
    l <> [] ->
    total_le t (inject_Z (100 * k)) ->
    0 <= k -> 100 * (k + Z.of_nat (List.length l)) < 2 ^ 53 ->
    forallb (fun sm => valid_mark (snd sm)) l = true ->
    exists f, sum_marks t l = Ok (NFloat f) /\
              fle f (inject_Z (100 * (k + Z.of_nat (List.length l)))).
Proof.
  induction l as [|[s m] rest IH]; intros t k Hne Ht Hk Hb Hv; [congruence|].
  simpl in Hv. apply andb_true_iff in Hv. destruct Hv as [Hm Hrest].
  simpl List.length in *. rewrite Nat2Z.inj_succ in *.
  destruct (add_mark_valid t m k Ht Hk ltac:(lia) Hm) as (f & Ef & Hf).
  cbn [sum_marks]. rewrite Ef. cbn [bind].
  destruct rest as [|x rest'].
  - exists f. split; [reflexivity|].
    simpl. replace (k + Z.succ 0) with (k + 1) by lia. exact Hf.
  - destruct (IH (NFloat f) (k + 1)) as (f' & Ef' & Hf'); try assumption;
      try lia; try discriminate.
    exists f'. split; [exact Ef'|].
    replace (k + Z.succ (Z.of_nat (List.length (x :: rest'))))
      with (k + 1 + Z.of_nat (List.length (x :: rest'))) by lia.
    exact Hf'.
Qed.

(** ** The threshold ladder *)

Lemma gpa_grade_first_match (p : num) :
  gpa_grade p = first_match p threshold_table.
Proof.
  unfold gpa_grade, threshold_table. simpl.
  repeat (destruct (Py.ge_int p _); [reflexivity|]). reflexivity.
Qed.

(** On a zero or positive float the comparison with an integer is a
    comparison of integers on a common scale. *)
Lemma compare_Z_scaled (f : float) (q : Q) :
  fle f q ->
  exists X k, 0 < k /\ forall z, F64.compare_Z f z = Some (X ?= z * k).
Proof.
  destruct f as [s|s| |s m e]; simpl; try contradiction.
  - intros _. exists 0, 1. split; [lia|]. intro z. now rewrite Z.mul_1_r.
  - destruct s; [contradiction|]. intros _. simpl cond_Zopp.
    destruct (0 <=? e) eqn:C.
    + exists (Zpos m * 2 ^ e), 1. split; [lia|]. intro z. now rewrite Z.mul_1_r.
    + exists (Zpos m), (2 ^ (- e)). split; [|reflexivity].
      apply Z.pow_pos_nonneg; lia.
Qed.

Lemma exactly_one_band (f : float) (q : Q) :
  fle f q ->
  exists b,
    filter (in_band (NFloat f)) bands = [b] /\
    gpa_grade (NFloat f) = (NFloat (band_gpa b), band_letter b).
Proof.
  intro H. destruct (compare_Z_scaled f q H) as (X & k & Hk & E).
  unfold bands, in_band, gpa_grade, lt_int, Py.ge_int, F64.geb_Z. simpl.
  rewrite !E.
  destruct (Z.compare_spec X (90 * k)); destruct (Z.compare_spec X (80 * k));
    try lia;
    destruct (Z.compare_spec X (70 * k)); try lia;
    destruct (Z.compare_spec X (60 * k)); try lia;
    destruct (Z.compare_spec X (50 * k)); try lia;
    simpl; (eexists; split; reflexivity).
Qed.

(** ** The grading function never raises *)

Lemma add_mark_ok (t : num) (m : pyval) :
  int_total t -> exists t', add_mark t m = Ok t' /\ int_total t'.
Proof.
  intro Ht. unfold add_mark.
  destruct (Py.py_float m) as [g|e]; simpl.
  - destruct t as [z|f]; simpl in Ht.
    + subst z. eexists. split; [reflexivity|exact I].
    + eexists. split; [reflexivity|exact I].
  - destruct t as [z|f]; simpl in Ht.
    + subst z. exists (NInt 0). split; reflexivity.
    + eexists. split; [reflexivity|exact I].
Qed.

Lemma sum_marks_ok (l : list (string * pyval)) :
  forall t, int_total t -> exists t', sum_marks t l = Ok t' /\ int_total t'.
Proof.
  induction l as [|[s m] rest IH]; intros t Ht.
  - exists t. split; [reflexivity|exact Ht].
  - destruct (add_mark_ok t m Ht) as (t1 & E1 & H1).
    destruct (IH t1 H1) as (t2 & E2 & H2).
    exists t2. split; [|exact H2]. simpl. rewrite E1. exact E2.
Qed.

Lemma percentage_of_ok (t : num) (M : Z) :
  int_total t -> 0 < M <= 2 ^ 1023 ->
  exists q p,
    Py.truediv t (NInt M) = Ok q /\
    Py.mul q (NInt 100) = Ok p /\
    percentage_of t M = Ok (Py.round p 2).
Proof.
  intros Ht HM.
  assert (Hdiv : exists g, Py.truediv t (NInt M) = Ok (NFloat g)).
  { destruct t as [z|f]; simpl in Ht.
    - subst z. unfold Py.truediv, Py.int_truediv.
      destruct (Z.eqb_spec M 0) as [C|_]; [lia|].
      simpl. eexists. reflexivity.
    - destruct (of_Z_finite M HM) as (m & e & E).
      unfold Py.truediv. simpl Py.num_to_float. unfold Py.int_to_float.
      rewrite E. simpl. eexists. reflexivity. }
  destruct Hdiv as (g & Eg).
  exists (NFloat g), (NFloat (F64.mul g (S754_finite false 7036874417766400 (-46)))).
  assert (Em : Py.mul (NFloat g) (NInt 100) =
               Ok (NFloat (F64.mul g (S754_finite false 7036874417766400 (-46))))).
  { unfold Py.mul. simpl Py.num_to_float. rewrite int_to_float_100. reflexivity. }
  split; [exact Eg|]. split; [exact Em|].
  unfold percentage_of. destruct (Z.ltb_spec 0 M) as [_|C]; [|lia].
  rewrite Eg. cbn [bind]. rewrite Em. reflexivity.
Qed.


Local Open Scope string_scope.

Lemma sum_marks_app (l1 l2 : list (string * pyval)) :
  forall t, sum_marks t (l1 ++ l2) = (t1 <- sum_marks t l1 ;; sum_marks t1 l2).
Proof.
  induction l1 as [|[s m] l1 IH]; intro t; [reflexivity|].
  simpl. destruct (add_mark t m) as [t'|e]; simpl; [apply IH|reflexivity].
Qed.

Lemma add_mark_unparseable (t : num) (m : pyval) :
  unparseable m -> add_mark t m = Py.add t (NInt 0).
Proof.
  intros (e & He). unfold add_mark. rewrite He. reflexivity.
Qed.

(** ** Results of the grading function *)

(** C3: on the empty marks sequence the grading function returns exactly
    [(0, 0, 0, 0, "N/A")], four integer zeros and the label. *)
Theorem aggregate_empty :
  calculate_total_percentage_gpa_grade [] =
  Ok (NInt 0, 0, NInt 0, NInt 0, "N/A").
Proof. reflexivity. Qed.

(** C1: for every non-empty marks sequence (of a length a Python list can
    have) the grading function returns normally; its second component is
    100 times the number of marks and its third is
    [round((total / max_total) * 100, 2)], where [total] is the sum the loop
    computes.  On [[("Math", 90), ("Science", 80)]] the result is
    [(170.0, 200, 85.0, 3.7, "A")], equal to [(170, 200, 85.0, 3.7, "A")]. *)
Theorem aggregate_max_total_and_percentage :
  (forall marks_list : list (string * pyval),
      marks_list <> [] ->
      Z.of_nat (List.length marks_list) < 2 ^ 63 ->
      exists total q p gpa grade,
        calculate_total_percentage_gpa_grade marks_list =
          Ok (total, 100 * Z.of_nat (List.length marks_list),
              Py.round p 2, gpa, grade) /\
        sum_marks (NInt 0) marks_list = Ok total /\
        Py.truediv total (NInt (100 * Z.of_nat (List.length marks_list))) = Ok q /\
        Py.mul q (NInt 100) = Ok p) /\
  calculate_total_percentage_gpa_grade
    [("Math", PyInt 90); ("Science", PyInt 80)] =
    Ok (NFloat (F64.of_Z 170), 200, NFloat (F64.of_decimal false 850 (-1)),
        NFloat lit_3_7, "A") /\
  tuple_eq (NFloat (F64.of_Z 170), 200, NFloat (F64.of_decimal false 850 (-1)),
            NFloat lit_3_7, "A")
           (NInt 170, 200, NFloat (F64.of_decimal false 850 (-1)),
            NFloat (F64.of_decimal false 37 (-1)), "A") = true.
Proof.
  split; [|split; vm_compute; reflexivity].
  intros marks_list Hne Hlen.
  destruct (sum_marks_ok marks_list (NInt 0) eq_refl) as (total & Et & Hi).
  set (M := 100 * Z.of_nat (List.length marks_list)).
  assert (HM : 0 < M <= 2 ^ 1023).
  { unfold M. destruct marks_list; [congruence|].
    simpl List.length in *. rewrite Nat2Z.inj_succ in *.
    split; [lia|].
    assert (2 ^ 63 * 100 <= 2 ^ 1023) by (vm_compute; discriminate).
    lia. }
  destruct (percentage_of_ok total M Hi HM) as (q & p & Eq & Ep & Epc).
  exists total, q, p, (fst (gpa_grade (Py.round p 2))),
         (snd (gpa_grade (Py.round p 2))).
  repeat split; try assumption.
  unfold calculate_total_percentage_gpa_grade.
  destruct marks_list as [|x rest]; [congruence|].
  fold M. rewrite Et. cbn [bind]. rewrite Epc. cbn [bind].
  destruct (gpa_grade (Py.round p 2)). reflexivity.
Qed.

Lemma aggregate_max_total_and_percentage_witness :
  [("Math", PyStr "abc"); ("Art", PyFloat (F64.of_Z 55))] <> [] /\
  Z.of_nat 2 < 2 ^ 63 /\
  exists total q p gpa grade,
    calculate_total_percentage_gpa_grade
      [("Math", PyStr "abc"); ("Art", PyFloat (F64.of_Z 55))] =
      Ok (total, 100 * Z.of_nat 2, Py.round p 2, gpa, grade) /\
    sum_marks (NInt 0) [("Math", PyStr "abc"); ("Art", PyFloat (F64.of_Z 55))] =
      Ok total /\
    Py.truediv total (NInt (100 * Z.of_nat 2)) = Ok q /\
    Py.mul q (NInt 100) = Ok p.
Proof.
  split; [discriminate|split; [reflexivity|]].
  apply (proj1 aggregate_max_total_and_percentage
           [("Math", PyStr "abc"); ("Art", PyFloat (F64.of_Z 55))]).
  - discriminate.
  - reflexivity.
Defined.

(** C2: on a non-empty sequence of marks that are all numbers in [0, 100]
    (with [max_total] below 2^53, so that it and every partial bound on
    the running total are exact doubles) the percentage lies in [0, 100]; GPA and letter are those of the first row
    of the threshold table that matches, read highest-first, and the
    percentage lies in exactly one band of the table, the one returned. *)
Theorem aggregate_valid_marks_in_range (marks_list : list (string * pyval)) :
  marks_list <> [] ->
  100 * Z.of_nat (List.length marks_list) < 2 ^ 53 ->
  forallb (fun sm => valid_mark (snd sm)) marks_list = true ->
  exists total percentage b,
    calculate_total_percentage_gpa_grade marks_list =
      Ok (total, 100 * Z.of_nat (List.length marks_list), percentage,
          NFloat (band_gpa b), band_letter b) /\
    Py.ge_int percentage 0 = true /\
    Py.le_int percentage 100 = true /\
    first_match percentage threshold_table =
      (NFloat (band_gpa b), band_letter b) /\
    filter (in_band percentage) bands = [b].
Proof.
  intros Hne Hlen Hv.
  destruct (sum_marks_valid marks_list (NInt 0) 0 Hne eq_refl ltac:(lia)
              ltac:(lia) Hv) as (t & Et & Ht).
  rewrite Z.add_0_l in Ht.
  set (M := 100 * Z.of_nat (List.length marks_list)) in *.
  assert (HM : 0 < M < 2 ^ 53).
  { unfold M. destruct marks_list; [congruence|].
    simpl List.length in *. rewrite Nat2Z.inj_succ in *. lia. }
  destruct (percentage_of_bounded t M HM Ht) as (p & Ep & Hp).
  destruct (exactly_one_band p _ Hp) as (b & Hb & Hg).
  destruct (fle_compare p 100 ltac:(lia) Hp) as [Hle Hge].
  exists (NFloat t), (NFloat p), b.
  split; [|split; [exact Hge|split; [exact Hle|split; [|exact Hb]]]].
  - unfold calculate_total_percentage_gpa_grade.
    destruct marks_list as [|x rest]; [congruence|].
    fold M. rewrite Et. cbn [bind]. rewrite Ep. cbn [bind].
    rewrite Hg. reflexivity.
  - rewrite <- gpa_grade_first_match. exact Hg.
Qed.

Lemma aggregate_valid_marks_in_range_witness :
  [("Math", PyInt 90); ("Science", PyStr "80.5");
   ("Art", PyFloat (F64.of_Z 100))] <> [] /\
  100 * Z.of_nat 3 < 2 ^ 53 /\
  forallb (fun sm => valid_mark (snd sm))
          [("Math", PyInt 90); ("Science", PyStr "80.5");
           ("Art", PyFloat (F64.of_Z 100))] = true /\
  exists total percentage b,
    calculate_total_percentage_gpa_grade
      [("Math", PyInt 90); ("Science", PyStr "80.5");
       ("Art", PyFloat (F64.of_Z 100))] =
      Ok (total, 100 * Z.of_nat 3, percentage,
          NFloat (band_gpa b), band_letter b) /\
    Py.ge_int percentage 0 = true /\
    Py.le_int percentage 100 = true /\
    first_match percentage threshold_table =
      (NFloat (band_gpa b), band_letter b) /\
    filter (in_band percentage) bands = [b].
Proof.
  split; [discriminate|split; [reflexivity|split; [vm_compute; reflexivity|]]].
  apply (aggregate_valid_marks_in_range
           [("Math", PyInt 90); ("Science", PyStr "80.5");
            ("Art", PyFloat (F64.of_Z 100))]).
  - discriminate.
  - reflexivity.
  - vm_compute. reflexivity.
Defined.

(** C4: a mark that [float] rejects makes the loop add [0]: the step
    returns normally and leaves the running total as it is (an [int]
    total stays the same [int], a float total has [0] added).  A list that
    holds such a mark is graded without an error: its total is the sum of
    the marks before it, plus [0], plus the marks after it, and its
    [max_total] counts the mark.  A list made of such marks only gives
    [(0, 100 * n, 0.0, 0.0, "F")] with [n] the number of marks, and
    [[("Math", "abc")]] gives [(0, 100, 0.0, 0.0, "F")]. *)
Theorem aggregate_unparseable_counts_zero :
  (forall (total : num) (m : pyval),
      unparseable m ->
      exists t', add_mark total m = Ok t' /\
                 Py.add total (NInt 0) = Ok t' /\
                 (total <> NFloat (S754_zero true) -> t' = total)) /\
  (forall (before after : list (string * pyval)) (s : string) (m : pyval),
      unparseable m ->
      Z.of_nat (List.length (before ++ (s, m) :: after)) < 2 ^ 63 ->
      exists t1 t2 total percentage gpa grade,
        sum_marks (NInt 0) before = Ok t1 /\
        Py.add t1 (NInt 0) = Ok t2 /\
        sum_marks t2 after = Ok total /\
        calculate_total_percentage_gpa_grade (before ++ (s, m) :: after) =
          Ok (total,
              100 * (Z.of_nat (List.length before) + 1
                     + Z.of_nat (List.length after)),
              percentage, gpa, grade)) /\
  (forall marks_list : list (string * pyval),
      marks_list <> [] ->
      Forall (fun sm => unparseable (snd sm)) marks_list ->
      calculate_total_percentage_gpa_grade marks_list =
        Ok (NInt 0, 100 * Z.of_nat (List.length marks_list),
            NFloat lit_0_0, NFloat lit_0_0, "F")) /\
  Py.py_float (PyStr "abc") = Raise ValueError /\
  calculate_total_percentage_gpa_grade [("Math", PyStr "abc")] =
    Ok (NInt 0, 100, NFloat lit_0_0, NFloat lit_0_0, "F").
Proof.
  split; [|split; [|split; [|split; reflexivity]]].
  - intros total m (e & He). unfold add_mark. rewrite He. cbn [bind try_except].
    destruct total as [z|f].
    + exists (NInt z). simpl. rewrite Z.add_0_r. repeat split; reflexivity.
    + exists (NFloat (F64.add f (S754_zero false))).
      split; [reflexivity|split; [reflexivity|]].
      intro Hn. destruct f as [[|]| | |]; try reflexivity. congruence.
  - intros before after s m Hm Hlen.
    destruct (sum_marks_ok before (NInt 0) eq_refl) as (t1 & E1 & H1).
    destruct (add_mark_ok t1 m H1) as (t2 & E2 & H2).
    destruct (sum_marks_ok after t2 H2) as (total & E3 & H3).
    rewrite (add_mark_unparseable t1 m Hm) in E2.
    assert (Es : sum_marks (NInt 0) (before ++ (s, m) :: after) = Ok total).
    { rewrite sum_marks_app, E1. cbn [bind sum_marks].
      rewrite (add_mark_unparseable t1 m Hm), E2. exact E3. }
    set (M := 100 * (Z.of_nat (List.length before) + 1
                     + Z.of_nat (List.length after))).
    assert (EM : 100 * Z.of_nat (List.length (before ++ (s, m) :: after)) = M).
    { unfold M. rewrite length_app. simpl List.length. lia. }
    assert (HM : 0 < M <= 2 ^ 1023).
    { rewrite <- EM. split; [rewrite EM; unfold M; lia|].
      assert (2 ^ 63 * 100 <= 2 ^ 1023) by (vm_compute; discriminate). lia. }
    destruct (percentage_of_ok total M H3 HM) as (q & p & _ & _ & Epc).
    exists t1, t2, total, (Py.round p 2), (fst (gpa_grade (Py.round p 2))),
           (snd (gpa_grade (Py.round p 2))).
    split; [exact E1|split; [exact E2|split; [exact E3|]]].
    unfold calculate_total_percentage_gpa_grade.
    destruct (before ++ (s, m) :: after)%list as [|x rest] eqn:El.
    { destruct before; discriminate. }
    rewrite EM, Es. cbn [bind]. rewrite Epc. cbn [bind].
    destruct (gpa_grade (Py.round p 2)). reflexivity.
  - intros marks_list Hne Hall.
    assert (Hs : sum_marks (NInt 0) marks_list = Ok (NInt 0)).
    { clear Hne. induction Hall as [|[s m] rest (e & He) _ IH]; [reflexivity|].
      simpl in He. cbn [sum_marks]. unfold add_mark. rewrite He.
      cbn [bind try_except]. simpl Py.add. cbn [bind]. exact IH. }
    unfold calculate_total_percentage_gpa_grade.
    destruct marks_list as [|x rest]; [congruence|].
    rewrite Hs. cbn [bind].
    set (M := 100 * Z.of_nat (List.length (x :: rest))).
    assert (HM : 0 < M).
    { unfold M. simpl List.length. rewrite Nat2Z.inj_succ. lia. }
    unfold percentage_of. destruct (Z.ltb_spec 0 M) as [_|C]; [|lia].
    unfold Py.truediv, Py.int_truediv.
    destruct (Z.eqb_spec M 0) as [C|_]; [lia|].
    destruct (Z.ltb_spec M 0) as [C|_]; [lia|].
    reflexivity.
Qed.

Lemma aggregate_unparseable_counts_zero_witness :
  unparseable PyNone /\
  [("Math", PyStr "abc"); ("Art", PyNone)] <> [] /\
  Forall (fun sm => unparseable (snd sm))
         [("Math", PyStr "abc"); ("Art", PyNone)] /\
  (exists t', add_mark (NFloat (F64.of_Z 90)) PyNone = Ok t' /\
              Py.add (NFloat (F64.of_Z 90)) (NInt 0) = Ok t' /\
              (NFloat (F64.of_Z 90) <> NFloat (S754_zero true) ->
               t' = NFloat (F64.of_Z 90))) /\
  calculate_total_percentage_gpa_grade
    [("Math", PyStr "abc"); ("Art", PyNone)] =
    Ok (NInt 0, 100 * Z.of_nat 2, NFloat lit_0_0, NFloat lit_0_0, "F").
Proof.
  assert (H1 : unparseable PyNone) by (exists TypeError; reflexivity).
  assert (H2 : Forall (fun sm => unparseable (snd sm))
                      [("Math", PyStr "abc"); ("Art", PyNone)]).
  { repeat constructor; [exists ValueError | exists TypeError]; reflexivity. }
  split; [exact H1|split; [discriminate|split; [exact H2|split]]].
  - apply (proj1 aggregate_unparseable_counts_zero). exact H1.
  - apply (proj1 (proj2 (proj2 aggregate_unparseable_counts_zero))
             [("Math", PyStr "abc"); ("Art", PyNone)]).
    + discriminate.
    + exact H2.
Defined.


(** ** Attendance *)

Lemma fle_finite (f : float) (q : Q) : fle f q -> F64.is_finite f = true.
Proof. destruct f as [s|s| |[|] m e]; simpl; auto; contradiction. Qed.

Lemma ratio_percent (P T : Z) :
  0 <= P <= T -> 0 < T ->
  exists f,
    (q <- Py.truediv (NInt P) (NInt T) ;;
     p <- Py.mul q (NInt 100) ;; Ok (Py.round p 2)) = Ok (NFloat f) /\
    fle f (inject_Z 100).
Proof.
  intros HP HT.
  assert (Hq : exists g, Py.truediv (NInt P) (NInt T) = Ok (NFloat g) /\
                         fle g (inject_Z 1)).
  { unfold Py.truediv, Py.int_truediv.
    destruct (Z.eqb_spec T 0) as [C|_]; [lia|].
    destruct (Z.ltb_spec P 0) as [C|_]; [lia|].
    destruct (Z.ltb_spec T 0) as [C|_]; [lia|].
    cbn [xorb]. rewrite (Z.abs_eq P), (Z.abs_eq T) by lia.
    assert (Hg : fle (F64.of_ratio false P (Z.to_pos T)) (inject_Z 1)).
    { unfold F64.of_ratio. destruct P as [|p|p]; try lia; [exact I|].
      apply div_fle with (qx := F2Q (Zpos p) 0).
      - simpl. apply Qle_refl.
      - apply representable_int. lia.
      - rewrite inject_Z_1, Qmult_1_l. apply F2Q_le.
        rewrite Z2Pos.id by lia. lia. }
    rewrite (fle_finite _ _ Hg). cbn [bind]. eexists. split; [reflexivity|exact Hg]. }
  destruct Hq as (g & Eg & Hg).
  destruct (times_100_round g Hg) as (p0 & p & E1 & E2 & Hp).
  exists p. split; [|exact Hp].
  rewrite Eg. cbn [bind]. rewrite E1. cbn [bind]. rewrite E2. reflexivity.
Qed.

Lemma fold_present_acc (rows : list attendance_row) (acc : Z) :
  fold_left (fun a r => a + at_present r) rows acc =
  acc + fold_left (fun a r => a + at_present r) rows 0.
Proof.
  revert acc. induction rows as [|r rows IH]; intro acc; simpl; [lia|].
  rewrite (IH (acc + at_present r)), (IH (at_present r)). lia.
Qed.

Lemma sum_present_flags (rows : list attendance_row) :
  Forall (fun r => at_present r = 0 \/ at_present r = 1) rows ->
  0 <= fold_left (fun a r => a + at_present r) rows 0
    <= Z.of_nat (List.length rows).
Proof.
  induction 1 as [|r rows Hr _ IH]; simpl; [lia|].
  rewrite fold_present_acc. lia.
Qed.

Lemma sum_present_count (rows : list attendance_row) (records : list bool) :
  map at_present rows = map Z.b2z records ->
  fold_left (fun a r => a + at_present r) rows 0 =
  Z.of_nat (count_occ bool_dec records true).
Proof.
  revert records. induction rows as [|r rows IH]; intros [|b records] H;
    simpl in H; try discriminate; [reflexivity|].
  inversion H as [[Hb Hrest]]. simpl fold_left.
  rewrite fold_present_acc, (IH records Hrest), Hb.
  cbn [count_occ]. destruct (bool_dec b true) as [->|Hn].
  - rewrite Nat2Z.inj_succ. simpl Z.b2z. lia.
  - destruct b; [congruence|]. simpl Z.b2z. lia.
Qed.

Lemma or_zero_some (z : Z) : or_zero (Some z) = z.
Proof. unfold or_zero. destruct (Z.eqb_spec z 0); congruence. Qed.

Lemma attendance_percent_range (d : db) (s : Z) :
  flags_01 d ->
  exists f, get_attendance_percent_from_db d s = Ok (NFloat f) /\
            fle f (inject_Z 100).
Proof.
  intro Hf. unfold get_attendance_percent_from_db.
  assert (Hrows : Forall (fun r => at_present r = 0 \/ at_present r = 1)
                         (attendance_of d s)).
  { unfold attendance_of. apply Forall_forall. intros r Hr.
    apply filter_In in Hr. destruct Hr as [Hr _].
    unfold flags_01 in Hf. rewrite Forall_forall in Hf. auto. }
  pose proof (sum_present_flags _ Hrows) as Hsum.
  destruct (attendance_of d s) as [|r rows] eqn:E.
  - simpl. exists lit_0_0. split; [reflexivity|exact I].
  - set (rs := r :: rows) in *.
    assert (HT : 0 < Z.of_nat (List.length rs)).
    { unfold rs. simpl List.length. lia. }
    destruct (Z.eqb_spec (Z.of_nat (List.length rs)) 0) as [C|_]; [lia|].
    unfold sum_present. fold rs. unfold rs at 1. rewrite or_zero_some.
    apply ratio_percent; [exact Hsum|exact HT].
Qed.

(** ** Invariants along a run *)

(** An operation that leaves a table alone, whichever way its guard goes. *)
Ltac table_untouched H :=
  unfold add_student_to_db, update_student_in_db, add_subject_to_db,
    update_subject_name, set_mark_in_db;
  match goal with
  | |- context [if ?c then _ else _] => destruct c; exact H
  | |- context [match find ?f ?l with _ => _ end] =>
      destruct (find f l); exact H
  | _ => exact H
  end.

Lemma apply_op_flags (d : db) (o : op) : flags_01 d -> flags_01 (apply_op d o).
Proof.
  unfold flags_01. intro H.
  destruct o as [sid name klass|i sid name klass|i|name|i name|i|st sj x|sj|st date p];
    simpl; try (table_untouched H).
  - apply Forall_forall. intros r Hr. apply filter_In in Hr.
    rewrite Forall_forall in H. apply H. tauto.
  - apply Forall_app. split; [exact H|].
    constructor; [|constructor]. simpl. destruct (Py.truthy p); auto.
Qed.

Lemma run_flags (ops : list op) :
  forall d, flags_01 d -> flags_01 (run ops d).
Proof.
  induction ops as [|o ops IH]; intros d H; [exact H|].
  simpl. apply IH, apply_op_flags, H.
Qed.

(** C5: the attendance percentage of a student without records is [0.0];
    when the flags stored for the student are those of a non-empty sequence
    [records], the function returns normally and its value is
    [round(count(present) / count(records) * 100, 2)]; for the flags
    [[true, true, false, true]] the value is [75.0]. *)
Theorem attendance_percent_matches_spec :
  (forall (d : db) (s : Z),
      attendance_of d s = [] ->
      get_attendance_percent_from_db d s = Ok (NFloat (S754_zero false))) /\
  (forall (d : db) (s : Z) (records : list bool),
      map at_present (attendance_of d s) = map Z.b2z records ->
      get_attendance_percent_from_db d s = attendance_percent_spec records /\
      exists f, attendance_percent_spec records = Ok (NFloat f)) /\
  attendance_percent_spec [] = Ok (NFloat (S754_zero false)) /\
  attendance_percent_spec [true; true; false; true] = Ok (NFloat (F64.of_Z 75)) /\
  get_attendance_percent_from_db
    (run [AddAttendance 1 "2024-01-01" (PyBool true);
          AddAttendance 1 "2024-01-02" (PyBool true);
          AddAttendance 1 "2024-01-03" (PyBool false);
          AddAttendance 1 "2024-01-04" (PyBool true)] init_db) 1 =
    Ok (NFloat (F64.of_decimal false 750 (-1))).
Proof.
  split; [|split; [|split; [|split]]];
    [ | | reflexivity | vm_compute; reflexivity | vm_compute; reflexivity].
  - intros d s E. unfold get_attendance_percent_from_db. rewrite E. reflexivity.
  - intros d s records H.
    assert (Hlen : List.length (attendance_of d s) = List.length records).
    { rewrite <- (length_map at_present), H, length_map. reflexivity. }
    assert (Heq : get_attendance_percent_from_db d s =
                  attendance_percent_spec records).
    { unfold get_attendance_percent_from_db, attendance_percent_spec.
      pose proof (sum_present_count _ _ H) as Hs.
      destruct (attendance_of d s) as [|r rows] eqn:E;
        destruct records as [|b records']; try discriminate; [reflexivity|].
      set (rs := r :: rows) in *. set (bs := b :: records') in *.
      destruct (Z.eqb_spec (Z.of_nat (List.length rs)) 0) as [C|_].
      { unfold rs in C. simpl List.length in C. lia. }
      unfold sum_present. fold rs. unfold rs at 1. rewrite or_zero_some.
      rewrite Hs, Hlen. reflexivity. }
    split; [exact Heq|].
    destruct records as [|b records']; [eexists; reflexivity|].
    unfold attendance_percent_spec.
    pose proof (count_occ_bound bool_dec true (b :: records')) as Hc.
    destruct (ratio_percent
                (Z.of_nat (count_occ bool_dec (b :: records') true))
                (Z.of_nat (List.length (b :: records')))) as (f & Ef & _).
    + lia.
    + simpl List.length. lia.
    + exists f. exact Ef.
Qed.

Lemma attendance_percent_matches_spec_witness :
  map at_present
      (attendance_of (add_attendance_to_db init_db 7 "2024-03-01" (PyInt 5)) 7) =
    map Z.b2z [true] /\
  get_attendance_percent_from_db
    (add_attendance_to_db init_db 7 "2024-03-01" (PyInt 5)) 7 =
  attendance_percent_spec [true] /\
  exists f, attendance_percent_spec [true] = Ok (NFloat f).
Proof.
  split; [reflexivity|].
  apply (proj1 (proj2 attendance_percent_matches_spec)).
  reflexivity.
Defined.

(** C10: along every run of the repository from the fresh database each
    attendance row holds [present] equal to 0 or 1: a write stores 1 for a
    truthy flag and 0 for a falsy one whatever the value passed.  The
    attendance percentage of every student is then returned normally and
    lies in [0, 100]. *)
Theorem attendance_flags_and_percent_range (ops : list op) :
  Forall (fun r => at_present r = 0 \/ at_present r = 1)
         (attendance (run ops init_db)) /\
  (forall (s : Z) (date_str : string) (present : pyval),
      exists row,
        attendance (add_attendance_to_db (run ops init_db) s date_str present) =
          (attendance (run ops init_db) ++ [row])%list /\
        at_present row = (if Py.truthy present then 1 else 0)) /\
  (forall s : Z,
      exists f,
        get_attendance_percent_from_db (run ops init_db) s = Ok (NFloat f) /\
        F64.geb_Z f 0 = true /\ F64.leb_Z f 100 = true).
Proof.
  assert (H : flags_01 (run ops init_db)).
  { apply run_flags. constructor. }
  split; [exact H|split].
  - intros s date_str present. eexists. split; reflexivity.
  - intro s. destruct (attendance_percent_range _ s H) as (f & Ef & Hf).
    exists f. split; [exact Ef|].
    destruct (fle_compare f 100 ltac:(lia) Hf) as [Hle Hge]. tauto.
Qed.


Local Close Scope string_scope.

(** ** Marks: one row per pair *)

Lemma map_key_injective (l : list mark_row) (x y : mark_row) :
  NoDup (map mk_id l) -> In x l -> In y l -> mk_id x = mk_id y -> x = y.
Proof.
  induction l as [|a l IH]; simpl; [tauto|].
  intros Hnd Hx Hy E. inversion Hnd as [|? ? Hn Hnd']; subst.
  destruct Hx as [->|Hx], Hy as [->|Hy]; auto.
  - exfalso. apply Hn. rewrite E. apply in_map. exact Hy.
  - exfalso. apply Hn. rewrite <- E. apply in_map. exact Hx.
Qed.

Lemma filter_keeps_marks_inv (d : db) (keep : mark_row -> bool) :
  marks_inv d -> marks_inv (with_marks d (filter keep (marks d)) (seq_marks d)).
Proof.
  intros [[Hnd Hle] Hone]. split; [split|]; simpl.
  - clear Hle Hone. induction (marks d) as [|a l IH]; simpl; [constructor|].
    simpl in Hnd. inversion Hnd as [|? ? Hn Hnd']; subst.
    destruct (keep a); simpl; [constructor|]; auto.
    intro Hin. apply Hn. apply in_map_iff in Hin.
    destruct Hin as (x & Ex & Hx). apply filter_In in Hx.
    rewrite <- Ex. apply in_map. tauto.
  - apply Forall_forall. intros r Hr. apply filter_In in Hr.
    rewrite Forall_forall in Hle. apply Hle. tauto.
  - intros st sj. unfold marks_of. simpl.
    specialize (Hone st sj). unfold marks_of in Hone.
    assert (H : (List.length (filter (mark_matches st sj) (filter keep (marks d)))
                 <= List.length (filter (mark_matches st sj) (marks d)))%nat).
    { clear. induction (marks d) as [|a l IH]; simpl; [lia|].
      destruct (keep a), (mark_matches st sj a) eqn:E; simpl; rewrite ?E;
        simpl; lia. }
    lia.
Qed.

Lemma overwrite_id row value r : mk_id (overwrite row value r) = mk_id r.
Proof. unfold overwrite. destruct (mk_id r =? mk_id row); reflexivity. Qed.

Lemma overwrite_matches row value st sj r :
  mark_matches st sj (overwrite row value r) = mark_matches st sj r.
Proof. unfold overwrite. destruct (mk_id r =? mk_id row); reflexivity. Qed.

Lemma filter_overwrite row value st sj l :
  filter (mark_matches st sj) (map (overwrite row value) l) =
  map (overwrite row value) (filter (mark_matches st sj) l).
Proof.
  induction l as [|a l IH]; simpl; [reflexivity|].
  rewrite overwrite_matches. destruct (mark_matches st sj a); simpl;
    rewrite IH; reflexivity.
Qed.

Lemma set_mark_found (d : db) (st sj : Z) (value : float) (row : mark_row) :
  find (mark_matches st sj) (marks d) = Some row ->
  set_mark_in_db d st sj value =
  with_marks d (map (overwrite row value) (marks d)) (seq_marks d).
Proof. intro E. unfold set_mark_in_db. rewrite E. reflexivity. Qed.

Lemma set_mark_missing (d : db) (st sj : Z) (value : float) :
  find (mark_matches st sj) (marks d) = None ->
  set_mark_in_db d st sj value =
  with_marks d
    (marks d ++ [{| mk_id := seq_marks d + 1; mk_student_db_id := st;
                    mk_subject_db_id := sj; mk_marks := value |}])
    (seq_marks d + 1).
Proof. intro E. unfold set_mark_in_db. rewrite E. reflexivity. Qed.

Lemma mark_matches_pair (st sj st' sj' : Z) (r : mark_row) :
  mark_matches st sj r = true -> mark_matches st' sj' r = true ->
  (st', sj') = (st, sj).
Proof.
  unfold mark_matches. intros H1 H2.
  apply andb_true_iff in H1. apply andb_true_iff in H2.
  destruct H1 as [A1 B1], H2 as [A2 B2].
  apply Z.eqb_eq in A1, B1, A2, B2. congruence.
Qed.

Lemma set_mark_spec (d : db) (st sj : Z) (value : float) :
  marks_inv d ->
  marks_inv (set_mark_in_db d st sj value) /\
  map mk_marks (marks_of (set_mark_in_db d st sj value) st sj) = [value] /\
  (forall st' sj', (st', sj') <> (st, sj) ->
     marks_of (set_mark_in_db d st sj value) st' sj' = marks_of d st' sj') /\
  (marks_of d st sj <> [] ->
     map mk_id (marks (set_mark_in_db d st sj value)) = map mk_id (marks d)).
Proof.
  intros [[Hnd Hle] Hone].
  destruct (find (mark_matches st sj) (marks d)) as [row|] eqn:E.
  - rewrite (set_mark_found _ _ _ value _ E).
    apply find_some in E. destruct E as [Hin Hm].
    assert (Hsingle : marks_of d st sj = [row]).
    { specialize (Hone st sj). unfold marks_of in *.
      assert (Hf : In row (filter (mark_matches st sj) (marks d))).
      { apply filter_In. tauto. }
      destruct (filter (mark_matches st sj) (marks d)) as [|a [|b l]];
        simpl in *; [tauto| |lia].
      destruct Hf as [->|[]]. reflexivity. }
    assert (Hids : map mk_id (map (overwrite row value) (marks d)) =
                   map mk_id (marks d)).
    { rewrite map_map. apply map_ext. intro r. apply overwrite_id. }
    split; [split; [split|]|split; [|split]]; simpl.
    + rewrite Hids. exact Hnd.
    + apply Forall_forall. intros r Hr. apply in_map_iff in Hr.
      destruct Hr as (x & Ex & Hx). rewrite <- Ex, overwrite_id.
      rewrite Forall_forall in Hle. auto.
    + intros a b. unfold marks_of. simpl.
      rewrite filter_overwrite, length_map. apply Hone.
    + unfold marks_of in *. simpl. rewrite filter_overwrite, Hsingle.
      simpl. unfold overwrite. rewrite Z.eqb_refl. reflexivity.
    + intros st' sj' Hneq. unfold marks_of. simpl.
      rewrite filter_overwrite.
      rewrite <- (map_id (filter (mark_matches st' sj') (marks d))) at 2.
      apply map_ext_in. intros r Hr. apply filter_In in Hr.
      destruct Hr as [Hr Hmr]. unfold overwrite.
      destruct (Z.eqb_spec (mk_id r) (mk_id row)) as [Eid|_]; [|reflexivity].
      exfalso. apply Hneq.
      assert (r = row) by (eapply map_key_injective; eauto).
      subst r. eapply mark_matches_pair; eauto.
    + intros _. exact Hids.
  - rewrite (set_mark_missing _ _ _ value E).
    pose proof (find_none _ _ E) as Hnone.
    assert (Hempty : marks_of d st sj = []).
    { unfold marks_of.
      destruct (filter (mark_matches st sj) (marks d)) as [|a l] eqn:F;
        [reflexivity|].
      assert (Ha : In a (filter (mark_matches st sj) (marks d))).
      { rewrite F. left. reflexivity. }
      apply filter_In in Ha. destruct Ha as [Ha Hm].
      rewrite (Hnone a Ha) in Hm. discriminate. }
    split; [split; [split|]|split; [|split]]; simpl.
    + rewrite map_app. simpl. apply NoDup_app; [exact Hnd| |].
      * constructor; [simpl; tauto|constructor].
      * intros a Ha [Hb|[]]. subst a. apply in_map_iff in Ha.
        destruct Ha as (x & Ex & Hx). rewrite Forall_forall in Hle.
        specialize (Hle x Hx). lia.
    + apply Forall_app. split.
      * rewrite Forall_forall in *. intros r Hr. specialize (Hle r Hr). lia.
      * constructor; [simpl; lia|constructor].
    + intros a b. unfold marks_of. simpl. rewrite filter_app, length_app.
      specialize (Hone a b). unfold marks_of in Hone. simpl.
      unfold mark_matches at 2. simpl.
      destruct ((st =? a) && (sj =? b)) eqn:C; simpl; [|lia].
      apply andb_true_iff in C. destruct C as [Ca Cb].
      apply Z.eqb_eq in Ca, Cb. subst a b.
      unfold marks_of in Hempty. rewrite Hempty. simpl. lia.
    + unfold marks_of in *. simpl. rewrite filter_app, Hempty. simpl.
      unfold mark_matches. simpl. rewrite !Z.eqb_refl. reflexivity.
    + intros st' sj' Hneq. unfold marks_of. simpl. rewrite filter_app. simpl.
      unfold mark_matches at 2. simpl.
      destruct ((st =? st') && (sj =? sj')) eqn:C.
      * exfalso. apply Hneq. apply andb_true_iff in C. destruct C as [Ca Cb].
        apply Z.eqb_eq in Ca, Cb. congruence.
      * apply app_nil_r.
    + intro Hne. congruence.
Qed.

Lemma apply_op_marks_inv (d : db) (o : op) : marks_inv d -> marks_inv (apply_op d o).
Proof.
  intro H.
  destruct o as [sid name klass|i sid name klass|i|name|i name|i|st sj x|sj|st date p];
    simpl;
    try exact (filter_keeps_marks_inv d _ H);
    try (apply set_mark_spec; exact H);
    table_untouched H.
Qed.

Lemma run_marks_inv (ops : list op) :
  forall d, marks_inv d -> marks_inv (run ops d).
Proof.
  induction ops as [|o ops IH]; intros d H; [exact H|].
  simpl. apply IH, apply_op_marks_inv, H.
Qed.

Lemma init_db_marks_inv : marks_inv init_db.
Proof.
  split; [split; constructor|].
  intros a b. simpl. lia.
Qed.

Lemma set_marks_inv (calls : list (Z * Z * float)) :
  forall d, marks_inv d -> marks_inv (set_marks calls d).
Proof.
  induction calls as [|[[st sj] x] calls IH]; intros d H; [exact H|].
  simpl. apply IH. apply set_mark_spec. exact H.
Qed.

Lemma set_marks_snoc calls st sj value d :
  set_marks (calls ++ [(st, sj, value)]) d =
  set_mark_in_db (set_marks calls d) st sj value.
Proof. unfold set_marks. rewrite fold_left_app. reflexivity. Qed.

Lemma last_set_snoc calls st sj value a b :
  last_set (calls ++ [(st, sj, value)]) a b =
  if (st =? a) && (sj =? b) then Some value else last_set calls a b.
Proof.
  unfold last_set. rewrite rev_app_distr. simpl.
  destruct ((st =? a) && (sj =? b)); reflexivity.
Qed.

Lemma set_marks_latest (calls : list (Z * Z * float)) (d : db) :
  marks_inv d -> marks d = [] ->
  forall st sj,
    map mk_marks (marks_of (set_marks calls d) st sj) =
    match last_set calls st sj with
    | Some value => [value]
    | None => []
    end.
Proof.
  intros Hinv Hempty.
  induction calls as [|[[a b] x] calls IH] using rev_ind; intros st sj.
  - unfold marks_of. simpl. rewrite Hempty. reflexivity.
  - rewrite set_marks_snoc, last_set_snoc.
    destruct (set_mark_spec (set_marks calls d) a b x (set_marks_inv calls d Hinv))
      as (_ & Hv & Hother & _).
    destruct ((a =? st) && (b =? sj)) eqn:C.
    + apply andb_true_iff in C. destruct C as [Ca Cb].
      apply Z.eqb_eq in Ca, Cb. subst a b. exact Hv.
    + rewrite Hother; [apply IH|].
      intro E. inversion E; subst. rewrite !Z.eqb_refl in C. discriminate.
Qed.


(** C6: along every run of the repository from the fresh database there
    is at most one mark per (student, subject) pair.  Setting a mark leaves
    exactly one row for the pair, holding the value set; when the pair had a
    row the table keeps the same row ids (the row is overwritten, none is
    added), and the rows of every other pair are untouched.  After any
    sequence of set-mark calls each pair holds the value of the last call
    made for it. *)
Theorem set_mark_overwrites_pair :
  (forall ops : list op, one_mark_per_pair (run ops init_db)) /\
  (forall (ops : list op) (st sj : Z) (value : float),
      let d := run ops init_db in
      let d' := set_mark_in_db d st sj value in
      map mk_marks (marks_of d' st sj) = [value] /\
      (marks_of d st sj <> [] -> map mk_id (marks d') = map mk_id (marks d)) /\
      (forall st' sj', (st', sj') <> (st, sj) ->
                       marks_of d' st' sj' = marks_of d st' sj')) /\
  (forall (calls : list (Z * Z * float)) (st sj : Z),
      map mk_marks (marks_of (set_marks calls init_db) st sj) =
      match last_set calls st sj with
      | Some value => [value]
      | None => []
      end).
Proof.
  split; [|split].
  - intro ops. apply (run_marks_inv ops init_db init_db_marks_inv).
  - intros ops st sj value d d'.
    destruct (set_mark_spec d st sj value
                (run_marks_inv ops init_db init_db_marks_inv))
      as (_ & Hv & Hother & Hids).
    split; [exact Hv|split; [exact Hids|exact Hother]].
  - intros calls st sj.
    apply set_marks_latest; [exact init_db_marks_inv|reflexivity].
Qed.

Lemma set_mark_overwrites_pair_witness :
  marks_of (run [SetMark 1 2 (F64.of_Z 50)] init_db) 1 2 <> [] /\
  map mk_id
      (marks (set_mark_in_db (run [SetMark 1 2 (F64.of_Z 50)] init_db)
                             1 2 (F64.of_Z 70))) =
  map mk_id (marks (run [SetMark 1 2 (F64.of_Z 50)] init_db)).
Proof.
  pose proof (proj1 (proj2 set_mark_overwrites_pair)
                [SetMark 1 2 (F64.of_Z 50)] 1 2 (F64.of_Z 70)) as H.
  cbv zeta in H. destruct H as (_ & H & _).
  split; [discriminate|]. apply H. discriminate.
Defined.

Lemma filter_other_ids {A : Type} (key : A -> Z) (id : Z) (l : list A) (r : A) :
  In r (filter (fun x => negb (key x =? id)) l) <-> In r l /\ key r <> id.
Proof.
  rewrite filter_In, negb_true_iff, Z.eqb_neq. reflexivity.
Qed.

(** C7: deleting a student removes the student row and every mark and
    attendance row whose student reference is the deleted id, and nothing
    else: afterwards no row of the three tables references the id, and the
    rows of other students are those the store held before. *)
Theorem delete_student_cascades (d : db) (db_id : Z) :
  (forall r, In r (students (delete_student_from_db d db_id)) <->
             In r (students d) /\ st_id r <> db_id) /\
  (forall r, In r (marks (delete_student_from_db d db_id)) <->
             In r (marks d) /\ mk_student_db_id r <> db_id) /\
  (forall r, In r (attendance (delete_student_from_db d db_id)) <->
             In r (attendance d) /\ at_student_db_id r <> db_id) /\
  subjects (delete_student_from_db d db_id) = subjects d.
Proof.
  unfold delete_student_from_db. simpl.
  split; [|split; [|split; [|reflexivity]]]; intro r; apply filter_other_ids.
Qed.


(** C8: renaming a subject to a name that another subject holds makes the
    [UPDATE] raise the integrity error of the [UNIQUE] constraint; the
    handler reports it and the store is the one it was, so the subject keeps
    its name. *)
Theorem edit_subject_duplicate_name
  (d : db) (cached : list (Z * string)) (index : nat) (subj_id : Z)
  (old_name new_name : string) (row other : subject_row) :
  nth_error cached index = Some (subj_id, old_name) ->
  new_name <> EmptyString ->
  In row (subjects d) -> sub_id row = subj_id -> sub_name row = old_name ->
  In other (subjects d) -> sub_id other <> subj_id ->
  sub_name other = new_name ->
  update_subject_name d subj_id new_name = Raise IntegrityError /\
  edit_subject (Some index) cached (Some new_name) d =
    Ok (ShowError "Subject name already exists.", d) /\
  In row (subjects d).
Proof.
  intros Hnth Hne Hrow Hid Hold Hother Hoid Hname.
  assert (Hu : update_subject_name d subj_id new_name = Raise IntegrityError).
  { unfold update_subject_name.
    assert (E1 : existsb (fun r => sub_id r =? subj_id) (subjects d) = true).
    { apply existsb_exists. exists row. split; [exact Hrow|].
      apply Z.eqb_eq. exact Hid. }
    assert (E2 : subject_name_taken d (Some subj_id) new_name = true).
    { unfold subject_name_taken. apply existsb_exists. exists other.
      split; [exact Hother|]. apply andb_true_iff. split.
      - apply String.eqb_eq. exact Hname.
      - apply negb_true_iff, Z.eqb_neq. exact Hoid. }
    rewrite E1, E2. reflexivity. }
  split; [exact Hu|split; [|exact Hrow]].
  unfold edit_subject. rewrite Hnth.
  destruct (String.eqb_spec new_name EmptyString) as [C|_]; [contradiction|].
  rewrite Hu. reflexivity.
Qed.

Lemma edit_subject_duplicate_name_witness :
  nth_error [(1, "Math"%string); (2, "Science"%string)] 0 =
    Some (1, "Math"%string) /\
  "Science"%string <> EmptyString /\
  In {| sub_id := 1; sub_name := "Math" |}
     (subjects (run [AddSubject "Math"; AddSubject "Science"] init_db)) /\
  In {| sub_id := 2; sub_name := "Science" |}
     (subjects (run [AddSubject "Math"; AddSubject "Science"] init_db)) /\
  2 <> 1 /\
  update_subject_name (run [AddSubject "Math"; AddSubject "Science"] init_db)
                      1 "Science" = Raise IntegrityError /\
  edit_subject (Some 0%nat) [(1, "Math"%string); (2, "Science"%string)]
               (Some "Science"%string)
               (run [AddSubject "Math"; AddSubject "Science"] init_db) =
    Ok (ShowError "Subject name already exists.",
        run [AddSubject "Math"; AddSubject "Science"] init_db) /\
  In {| sub_id := 1; sub_name := "Math" |}
     (subjects (run [AddSubject "Math"; AddSubject "Science"] init_db)).
Proof.
  split; [reflexivity|split; [discriminate|]].
  split; [simpl; left; reflexivity|].
  split; [simpl; right; left; reflexivity|].
  split; [discriminate|].
  apply (edit_subject_duplicate_name
           (run [AddSubject "Math"; AddSubject "Science"] init_db)
           [(1, "Math"%string); (2, "Science"%string)] 0 1
           "Math" "Science"
           {| sub_id := 1; sub_name := "Math" |}
           {| sub_id := 2; sub_name := "Science" |}).
  - reflexivity.
  - discriminate.
  - simpl. left. reflexivity.
  - reflexivity.
  - reflexivity.
  - simpl. right. left. reflexivity.
  - simpl. discriminate.
  - reflexivity.
Defined.

(** C9, on the code: the update of a student id that the store does not
    hold raises nothing: the fresh database has no student, and the call on id 1
    returns normally with the store as it was. *)
Lemma update_missing_student_does_not_fail :
  students init_db = [] /\
  update_student_in_db init_db 1 "S1" "Ann" "10A" = Ok init_db.
Proof. split; reflexivity. Qed.

(** C9 (as the code has it): [update_student_in_db] on an id that no
    student row holds matches no row; the statement succeeds and leaves the
    store unchanged. *)
Theorem update_missing_student_is_noop
  (d : db) (db_id : Z) (student_id name klass : string) :
  (forall r, In r (students d) -> st_id r <> db_id) ->
  update_student_in_db d db_id student_id name klass = Ok d.
Proof.
  intro H. unfold update_student_in_db.
  assert (E : existsb (fun r => st_id r =? db_id) (students d) = false).
  { apply not_true_is_false. intro C. apply existsb_exists in C.
    destruct C as (r & Hr & Hid). apply Z.eqb_eq in Hid.
    exact (H r Hr Hid). }
  rewrite E. simpl.
  assert (M : map (fun r => if st_id r =? db_id
                            then {| st_id := st_id r;
                                    st_student_id := student_id;
                                    st_name := name; st_klass := klass |}
                            else r) (students d) = students d).
  { rewrite <- (map_id (students d)) at 2. apply map_ext_in.
    intros r Hr. destruct (Z.eqb_spec (st_id r) db_id) as [C|_];
      [exfalso; exact (H r Hr C)|reflexivity]. }
  rewrite M. destruct d; reflexivity.
Qed.

Lemma update_missing_student_is_noop_witness :
  (forall r, In r (students (run [AddStudent "S1" "Ann" "10A"] init_db)) ->
             st_id r <> 5) /\
  update_student_in_db
    (run [AddStudent "S1" "Ann" "10A"] init_db) 5 "S9" "Bob" "10B" =
  Ok (run [AddStudent "S1" "Ann" "10A"] init_db).
Proof.
  assert (H : forall r,
             In r (students (run [AddStudent "S1" "Ann" "10A"] init_db)) ->
             st_id r <> 5).
  { intros r [<-|[]]. simpl. discriminate. }
  split; [exact H|]. apply update_missing_student_is_noop. exact H.
Defined.

(** * Further properties of the repository and the window *)

(** ** Ordering rows by a text column *)

Section OrderBy.

Context {A : Type}.
Variable key : A -> string.

Lemma insert_by_perm (x : A) (l : list A) :
  Permutation (insert_by key x l) (x :: l).
Proof.
  induction l as [|y rest IH]; simpl; [apply Permutation_refl|].
  destruct (String.leb (key x) (key y)); [apply Permutation_refl|].
  eapply Permutation_trans; [apply perm_skip, IH|apply perm_swap].
Qed.

Lemma order_by_perm (l : list A) : Permutation (order_by key l) l.
Proof.
  induction l as [|x rest IH]; simpl; [constructor|].
  eapply Permutation_trans; [apply insert_by_perm|].
  apply perm_skip, IH.
Qed.

Lemma order_by_In (l : list A) (x : A) : In x (order_by key l) <-> In x l.
Proof.
  split; apply Permutation_in;
    [apply order_by_perm | apply Permutation_sym, order_by_perm].
Qed.

Lemma order_by_length (l : list A) : List.length (order_by key l) = List.length l.
Proof. apply Permutation_length, order_by_perm. Qed.

Lemma leb_false_flip (a b : string) :
  String.leb a b = false -> String.leb b a = true.
Proof.
  intro H. destruct (String.leb_total a b) as [C|C]; [congruence|exact C].
Qed.

Lemma insert_by_hd (x a : A) (l : list A) :
  String.leb (key a) (key x) = true ->
  HdRel (fun u w => String.leb (key u) (key w) = true) a l ->
  HdRel (fun u w => String.leb (key u) (key w) = true) a (insert_by key x l).
Proof.
  intros Hax Hl. destruct l as [|y rest]; simpl; [constructor; exact Hax|].
  destruct (String.leb (key x) (key y)); constructor;
    [exact Hax | inversion Hl; assumption].
Qed.

Lemma insert_by_ascending (x : A) (l : list A) :
  ascending key l -> ascending key (insert_by key x l).
Proof.
  unfold ascending. induction 1 as [|y rest Hs IH Hh]; simpl.
  - repeat constructor.
  - destruct (String.leb (key x) (key y)) eqn:E.
    + constructor; [constructor; assumption|constructor; exact E].
    + constructor; [exact IH|].
      apply insert_by_hd; [apply leb_false_flip, E|exact Hh].
Qed.

Lemma order_by_ascending (l : list A) : ascending key (order_by key l).
Proof.
  induction l as [|x rest IH]; simpl; [constructor|].
  apply insert_by_ascending, IH.
Qed.

Lemma leb_neq_ltb (a b : string) :
  String.leb a b = true -> a <> b -> String.ltb a b = true.
Proof.
  unfold String.leb, String.ltb. intros H Hn.
  destruct (String.compare a b) eqn:C; try reflexivity; try discriminate.
  exfalso. apply Hn. apply String.compare_eq_iff. exact C.
Qed.

Lemma ascending_strict (l : list A) :
  ascending key l -> NoDup (map key l) -> strictly_ascending key l.
Proof.
  unfold ascending, strictly_ascending.
  induction 1 as [|y rest Hs IH Hh]; intro Hnd; [constructor|].
  simpl in Hnd. inversion Hnd as [|? ? Hn Hnd']; subst.
  constructor; [apply IH, Hnd'|].
  destruct Hh as [|z rest' Hyz]; constructor.
  apply leb_neq_ltb; [exact Hyz|].
  intro E. apply Hn. simpl. left. symmetry. exact E.
Qed.

Lemma order_by_keys_nodup (l : list A) :
  NoDup (map key l) -> NoDup (map key (order_by key l)).
Proof.
  intro H. eapply Permutation_NoDup; [|exact H].
  apply Permutation_map, Permutation_sym, order_by_perm.
Qed.

End OrderBy.

(** ** Keys stay distinct *)

Lemma NoDup_map_filter {A B : Type} (k : A -> B) (p : A -> bool) (l : list A) :
  NoDup (map k l) -> NoDup (map k (filter p l)).
Proof.
  induction l as [|a l IH]; simpl; [constructor|].
  intro H. inversion H as [|? ? Hn Hnd]; subst.
  destruct (p a); simpl; [constructor|]; auto.
  intro Hin. apply Hn. apply in_map_iff in Hin.
  destruct Hin as (x & Ex & Hx). apply filter_In in Hx.
  rewrite <- Ex. apply in_map. tauto.
Qed.

Lemma NoDup_map_snoc {A B : Type} (k : A -> B) (l : list A) (x : A) :
  NoDup (map k l) -> (forall r, In r l -> k r <> k x) ->
  NoDup (map k (l ++ [x])).
Proof.
  intros Hnd Hfresh. rewrite map_app. simpl.
  apply NoDup_app; [exact Hnd|repeat constructor; simpl; tauto|].
  intros a Ha [Hb|[]]. subst a. apply in_map_iff in Ha.
  destruct Ha as (r & Er & Hr). exact (Hfresh r Hr Er).
Qed.

Lemma keys_issued_snoc {A : Type} (key : A -> Z) (rows : list A) (seq : Z) (x : A) :
  keys_issued key rows seq -> key x = seq + 1 ->
  keys_issued key (rows ++ [x]) (seq + 1).
Proof.
  intros [Hnd Hle] Hx. rewrite Forall_forall in Hle. split.
  - apply NoDup_map_snoc; [exact Hnd|].
    intros r Hr. specialize (Hle r Hr). lia.
  - apply Forall_app. split.
    + apply Forall_forall. intros r Hr. specialize (Hle r Hr). lia.
    + constructor; [lia|constructor].
Qed.

Lemma keys_issued_filter {A : Type} (key : A -> Z) (p : A -> bool)
  (rows : list A) (seq : Z) :
  keys_issued key rows seq -> keys_issued key (filter p rows) seq.
Proof.
  intros [Hnd Hle]. split; [apply NoDup_map_filter, Hnd|].
  rewrite Forall_forall in *. intros r Hr. apply filter_In in Hr.
  apply Hle. tauto.
Qed.

Lemma keys_issued_map {A : Type} (key : A -> Z) (f : A -> A)
  (rows : list A) (seq : Z) :
  (forall r, key (f r) = key r) ->
  keys_issued key rows seq -> keys_issued key (map f rows) seq.
Proof.
  intros Hf [Hnd Hle]. split.
  - rewrite map_map. rewrite (map_ext _ key) by exact Hf. exact Hnd.
  - rewrite Forall_forall in *. intros r Hr. apply in_map_iff in Hr.
    destruct Hr as (x & Ex & Hx). rewrite <- Ex, Hf. auto.
Qed.

(** Rewriting the text column of the row of one id keeps the column free
    of duplicates when no other row holds the new text. *)
Lemma NoDup_text_update {A : Type} (id : A -> Z) (text : A -> string)
  (f : A -> A) (i : Z) (new : string) (rows : list A) :
  (forall r, id r = i -> text (f r) = new) ->
  (forall r, id r <> i -> f r = r) ->
  NoDup (map id rows) -> NoDup (map text rows) ->
  (forall r, In r rows -> text r = new -> id r = i) ->
  NoDup (map text (map f rows)).
Proof.
  intros Hhit Hmiss. induction rows as [|a l IH]; simpl; [constructor|].
  intros Hid Htx Hother.
  inversion Hid as [|? ? Hni Hid']; subst.
  inversion Htx as [|? ? Hnt Htx']; subst.
  assert (Hrest : forall r, In r l -> id r = i -> id a <> i).
  { intros r Hr E C. apply Hni. rewrite C, <- E. apply in_map. exact Hr. }
  constructor.
  - intro Hin. apply in_map_iff in Hin. destruct Hin as (y & Ey & Hy).
    apply in_map_iff in Hy. destruct Hy as (r & Er & Hr). subst y.
    destruct (Z.eq_dec (id a) i) as [Ca|Ca];
      destruct (Z.eq_dec (id r) i) as [Cr|Cr].
    + exact (Hrest r Hr Cr Ca).
    + rewrite (Hmiss r Cr), (Hhit a Ca) in Ey.
      apply Cr. apply Hother; [right; exact Hr|exact Ey].
    + rewrite (Hhit r Cr), (Hmiss a Ca) in Ey.
      apply Ca. apply Hother; [left; reflexivity|symmetry; exact Ey].
    + rewrite (Hmiss r Cr), (Hmiss a Ca) in Ey.
      apply Hnt. rewrite <- Ey. apply in_map. exact Hr.
  - apply IH; auto; intros r Hr; apply Hother; right; exact Hr.
Qed.

Lemma student_id_free (d : db) (self : option Z) (code : string) :
  student_id_taken d self code = false ->
  forall r, In r (students d) -> st_student_id r = code ->
            match self with Some i => st_id r = i | None => False end.
Proof.
  unfold student_id_taken. intros H r Hr E.
  assert (C : (String.eqb (st_student_id r) code
               && match self with
                  | Some i => negb (st_id r =? i)
                  | None => true
                  end) = false).
  { destruct (_ && _) eqn:F; [|reflexivity].
    rewrite <- H. symmetry. apply existsb_exists. exists r. tauto. }
  rewrite (proj2 (String.eqb_eq _ _) E) in C. simpl in C.
  destruct self as [i|]; [|discriminate].
  apply negb_false_iff, Z.eqb_eq in C. exact C.
Qed.

Lemma subject_name_free (d : db) (self : option Z) (name : string) :
  subject_name_taken d self name = false ->
  forall r, In r (subjects d) -> sub_name r = name ->
            match self with Some i => sub_id r = i | None => False end.
Proof.
  unfold subject_name_taken. intros H r Hr E.
  assert (C : (String.eqb (sub_name r) name
               && match self with
                  | Some i => negb (sub_id r =? i)
                  | None => true
                  end) = false).
  { destruct (_ && _) eqn:F; [|reflexivity].
    rewrite <- H. symmetry. apply existsb_exists. exists r. tauto. }
  rewrite (proj2 (String.eqb_eq _ _) E) in C. simpl in C.
  destruct self as [i|]; [|discriminate].
  apply negb_false_iff, Z.eqb_eq in C. exact C.
Qed.

Lemma map_untouched {A : Type} (id : A -> Z) (f : A -> A) (i : Z) (rows : list A) :
  (forall r, id r <> i -> f r = r) ->
  existsb (fun r => id r =? i) rows = false ->
  map f rows = rows.
Proof.
  intros Hmiss H. rewrite <- (map_id rows) at 2. apply map_ext_in.
  intros r Hr. apply Hmiss. intro C.
  assert (existsb (fun r => id r =? i) rows = true); [|congruence].
  apply existsb_exists. exists r. split; [exact Hr|]. apply Z.eqb_eq, C.
Qed.

Lemma apply_op_tables_ok (d : db) (o : op) : tables_ok d -> tables_ok (apply_op d o).
Proof.
  intros ((S1 & S2) & (B1 & B2) & (A1 & A2) & Hcode & Hname).
  pose proof (conj S1 S2 : keys_issued st_id _ _) as Hst.
  pose proof (conj B1 B2 : keys_issued sub_id _ _) as Hsub.
  pose proof (conj A1 A2 : keys_issued at_id _ _) as Hat.
  destruct o as [sid name klass|i sid name klass|i|name|i name|i|st sj x|sj|st date p];
    simpl.
  - unfold add_student_to_db.
    destruct (student_id_taken d None sid) eqn:T;
      [repeat split; assumption|].
    pose proof (student_id_free d None sid T) as F.
    pose proof (keys_issued_snoc st_id (students d) (seq_students d)
                  {| st_id := seq_students d + 1; st_student_id := sid;
                     st_name := name; st_klass := klass |} Hst eq_refl)
      as [K1 K2].
    repeat split; simpl; try assumption.
    apply NoDup_map_snoc; [exact Hcode|]. simpl. intros r Hr E.
    exact (F r Hr E).
  - unfold update_student_in_db.
    destruct (existsb (fun r => st_id r =? i) (students d)) eqn:Ex; simpl.
    + destruct (student_id_taken d (Some i) sid) eqn:T;
        [repeat split; assumption|].
      pose proof (student_id_free d (Some i) sid T) as F. simpl in F.
      set (f := fun r => if st_id r =? i
                         then {| st_id := st_id r; st_student_id := sid;
                                 st_name := name; st_klass := klass |}
                         else r).
      assert (Hk : forall r, st_id (f r) = st_id r).
      { intro r. unfold f. destruct (st_id r =? i); reflexivity. }
      pose proof (keys_issued_map st_id f _ _ Hk Hst) as [K1 K2].
      repeat split; simpl; try assumption.
      apply (NoDup_text_update st_id st_student_id f i sid); auto.
      * intros r E. unfold f. rewrite (proj2 (Z.eqb_eq _ _) E). reflexivity.
      * intros r E. unfold f. rewrite (proj2 (Z.eqb_neq _ _) E). reflexivity.
    + rewrite (map_untouched st_id _ i (students d)); [repeat split; assumption| |exact Ex].
      intros r E. rewrite (proj2 (Z.eqb_neq _ _) E). reflexivity.
  - pose proof (keys_issued_filter st_id (fun r => negb (st_id r =? i)) _ _ Hst) as [K1 K2].
    pose proof (keys_issued_filter at_id (fun r => negb (at_student_db_id r =? i)) _ _ Hat) as [K3 K4].
    repeat split; simpl; try assumption. apply NoDup_map_filter; assumption.
  - unfold add_subject_to_db.
    destruct (subject_name_taken d None name) eqn:T;
      [repeat split; assumption|].
    pose proof (subject_name_free d None name T) as F.
    pose proof (keys_issued_snoc sub_id (subjects d) (seq_subjects d)
                  {| sub_id := seq_subjects d + 1; sub_name := name |}
                  Hsub eq_refl) as [K1 K2].
    repeat split; simpl; try assumption.
    apply NoDup_map_snoc; [exact Hname|]. simpl. intros r Hr E.
    exact (F r Hr E).
  - unfold update_subject_name.
    destruct (existsb (fun r => sub_id r =? i) (subjects d)) eqn:Ex; simpl.
    + destruct (subject_name_taken d (Some i) name) eqn:T;
        [repeat split; assumption|].
      pose proof (subject_name_free d (Some i) name T) as F. simpl in F.
      set (f := fun r => if sub_id r =? i
                         then {| sub_id := sub_id r; sub_name := name |}
                         else r).
      assert (Hk : forall r, sub_id (f r) = sub_id r).
      { intro r. unfold f. destruct (sub_id r =? i); reflexivity. }
      pose proof (keys_issued_map sub_id f _ _ Hk Hsub) as [K1 K2].
      repeat split; simpl; try assumption.
      apply (NoDup_text_update sub_id sub_name f i name); auto.
      * intros r E. unfold f. rewrite (proj2 (Z.eqb_eq _ _) E). reflexivity.
      * intros r E. unfold f. rewrite (proj2 (Z.eqb_neq _ _) E). reflexivity.
    + rewrite (map_untouched sub_id _ i (subjects d)); [repeat split; assumption| |exact Ex].
      intros r E. rewrite (proj2 (Z.eqb_neq _ _) E). reflexivity.
  - pose proof (keys_issued_filter sub_id (fun r => negb (sub_id r =? i)) _ _ Hsub) as [K1 K2].
    repeat split; simpl; try assumption. apply NoDup_map_filter; assumption.
  - unfold set_mark_in_db. destruct (find _ _); repeat split; assumption.
  - repeat split; assumption.
  - pose proof (keys_issued_snoc at_id (attendance d) (seq_attendance d)
                  {| at_id := seq_attendance d + 1; at_student_db_id := st;
                     at_date := date;
                     at_present := if Py.truthy p then 1 else 0 |}
                  Hat eq_refl) as [K1 K2].
    repeat split; simpl; assumption.
Qed.

Lemma run_tables_ok (ops : list op) :
  forall d, tables_ok d -> tables_ok (run ops d).
Proof.
  induction ops as [|o ops IH]; intros d H; [exact H|].
  simpl. apply IH, apply_op_tables_ok, H.
Qed.

Lemma run_constraints (ops : list op) : constraints_hold (run ops init_db).
Proof.
  assert (T : tables_ok (run ops init_db)).
  { apply run_tables_ok. repeat split; simpl; constructor. }
  destruct T as ((S1 & S2) & (B1 & B2) & (A1 & A2) & Hcode & Hname).
  destruct (run_marks_inv ops init_db init_db_marks_inv) as [[M1 M2] _].
  repeat split; assumption.
Qed.

(** ** Constraints along a run *)

(** X1: along every run of the repository from the fresh database the row
    ids of each table are distinct, no two students share a student code
    and no two subjects share a name. *)
Theorem store_keys_stay_unique (ops : list op) :
  NoDup (map st_id (students (run ops init_db))) /\
  NoDup (map st_student_id (students (run ops init_db))) /\
  NoDup (map sub_id (subjects (run ops init_db))) /\
  NoDup (map sub_name (subjects (run ops init_db))) /\
  NoDup (map mk_id (marks (run ops init_db))) /\
  NoDup (map at_id (attendance (run ops init_db))).
Proof.
  destruct (run_constraints ops)
    as ((S1 & _) & (B1 & _) & (M1 & _) & (A1 & _) & Hcode & Hname).
  repeat split; assumption.
Qed.

(** ** Subjects *)



Lemma list_subjects_In (d : db) (i : Z) (name : string) :
  In (i, name) (list_subjects_from_db d) <->
  In {| sub_id := i; sub_name := name |} (subjects d).
Proof.
  unfold list_subjects_from_db. rewrite in_map_iff. split.
  - intros (r & E & Hr). apply order_by_In in Hr.
    destruct r as [ri rn]. unfold subject_tuple in E. simpl in E.
    inversion E; subst. exact Hr.
  - intro H. eexists. split; [|apply order_by_In; exact H]. reflexivity.
Qed.



(** X3: on every store a run of the repository reaches,
    [list_subjects_from_db] returns the rows of the table, each once, in
    strictly ascending order of name. *)
Theorem list_subjects_sorted (ops : list op) :
  strictly_ascending snd (list_subjects_from_db (run ops init_db)) /\
  (forall i name,
      In (i, name) (list_subjects_from_db (run ops init_db)) <->
      In {| sub_id := i; sub_name := name |} (subjects (run ops init_db))) /\
  List.length (list_subjects_from_db (run ops init_db)) =
    List.length (subjects (run ops init_db)).
Proof.
  destruct (run_constraints ops) as (_ & _ & _ & _ & _ & Hname).
  set (d := run ops init_db) in *.
  split; [|split].
  - unfold list_subjects_from_db.
    pose proof (ascending_strict sub_name _ (order_by_ascending sub_name (subjects d))
                  (order_by_keys_nodup sub_name _ Hname)) as S.
    unfold strictly_ascending in *.
    induction S as [|a l Hs IH Hh]; simpl; constructor; [exact IH|].
    destruct Hh; simpl; constructor. assumption.
  - intros i name. apply list_subjects_In.
  - unfold list_subjects_from_db. rewrite length_map. apply order_by_length.
Qed.

(** ** Students *)

Lemma list_students_In (d : db) (t : Z * string * string * string) :
  In t (list_students_from_db d) <->
  exists r, In r (students d) /\ t = student_tuple r.
Proof.
  unfold list_students_from_db. rewrite in_map_iff. split.
  - intros (r & E & Hr). exists r. split; [apply order_by_In in Hr; exact Hr|].
    symmetry. exact E.
  - intros (r & Hr & E). exists r. split; [symmetry; exact E|].
    apply order_by_In. exact Hr.
Qed.

Lemma ascending_map {A B : Type} (key : A -> string) (key' : B -> string)
  (f : A -> B) (l : list A) :
  (forall a, key' (f a) = key a) ->
  ascending key l -> ascending key' (map f l).
Proof.
  intro Hk. unfold ascending. induction 1 as [|a l Hs IH Hh]; simpl;
    constructor; [exact IH|].
  destruct Hh; simpl; constructor. rewrite !Hk. assumption.
Qed.

(** X4: [list_students_from_db] returns every student row once, as the
    tuple of its four columns, in ascending order of name. *)
Theorem list_students_sorted (d : db) :
  ascending (fun t => snd (fst t)) (list_students_from_db d) /\
  Permutation (list_students_from_db d) (map student_tuple (students d)).
Proof.
  split.
  - unfold list_students_from_db.
    apply (ascending_map st_name); [reflexivity|apply order_by_ascending].
  - unfold list_students_from_db. apply Permutation_map, order_by_perm.
Qed.

(** ** Foreign keys *)

Lemma key_injective {A : Type} (key : A -> Z) (l : list A) (x y : A) :
  NoDup (map key l) -> In x l -> In y l -> key x = key y -> x = y.
Proof.
  induction l as [|a l IH]; simpl; [tauto|].
  intros Hnd Hx Hy E. inversion Hnd as [|? ? Hn Hnd']; subst.
  destruct Hx as [->|Hx], Hy as [->|Hy]; auto.
  - exfalso. apply Hn. rewrite E. apply in_map. exact Hy.
  - exfalso. apply Hn. rewrite <- E. apply in_map. exact Hx.
Qed.

Lemma text_injective {A : Type} (key : A -> string) (l : list A) (x y : A) :
  NoDup (map key l) -> In x l -> In y l -> key x = key y -> x = y.
Proof.
  induction l as [|a l IH]; simpl; [tauto|].
  intros Hnd Hx Hy E. inversion Hnd as [|? ? Hn Hnd']; subst.
  destruct Hx as [->|Hx], Hy as [->|Hy]; auto.
  - exfalso. apply Hn. rewrite E. apply in_map. exact Hy.
  - exfalso. apply Hn. rewrite <- E. apply in_map. exact Hx.
Qed.

Lemma exists_after_map {A : Type} (id : A -> Z) (f : A -> A) (l : list A) (i : Z) :
  (forall r, id (f r) = id r) ->
  (exists r, In r l /\ id r = i) -> exists r, In r (map f l) /\ id r = i.
Proof.
  intros Hf (r & Hr & E). exists (f r). split; [apply in_map; exact Hr|].
  rewrite Hf. exact E.
Qed.

Lemma exists_after_app {A : Type} (id : A -> Z) (l l' : list A) (i : Z) :
  (exists r, In r l /\ id r = i) -> exists r, In r (l ++ l') /\ id r = i.
Proof.
  intros (r & Hr & E). exists r. split; [apply in_or_app; left; exact Hr|exact E].
Qed.

Lemma exists_after_filter {A : Type} (id : A -> Z) (l : list A) (i j : Z) :
  i <> j ->
  (exists r, In r l /\ id r = i) ->
  exists r, In r (filter (fun x => negb (id x =? j)) l) /\ id r = i.
Proof.
  intros Hn (r & Hr & E). exists r. split; [|exact E].
  apply filter_other_ids. split; [exact Hr|congruence].
Qed.

Lemma In_overwritten (row : mark_row) (value : float) (l : list mark_row)
  (m : mark_row) :
  In m (map (overwrite row value) l) ->
  exists m0, In m0 l /\ mk_student_db_id m = mk_student_db_id m0 /\
             mk_subject_db_id m = mk_subject_db_id m0.
Proof.
  intro H. apply in_map_iff in H. destruct H as (m0 & E & H0).
  exists m0. split; [exact H0|]. subst m. unfold overwrite.
  destruct (mk_id m0 =? mk_id row); split; reflexivity.
Qed.

(** X5: SQLite does not enforce the foreign keys of the schema here, yet
    they are kept: if every mark and attendance row names rows that exist,
    they still do after any operation of the repository that writes a
    mark or an attendance row only for a student and a subject that
    exist. *)
Theorem references_preserved (d : db) (o : op) :
  references_hold d -> targets_exist d o -> references_hold (apply_op d o).
Proof.
  intros [HM HA] HT. destruct o as [sid nm kl|i sid nm kl|i|nm|i nm|i|st sj v|sj|st dt p];
    simpl in *.
  - (* AddStudent *)
    unfold add_student_to_db. destruct (student_id_taken d None sid); [split; assumption|].
    split; simpl.
    + intros m Hm. destruct (HM m Hm) as [H1 H2]. split; [|exact H2].
      apply exists_after_app. exact H1.
    + intros a Ha. apply exists_after_app. exact (HA a Ha).
  - (* UpdateStudent *)
    unfold update_student_in_db.
    destruct (existsb _ _ && student_id_taken d (Some i) sid); [split; assumption|].
    split; simpl.
    + intros m Hm. destruct (HM m Hm) as [H1 H2]. split; [|exact H2].
      apply exists_after_map; [|exact H1].
      intro r. destruct (st_id r =? i); reflexivity.
    + intros a Ha. apply exists_after_map; [|exact (HA a Ha)].
      intro r. destruct (st_id r =? i); reflexivity.
  - (* DeleteStudent *)
    split; simpl.
    + intros m Hm. apply (filter_other_ids mk_student_db_id) in Hm.
      destruct Hm as [Hm Hne]. destruct (HM m Hm) as [H1 H2]. split; [|exact H2].
      apply (exists_after_filter st_id); assumption.
    + intros a Ha. apply (filter_other_ids at_student_db_id) in Ha.
      destruct Ha as [Ha Hne].
      apply (exists_after_filter st_id); [exact Hne|exact (HA a Ha)].
  - (* AddSubject *)
    unfold add_subject_to_db. destruct (subject_name_taken d None nm); [split; assumption|].
    split; simpl; [|exact HA].
    intros m Hm. destruct (HM m Hm) as [H1 H2]. split; [exact H1|].
    apply exists_after_app. exact H2.
  - (* RenameSubject *)
    unfold update_subject_name.
    destruct (existsb _ _ && subject_name_taken d (Some i) nm); [split; assumption|].
    split; simpl; [|exact HA].
    intros m Hm. destruct (HM m Hm) as [H1 H2]. split; [exact H1|].
    apply exists_after_map; [|exact H2].
    intro r. destruct (sub_id r =? i); reflexivity.
  - (* DeleteSubject *)
    split; simpl; [|exact HA].
    intros m Hm. apply (filter_other_ids mk_subject_db_id) in Hm.
    destruct Hm as [Hm Hne]. destruct (HM m Hm) as [H1 H2]. split; [exact H1|].
    apply (exists_after_filter sub_id); assumption.
  - (* SetMark *)
    destruct (find (mark_matches st sj) (marks d)) as [row|] eqn:F.
    + rewrite (set_mark_found _ _ _ _ _ F). split; simpl; [|exact HA].
      intros m Hm. apply In_overwritten in Hm.
      destruct Hm as (m0 & H0 & -> & ->). exact (HM m0 H0).
    + rewrite (set_mark_missing _ _ _ _ F). split; simpl; [|exact HA].
      intros m Hm. apply in_app_or in Hm. destruct Hm as [Hm|[<-|[]]].
      * exact (HM m Hm).
      * exact HT.
  - (* DeleteMarksForSubject *)
    split; simpl; [|exact HA].
    intros m Hm. apply (filter_other_ids mk_subject_db_id) in Hm.
    destruct Hm as [Hm _]. exact (HM m Hm).
  - (* AddAttendance *)
    split; simpl; [exact HM|].
    intros a Ha. apply in_app_or in Ha. destruct Ha as [Ha|[<-|[]]].
    + exact (HA a Ha).
    + exact HT.
Qed.

Lemma references_preserved_witness :
  references_hold (run [AddStudent "S1" "Ann" "X"; AddSubject "Math"] init_db) /\
  targets_exist (run [AddStudent "S1" "Ann" "X"; AddSubject "Math"] init_db)
                (SetMark 1 1 lit_4_0) /\
  references_hold
    (apply_op (run [AddStudent "S1" "Ann" "X"; AddSubject "Math"] init_db)
              (SetMark 1 1 lit_4_0)).
Proof.
  assert (H1 : references_hold
                 (run [AddStudent "S1" "Ann" "X"; AddSubject "Math"] init_db)).
  { split; simpl; intros ? []. }
  assert (H2 : targets_exist
                 (run [AddStudent "S1" "Ann" "X"; AddSubject "Math"] init_db)
                 (SetMark 1 1 lit_4_0)).
  { split; eexists; (split; [left; reflexivity|reflexivity]). }
  split; [exact H1|split; [exact H2|]].
  apply (references_preserved _ _ H1 H2).
Defined.

(** ** The marks of a student *)

Lemma joined_marks_In (d : db) (st : Z) (nm : string) (v : float) :
  In (nm, v) (joined_marks d st) <->
  exists m s, In m (marks d) /\ mk_student_db_id m = st /\
              In s (subjects d) /\ sub_id s = mk_subject_db_id m /\
              nm = sub_name s /\ v = mk_marks m.
Proof.
  unfold joined_marks. rewrite in_flat_map. split.
  - intros (m & Hm & H). destruct (mk_student_db_id m =? st) eqn:E; [|destruct H].
    apply in_map_iff in H. destruct H as (s & Es & Hs).
    apply filter_In in Hs. destruct Hs as [Hs Eid].
    inversion Es; subst. exists m, s. repeat split; try assumption; lia.
  - intros (m & s & Hm & E1 & Hs & E2 & -> & ->). exists m. split; [exact Hm|].
    rewrite (proj2 (Z.eqb_eq _ _) E1). apply in_map_iff. exists s.
    split; [reflexivity|]. apply filter_In. split; [exact Hs|lia].
Qed.

Lemma get_marks_In (d : db) (st : Z) (nm : string) (x : pyval) :
  In (nm, x) (get_marks_for_student_from_db d st) <->
  exists m s, In m (marks d) /\ mk_student_db_id m = st /\
              In s (subjects d) /\ sub_id s = mk_subject_db_id m /\
              nm = sub_name s /\ x = real_column (mk_marks m).
Proof.
  unfold get_marks_for_student_from_db. rewrite in_map_iff. split.
  - intros ([n v] & E & H). simpl in E. inversion E; subst.
    apply order_by_In in H. apply joined_marks_In in H.
    destruct H as (m & s & H). exists m, s. intuition congruence.
  - intros (m & s & Hm & E1 & Hs & E2 & -> & ->).
    exists (sub_name s, mk_marks m). split; [reflexivity|].
    apply order_by_In. apply joined_marks_In. exists m, s. tauto.
Qed.

Lemma marks_of_In (d : db) (st sj : Z) (m : mark_row) :
  In m (marks_of d st sj) <->
  In m (marks d) /\ mk_student_db_id m = st /\ mk_subject_db_id m = sj.
Proof.
  unfold marks_of, mark_matches. rewrite filter_In, andb_true_iff, !Z.eqb_eq.
  tauto.
Qed.

Lemma set_mark_subjects (d : db) (st sj : Z) (v : float) :
  subjects (set_mark_in_db d st sj v) = subjects d.
Proof.
  unfold set_mark_in_db. destruct (find _ _); reflexivity.
Qed.

(** X6: on a store reached by a run of the repository, after
    [set_mark_in_db] for a student and a subject of the store,
    [get_marks_for_student_from_db] lists that subject's name with the
    value written, as a [REAL] cell gives it back, and with no other
    value, and every other entry of every student's list is as before. *)
Theorem set_mark_then_get (ops : list op) (st : Z) (s : subject_row) (v : float) :
  In s (subjects (run ops init_db)) ->
  In (sub_name s, real_column v)
     (get_marks_for_student_from_db
        (set_mark_in_db (run ops init_db) st (sub_id s) v) st) /\
  (forall x,
      In (sub_name s, x)
         (get_marks_for_student_from_db
            (set_mark_in_db (run ops init_db) st (sub_id s) v) st) ->
      x = real_column v) /\
  (forall st' nm x, st' <> st \/ nm <> sub_name s ->
      (In (nm, x)
          (get_marks_for_student_from_db
             (set_mark_in_db (run ops init_db) st (sub_id s) v) st') <->
       In (nm, x) (get_marks_for_student_from_db (run ops init_db) st'))).
Proof.
  intro Hs.
  destruct (run_constraints ops) as (_ & (B1 & _) & _ & _ & _ & Hname).
  pose proof (run_marks_inv ops init_db init_db_marks_inv) as Hinv.
  set (d := run ops init_db) in *.
  destruct (set_mark_spec d st (sub_id s) v Hinv) as (_ & Hval & Hoth & _).
  set (d' := set_mark_in_db d st (sub_id s) v) in *.
  assert (Hsub : subjects d' = subjects d) by apply set_mark_subjects.
  destruct (marks_of d' st (sub_id s)) as [|m0 [|m1 rest]] eqn:Hof;
    simpl in Hval; try discriminate.
  inversion Hval as [Hv]. clear Hval.
  assert (Hm0 : In m0 (marks_of d' st (sub_id s))) by (rewrite Hof; left; reflexivity).
  apply marks_of_In in Hm0. destruct Hm0 as (Hm0 & Hst0 & Hsj0).
  split; [|split].
  - apply get_marks_In. exists m0, s. rewrite Hsub. repeat split; congruence.
  - intros x Hx. apply get_marks_In in Hx.
    destruct Hx as (m & s' & Hm & E1 & Hs' & E2 & E3 & ->).
    rewrite Hsub in Hs'.
    assert (s' = s) by (apply (text_injective sub_name (subjects d)); auto).
    subst s'.
    assert (Hin : In m (marks_of d' st (sub_id s))).
    { apply marks_of_In. repeat split; congruence. }
    rewrite Hof in Hin. destruct Hin as [<-|[]]. congruence.
  - intros st' nm x Hne. rewrite !get_marks_In. rewrite Hsub.
    assert (K : forall m s', In s' (subjects d) ->
                  mk_student_db_id m = st' -> sub_id s' = mk_subject_db_id m ->
                  nm = sub_name s' ->
                  (In m (marks d') <-> In m (marks d))).
    { intros m s' Hs' E1 E2 E3.
      assert (Hp : (st', mk_subject_db_id m) <> (st, sub_id s)).
      { intro E. inversion E as [[Ea Eb]]. destruct Hne as [Hne|Hne]; [congruence|].
        apply Hne. rewrite E3. f_equal.
        apply (key_injective sub_id (subjects d)); auto. congruence. }
      specialize (Hoth _ _ Hp).
      split; intro Hm.
      - assert (Hx : In m (marks_of d' st' (mk_subject_db_id m)))
          by (apply marks_of_In; auto).
        rewrite Hoth in Hx. apply marks_of_In in Hx. tauto.
      - assert (Hx : In m (marks_of d st' (mk_subject_db_id m)))
          by (apply marks_of_In; auto).
        rewrite <- Hoth in Hx. apply marks_of_In in Hx. tauto. }
    split; intros (m & s' & Hm & E1 & Hs' & E2 & E3 & E4); exists m, s';
      repeat split; try assumption; apply (K m s' Hs' E1 E2 E3); exact Hm.
Qed.

Lemma set_mark_then_get_witness :
  In {| sub_id := 1; sub_name := "Math" |}
     (subjects (run [AddSubject "Math"] init_db)) /\
  In ("Math"%string, PyFloat lit_4_0)
     (get_marks_for_student_from_db
        (set_mark_in_db (run [AddSubject "Math"] init_db) 7 1 lit_4_0) 7).
Proof.
  assert (H : In {| sub_id := 1; sub_name := "Math" |}
                 (subjects (run [AddSubject "Math"] init_db)))
    by (left; reflexivity).
  split; [exact H|].
  exact (proj1 (set_mark_then_get [AddSubject "Math"] 7
                  {| sub_id := 1; sub_name := "Math" |} lit_4_0 H)).
Defined.

(** The names of the join are distinct when the subjects' ids and names
    are and no pair has two marks. *)
Lemma joined_names_nodup (subs : list subject_row) (st : Z) (l : list mark_row) :
  NoDup (map sub_id subs) -> NoDup (map sub_name subs) ->
  (forall sj, (List.length (filter (mark_matches st sj) l) <= 1)%nat) ->
  NoDup (map fst
           (flat_map
              (fun m =>
                 if mk_student_db_id m =? st then
                   map (fun s => (sub_name s, mk_marks m))
                       (filter (fun s => sub_id s =? mk_subject_db_id m) subs)
                 else [])
              l)).
Proof.
  intros Hid Hname. induction l as [|m l IH]; intro Hone; simpl; [constructor|].
  assert (Hone' : forall sj, (List.length (filter (mark_matches st sj) l) <= 1)%nat).
  { intro sj. specialize (Hone sj). simpl in Hone.
    destruct (mark_matches st sj m); simpl in Hone; lia. }
  specialize (IH Hone'). rewrite map_app.
  destruct (mk_student_db_id m =? st) eqn:Est; [|exact IH].
  apply Z.eqb_eq in Est.
  (* the subjects matched by one mark: names distinct, and none recurs *)
  assert (Hhead : NoDup (map fst (map (fun s => (sub_name s, mk_marks m))
                    (filter (fun s => sub_id s =? mk_subject_db_id m) subs)))).
  { rewrite map_map. simpl. apply NoDup_map_filter. exact Hname. }
  apply NoDup_app; [exact Hhead|exact IH|].
  intros nm H1 H2.
  apply in_map_iff in H1. destruct H1 as ([n1 v1] & E1 & H1). simpl in E1. subst n1.
  apply in_map_iff in H1. destruct H1 as (s1 & E1 & H1). inversion E1; subst.
  apply filter_In in H1. destruct H1 as [Hs1 Eid1]. apply Z.eqb_eq in Eid1.
  apply in_map_iff in H2. destruct H2 as ([n2 v2] & E2 & H2). simpl in E2.
  apply in_flat_map in H2. destruct H2 as (m2 & Hm2 & H2).
  destruct (mk_student_db_id m2 =? mk_student_db_id m) eqn:Est2; [|destruct H2].
  apply Z.eqb_eq in Est2.
  apply in_map_iff in H2. destruct H2 as (s2 & E3 & H2). inversion E3; subst.
  apply filter_In in H2. destruct H2 as [Hs2 Eid2]. apply Z.eqb_eq in Eid2.
  assert (s2 = s1) by (apply (text_injective sub_name subs); auto). subst s2.
  specialize (Hone (mk_subject_db_id m)). simpl in Hone.
  assert (Hm : mark_matches (mk_student_db_id m) (mk_subject_db_id m) m = true).
  { unfold mark_matches. rewrite !Z.eqb_refl. reflexivity. }
  rewrite Hm in Hone. simpl in Hone.
  assert (Hin : In m2 (filter (mark_matches (mk_student_db_id m) (mk_subject_db_id m)) l)).
  { apply filter_In. split; [exact Hm2|]. unfold mark_matches.
    apply andb_true_iff. rewrite !Z.eqb_eq. split; congruence. }
  destruct (filter _ l); [destruct Hin|simpl in Hone; lia].
Qed.

Lemma strictly_ascending_map {A B : Type} (key : A -> string) (key' : B -> string)
  (f : A -> B) (l : list A) :
  (forall a, key' (f a) = key a) ->
  strictly_ascending key l -> strictly_ascending key' (map f l).
Proof.
  intro Hk. unfold strictly_ascending. induction 1 as [|a l Hs IH Hh]; simpl;
    constructor; [exact IH|].
  destruct Hh; simpl; constructor. rewrite !Hk. assumption.
Qed.

Lemma filter_by_key_length {A : Type} (key : A -> Z) (l : list A) (i : Z) :
  NoDup (map key l) ->
  (List.length (filter (fun r => (key r =? i)%Z) l) <= 1)%nat.
Proof.
  induction l as [|s l IH]; simpl; intro Hnd; [lia|].
  inversion Hnd as [|? ? Hn Hnd']; subst. specialize (IH Hnd').
  destruct (key s =? i) eqn:E; [|exact IH].
  simpl. apply Z.eqb_eq in E.
  destruct (filter _ l) as [|s2 r] eqn:F; [simpl; lia|]. exfalso.
  assert (Hs2 : In s2 (filter (fun r => key r =? i) l))
    by (rewrite F; left; reflexivity).
  apply filter_In in Hs2. destruct Hs2 as [Hs2 E2]. apply Z.eqb_eq in E2.
  apply Hn. rewrite E, <- E2. apply in_map. exact Hs2.
Qed.

(** X7: on a store reached by a run of the repository,
    [get_marks_for_student_from_db] lists each subject at most once, in
    strictly ascending order of name, and never more entries than the
    student has mark rows. *)
Theorem marks_listing_one_per_subject (ops : list op) (st : Z) :
  strictly_ascending fst
    (get_marks_for_student_from_db (run ops init_db) st) /\
  (List.length (get_marks_for_student_from_db (run ops init_db) st) <=
   List.length (filter (fun m => (mk_student_db_id m =? st)%Z)
                       (marks (run ops init_db))))%nat.
Proof.
  destruct (run_constraints ops) as (_ & (B1 & _) & _ & _ & _ & Hname).
  destruct (run_marks_inv ops init_db init_db_marks_inv) as [_ Hone].
  set (d := run ops init_db) in *.
  split.
  - unfold get_marks_for_student_from_db.
    apply (strictly_ascending_map fst); [reflexivity|].
    apply ascending_strict; [apply order_by_ascending|].
    apply order_by_keys_nodup. unfold joined_marks.
    apply joined_names_nodup; [exact B1|exact Hname|].
    intro sj. apply (Hone st sj).
  - unfold get_marks_for_student_from_db. rewrite length_map, order_by_length.
    unfold joined_marks. generalize (marks d) as l.
    induction l as [|m l IH]; simpl; [lia|].
    rewrite length_app. destruct (mk_student_db_id m =? st); simpl; [|exact IH].
    rewrite length_map.
    pose proof (filter_by_key_length sub_id (subjects d) (mk_subject_db_id m) B1).
    lia.
Qed.

(** ** A student without rows *)

Lemma get_marks_none (d : db) (st : Z) :
  (forall m, In m (marks d) -> mk_student_db_id m <> st) ->
  get_marks_for_student_from_db d st = [].
Proof.
  intro H. unfold get_marks_for_student_from_db, joined_marks.
  assert (E : flat_map
                (fun m =>
                   if mk_student_db_id m =? st then
                     map (fun s => (sub_name s, mk_marks m))
                         (filter (fun s => sub_id s =? mk_subject_db_id m) (subjects d))
                   else []) (marks d) = []).
  { induction (marks d) as [|m l IH]; simpl; [reflexivity|].
    destruct (mk_student_db_id m =? st) eqn:E.
    - exfalso. apply (H m); [left; reflexivity|lia].
    - apply IH. intros m' Hm'. apply H. right. exact Hm'. }
  rewrite E. reflexivity.
Qed.

Lemma attendance_none (d : db) (st : Z) :
  (forall a, In a (attendance d) -> at_student_db_id a <> st) ->
  get_attendance_percent_from_db d st = Ok (NFloat lit_0_0).
Proof.
  intro H. unfold get_attendance_percent_from_db, attendance_of.
  assert (E : filter (fun r => at_student_db_id r =? st) (attendance d) = []).
  { induction (attendance d) as [|a l IH]; simpl; [reflexivity|].
    destruct (at_student_db_id a =? st) eqn:E.
    - exfalso. apply (H a); [left; reflexivity|lia].
    - apply IH. intros a' Ha'. apply H. right. exact Ha'. }
  rewrite E. reflexivity.
Qed.

(** X8: [delete_selected_student] changes nothing when the question is
    declined; when it is confirmed, the student's list of marks is empty
    afterwards, the grading of it is the N/A tuple and the attendance
    percentage is 0.0. *)
Theorem deleted_student_reads_empty (db_id : Z) (name : string) (d : db) :
  snd (delete_selected_student (Some (db_id, name)) false d) = d /\
  get_marks_for_student_from_db
    (snd (delete_selected_student (Some (db_id, name)) true d)) db_id = [] /\
  calculate_total_percentage_gpa_grade
    (get_marks_for_student_from_db
       (snd (delete_selected_student (Some (db_id, name)) true d)) db_id) =
    Ok (NInt 0, 0, NInt 0, NInt 0, "N/A"%string) /\
  get_attendance_percent_from_db
    (snd (delete_selected_student (Some (db_id, name)) true d)) db_id =
    Ok (NFloat lit_0_0).
Proof.
  assert (E : get_marks_for_student_from_db
                (snd (delete_selected_student (Some (db_id, name)) true d)) db_id = []).
  { apply get_marks_none. simpl. intros m Hm.
    apply (filter_other_ids mk_student_db_id) in Hm. tauto. }
  split; [reflexivity|]. split; [exact E|]. split; [rewrite E; reflexivity|].
  apply attendance_none. simpl. intros a Ha.
  apply (filter_other_ids at_student_db_id) in Ha. tauto.
Qed.



(** ** Deleting a subject *)

(** X10: [delete_subject] changes nothing when the question is declined;
    confirmed on a store reached by a run of the repository, for a
    subject of the store, it removes that subject's entry from every
    student's list of marks and leaves every other entry as it was. *)
Theorem delete_subject_drops_its_marks (ops : list op) (index : nat)
  (cached : list (Z * string)) (s : subject_row) (label search_var fg : string) :
  In s (subjects (run ops init_db)) ->
  nth_error cached index = Some (sub_id s, label) ->
  (forall sel,
      snd (delete_subject sel cached false search_var fg (run ops init_db)) =
      run ops init_db) /\
  (forall r,
      In r (subjects (snd (delete_subject (Some index) cached true search_var fg
                             (run ops init_db)))) <->
      In r (subjects (run ops init_db)) /\ r <> s) /\
  (forall st nm x,
      In (nm, x)
         (get_marks_for_student_from_db
            (snd (delete_subject (Some index) cached true search_var fg
                    (run ops init_db))) st) <->
      In (nm, x) (get_marks_for_student_from_db (run ops init_db) st) /\
      nm <> sub_name s).
Proof.
  intros Hs Hnth.
  destruct (run_constraints ops) as (_ & (B1 & _) & _ & _ & _ & Hname).
  set (d := run ops init_db) in *.
  split; [|split].
  - intros [idx|]; simpl; [|reflexivity].
    destruct (nth_error cached idx) as [[a b]|]; reflexivity.
  - intro r. simpl. rewrite Hnth. simpl.
    rewrite (filter_other_ids sub_id). split; intros [Hr Hne]; (split; [exact Hr|]).
    + congruence.
    + intro E. apply Hne. apply (key_injective sub_id (subjects d)); assumption.
  - intros st nm x. simpl. rewrite Hnth. simpl.
    rewrite !get_marks_In. simpl. split.
    + intros (m & s' & Hm & E1 & Hs' & E2 & E3 & E4).
      apply (filter_other_ids mk_subject_db_id) in Hm. destruct Hm as [Hm Hne].
      apply (filter_other_ids sub_id) in Hs'. destruct Hs' as [Hs' Hne'].
      split; [exists m, s'; tauto|].
      intro E. apply Hne'. f_equal.
      apply (text_injective sub_name (subjects d)); congruence.
    + intros [(m & s' & Hm & E1 & Hs' & E2 & E3 & E4) Hne].
      assert (Hid : sub_id s' <> sub_id s).
      { intro E. apply Hne. rewrite E3. f_equal.
        apply (key_injective sub_id (subjects d)); assumption. }
      exists m, s'. repeat split; try assumption.
      * apply (filter_other_ids mk_subject_db_id). split; [exact Hm|congruence].
      * apply (filter_other_ids sub_id). split; assumption.
Qed.

Lemma delete_subject_drops_its_marks_witness :
  In {| sub_id := 1; sub_name := "Math" |}
     (subjects (run [AddSubject "Math"; SetMark 7 1 lit_4_0] init_db)) /\
  nth_error [(1, "Math"%string)] 0 = Some (1, "Math"%string) /\
  subjects (snd (delete_subject (Some 0%nat) [(1, "Math"%string)] true "" "All"
                   (run [AddSubject "Math"; SetMark 7 1 lit_4_0] init_db))) = [] /\
  (In ("Math"%string, PyFloat lit_4_0)
      (get_marks_for_student_from_db
         (snd (delete_subject (Some 0%nat) [(1, "Math"%string)] true "" "All"
                 (run [AddSubject "Math"; SetMark 7 1 lit_4_0] init_db))) 7) <->
   In ("Math"%string, PyFloat lit_4_0)
      (get_marks_for_student_from_db
         (run [AddSubject "Math"; SetMark 7 1 lit_4_0] init_db) 7) /\
   "Math"%string <> sub_name {| sub_id := 1; sub_name := "Math" |}).
Proof.
  assert (H1 : In {| sub_id := 1; sub_name := "Math" |}
                 (subjects (run [AddSubject "Math"; SetMark 7 1 lit_4_0] init_db)))
    by (left; reflexivity).
  assert (H2 : nth_error [(1, "Math"%string)] 0 = Some (1, "Math"%string))
    by reflexivity.
  split; [exact H1|split; [exact H2|split; [reflexivity|]]].
  exact (proj2 (proj2 (delete_subject_drops_its_marks
                         [AddSubject "Math"; SetMark 7 1 lit_4_0] 0
                         [(1, "Math"%string)]
                         {| sub_id := 1; sub_name := "Math" |}
                         "Math" "" "All" H1 H2)) 7 "Math"%string (PyFloat lit_4_0)).
Defined.

(** ** Searching by name *)











Lemma percent_is_char : Py.is_char "%"%char 37 = true.
Proof. reflexivity. Qed.

Lemma underscore_is_char : Py.is_char "_"%char 95 = true.
Proof. reflexivity. Qed.







Lemma find_students_In (d : db) (name : string)
  (l : list (Z * string * string * string)) (t : Z * string * string * string) :
  find_students_by_name d name = Some l ->
  (In t l <->
   exists r, In r (students d) /\ t = student_tuple r /\
             like (list_ascii_of_string ("%" ++ name ++ "%"))
                  (list_ascii_of_string (st_name r)) = true).
Proof.
  unfold find_students_by_name.
  destruct (like_pattern_limit <? _); [discriminate|]. intro E. inversion E; subst l.
  rewrite in_map_iff. split.
  - intros (r & Er & Hr). apply order_by_In in Hr. apply filter_In in Hr.
    exists r. split; [tauto|]. split; [congruence|tauto].
  - intros (r & Hr & Er & Hl). exists r. split; [congruence|].
    apply order_by_In. apply filter_In. tauto.
Qed.





(** ** Saving marks *)

Lemma set_mark_tables (d : db) (st sj : Z) (v : float) :
  students (set_mark_in_db d st sj v) = students d /\
  subjects (set_mark_in_db d st sj v) = subjects d /\
  attendance (set_mark_in_db d st sj v) = attendance d.
Proof.
  unfold set_mark_in_db. destruct (find _ _); repeat split; reflexivity.
Qed.

Lemma set_mark_range (d : db) (st sj : Z) (v : float) :
  Forall (fun m => in_range (mk_marks m) = true) (marks d) ->
  in_range v = true ->
  Forall (fun m => in_range (mk_marks m) = true)
         (marks (set_mark_in_db d st sj v)).
Proof.
  intros H Hv. destruct (find (mark_matches st sj) (marks d)) as [row|] eqn:F.
  - rewrite (set_mark_found _ _ _ _ _ F). simpl.
    apply Forall_forall. intros m Hm. apply in_map_iff in Hm.
    destruct Hm as (m0 & <- & H0). rewrite Forall_forall in H.
    unfold overwrite. destruct (mk_id m0 =? mk_id row); [exact Hv|exact (H m0 H0)].
  - rewrite (set_mark_missing _ _ _ _ F). simpl.
    apply Forall_app. split; [exact H|]. constructor; [exact Hv|constructor].
Qed.

(** One turn of the loop, by the kind of the entry. *)
Lemma save_marks_turn (st : Z) (entries : Z -> string) (sj : Z) (nm : string)
  (rest : list (Z * string)) (d : db) :
  match classify_entry (entries sj) with
  | Blank =>
      save_marks_loop st entries ((sj, nm) :: rest) d =
      save_marks_loop st entries rest d
  | Accepted v =>
      in_range v = true /\
      save_marks_loop st entries ((sj, nm) :: rest) d =
      save_marks_loop st entries rest (set_mark_in_db d st sj v)
  | Rejected =>
      exists msg,
        save_marks_loop st entries ((sj, nm) :: rest) d = (ShowError msg, d)
  end.
Proof.
  unfold classify_entry, in_range. cbn [save_marks_loop].
  destruct (String.eqb (str_strip (entries sj)) EmptyString); [reflexivity|].
  destruct (Py.py_float (PyStr (str_strip (entries sj)))) as [v|e].
  - destruct (F64.geb_Z v 0 && F64.leb_Z v 100) eqn:R.
    + split; [exact R|reflexivity].
    + eexists. reflexivity.
  - eexists. reflexivity.
Qed.

Lemma save_marks_loop_keeps (st : Z) (entries : Z -> string)
  (cached : list (Z * string)) :
  forall d,
    Forall (fun m => in_range (mk_marks m) = true) (marks d) ->
    Forall (fun m => in_range (mk_marks m) = true)
           (marks (snd (save_marks_loop st entries cached d))) /\
    students (snd (save_marks_loop st entries cached d)) = students d /\
    subjects (snd (save_marks_loop st entries cached d)) = subjects d /\
    attendance (snd (save_marks_loop st entries cached d)) = attendance d.
Proof.
  induction cached as [|[sj nm] rest IH]; intros d H.
  - simpl. auto.
  - pose proof (save_marks_turn st entries sj nm rest d) as T.
    destruct (classify_entry (entries sj)) as [|v|].
    + rewrite T. apply IH. exact H.
    + destruct T as [R T]. rewrite T.
      destruct (IH _ (set_mark_range d st sj v H R)) as (I1 & I2 & I3 & I4).
      destruct (set_mark_tables d st sj v) as (T1 & T2 & T3).
      repeat split; congruence.
    + destruct T as [msg T]. rewrite T. simpl. auto.
Qed.

(** X13: [save_marks_for_selected] never stores a mark outside [0, 100]:
    if every mark of the store lies in the range, so does every mark
    afterwards, whatever the entries hold; students, subjects and
    attendance are left as they are. *)
Theorem saved_marks_stay_in_range (selected : option Z) (entries : Z -> string)
  (cached : list (Z * string)) (d : db) :
  Forall (fun m => in_range (mk_marks m) = true) (marks d) ->
  Forall (fun m => in_range (mk_marks m) = true)
         (marks (snd (save_marks_for_selected selected entries cached d))) /\
  students (snd (save_marks_for_selected selected entries cached d)) = students d /\
  subjects (snd (save_marks_for_selected selected entries cached d)) = subjects d /\
  attendance (snd (save_marks_for_selected selected entries cached d)) =
    attendance d.
Proof.
  intro H. unfold save_marks_for_selected.
  destruct selected as [st|]; [|simpl; auto].
  destruct (st =? 0); [simpl; auto|].
  apply save_marks_loop_keeps. exact H.
Qed.

Lemma saved_marks_stay_in_range_witness :
  Forall (fun m => in_range (mk_marks m) = true) (marks init_db) /\
  Forall (fun m => in_range (mk_marks m) = true)
         (marks (snd (save_marks_for_selected (Some 1)
                        (fun _ => "250"%string) [(1, "Math"%string)] init_db))).
Proof.
  assert (H : Forall (fun m => in_range (mk_marks m) = true) (marks init_db))
    by constructor.
  split; [exact H|].
  exact (proj1 (saved_marks_stay_in_range (Some 1) (fun _ => "250"%string)
                  [(1, "Math"%string)] init_db H)).
Defined.

(** X14: [save_marks_for_selected] stops at the first entry it rejects: it
    shows an error, and the store is the one that saving the subjects
    before that entry gives, so the marks entered above the rejected one
    are written and those below it are not. *)
Theorem save_marks_stops_at_first_invalid (st : Z) (entries : Z -> string)
  (pre post : list (Z * string)) (sj : Z) (nm : string) (d : db) :
  st <> 0 ->
  classify_entry (entries sj) = Rejected ->
  (exists msg,
      fst (save_marks_for_selected (Some st) entries
             (pre ++ (sj, nm) :: post) d) = ShowError msg) /\
  snd (save_marks_for_selected (Some st) entries (pre ++ (sj, nm) :: post) d) =
  snd (save_marks_for_selected (Some st) entries pre d).
Proof.
  intros Hst Hrej. unfold save_marks_for_selected.
  destruct (Z.eqb_spec st 0) as [C|_]; [contradiction|].
  revert d. induction pre as [|[a b] pre IH]; intro d.
  - pose proof (save_marks_turn st entries sj nm post d) as T.
    rewrite Hrej in T. destruct T as [msg T]. simpl app. rewrite T.
    split; [exists msg; reflexivity|reflexivity].
  - pose proof (save_marks_turn st entries a b (pre ++ (sj, nm) :: post) d) as T.
    pose proof (save_marks_turn st entries a b pre d) as T'.
    simpl app. destruct (classify_entry (entries a)) as [|v|].
    + rewrite T, T'. apply IH.
    + destruct T as [_ T]. destruct T' as [_ T']. rewrite T, T'. apply IH.
    + destruct T as [msg T]. destruct T' as [msg' T']. rewrite T, T'.
      split; [exists msg; reflexivity|reflexivity].
Qed.

Lemma save_marks_stops_at_first_invalid_witness :
  1 <> 0 /\
  classify_entry "abc" = Rejected /\
  snd (save_marks_for_selected (Some 1)
         (fun sj => if sj =? 2 then "abc"%string else "50"%string)
         ([(1, "Art"%string)] ++ (2, "Bio"%string) :: [(3, "Chem"%string)])
         init_db) =
  snd (save_marks_for_selected (Some 1)
         (fun sj => if sj =? 2 then "abc"%string else "50"%string)
         [(1, "Art"%string)] init_db).
Proof.
  assert (H1 : 1 <> 0) by lia.
  assert (H2 : classify_entry "abc" = Rejected) by reflexivity.
  split; [exact H1|split; [exact H2|]].
  exact (proj2 (save_marks_stops_at_first_invalid 1
                  (fun sj => if sj =? 2 then "abc"%string else "50"%string)
                  [(1, "Art"%string)] [(3, "Chem"%string)] 2 "Bio" init_db
                  H1 H2)).
Defined.

Lemma save_marks_loop_spec (st : Z) (entries : Z -> string)
  (cached : list (Z * string)) :
  forall d,
    marks_inv d ->
    NoDup (map fst cached) ->
    (forall p, In p cached -> classify_entry (entries (fst p)) <> Rejected) ->
    fst (save_marks_loop st entries cached d) = ShowInfo "Marks updated." /\
    marks_inv (snd (save_marks_loop st entries cached d)) /\
    (forall sj nm v,
        In (sj, nm) cached -> classify_entry (entries sj) = Accepted v ->
        map mk_marks (marks_of (snd (save_marks_loop st entries cached d)) st sj)
        = [v]) /\
    (forall st' sj',
        st' <> st \/ ~ In sj' (map fst cached) \/
        classify_entry (entries sj') = Blank ->
        marks_of (snd (save_marks_loop st entries cached d)) st' sj' =
        marks_of d st' sj').
Proof.
  induction cached as [|[a b] rest IH]; intros d Hinv Hnd Hok.
  - simpl. split; [reflexivity|split; [exact Hinv|split]].
    + intros sj nm v [].
    + reflexivity.
  - inversion Hnd as [|? ? Hna Hnd']; subst.
    assert (Hok' : forall p, In p rest -> classify_entry (entries (fst p)) <> Rejected).
    { intros p Hp. apply Hok. right. exact Hp. }
    pose proof (save_marks_turn st entries a b rest d) as T.
    pose proof (Hok (a, b) (or_introl eq_refl)) as Ha. simpl in Ha.
    destruct (classify_entry (entries a)) as [|v|] eqn:Ca; [| |congruence].
    + rewrite T. destruct (IH d Hinv Hnd' Hok') as (I1 & I2 & I3 & I4).
      split; [exact I1|split; [exact I2|split]].
      * intros sj nm v [E|Hin] Hc; [inversion E; subst; congruence|].
        exact (I3 sj nm v Hin Hc).
      * intros st' sj' Hc. apply I4.
        destruct Hc as [Hc|[Hc|Hc]]; auto.
        right. left. intro Hin. apply Hc. right. exact Hin.
    + destruct T as [R T]. rewrite T.
      destruct (set_mark_spec d st a v Hinv) as (S1 & S2 & S3 & _).
      destruct (IH _ S1 Hnd' Hok') as (I1 & I2 & I3 & I4).
      split; [exact I1|split; [exact I2|split]].
      * intros sj nm v' [E|Hin] Hc.
        -- inversion E; subst sj nm. rewrite Ca in Hc. inversion Hc; subst v'.
           rewrite I4 by (right; left; exact Hna). exact S2.
        -- exact (I3 sj nm v' Hin Hc).
      * intros st' sj' Hc. rewrite I4.
        -- apply S3. intro E. inversion E; subst st' sj'.
           destruct Hc as [Hc|[Hc|Hc]]; [congruence| |congruence].
           apply Hc. left. reflexivity.
        -- destruct Hc as [Hc|[Hc|Hc]]; auto.
           right. left. intro Hin. apply Hc. right. exact Hin.
Qed.

(** X15: on a store reached by a run of the repository, when no entry is
    rejected and the subjects listed are distinct,
    [save_marks_for_selected] reports success; afterwards the selected
    student has one mark row for each subject with an accepted entry, and
    it reads as the entered value; the marks of subjects with a blank
    entry are as before, and so are the marks of every other student. *)
Theorem save_marks_writes_entries (ops : list op) (st : Z)
  (entries : Z -> string) (cached : list (Z * string)) :
  st <> 0 ->
  NoDup (map fst cached) ->
  (forall p, In p cached -> classify_entry (entries (fst p)) <> Rejected) ->
  fst (save_marks_for_selected (Some st) entries cached (run ops init_db)) =
    ShowInfo "Marks updated." /\
  (forall sj nm v,
      In (sj, nm) cached -> classify_entry (entries sj) = Accepted v ->
      map (fun m => real_column (mk_marks m))
          (marks_of (snd (save_marks_for_selected (Some st) entries cached
                            (run ops init_db))) st sj) = [real_column v]) /\
  (forall sj nm,
      In (sj, nm) cached -> classify_entry (entries sj) = Blank ->
      marks_of (snd (save_marks_for_selected (Some st) entries cached
                       (run ops init_db))) st sj =
      marks_of (run ops init_db) st sj) /\
  (forall st' sj', st' <> st ->
      marks_of (snd (save_marks_for_selected (Some st) entries cached
                       (run ops init_db))) st' sj' =
      marks_of (run ops init_db) st' sj').
Proof.
  intros Hst Hnd Hok. unfold save_marks_for_selected.
  destruct (Z.eqb_spec st 0) as [C|_]; [contradiction|].
  destruct (save_marks_loop_spec st entries cached (run ops init_db)
              (run_marks_inv ops init_db init_db_marks_inv) Hnd Hok)
    as (I1 & _ & I3 & I4).
  split; [exact I1|split; [|split]].
  - intros sj nm v Hin Hc. rewrite <- map_map, (I3 sj nm v Hin Hc). reflexivity.
  - intros sj nm _ Hc. apply I4. right. right. exact Hc.
  - intros st' sj' Hne. apply I4. left. exact Hne.
Qed.

Lemma save_marks_writes_entries_witness :
  1 <> 0 /\
  NoDup (map fst [(1, "Art"%string)]) /\
  (forall p, In p [(1, "Art"%string)] ->
             classify_entry ((fun _ => " 75.5 "%string) (fst p)) <> Rejected) /\
  fst (save_marks_for_selected (Some 1) (fun _ => " 75.5 "%string)
         [(1, "Art"%string)] (run [AddSubject "Art"] init_db)) =
    ShowInfo "Marks updated.".
Proof.
  assert (H1 : 1 <> 0) by lia.
  assert (H2 : NoDup (map fst [(1, "Art"%string)])).
  { simpl. constructor; [intros []|constructor]. }
  assert (H3 : forall p, In p [(1, "Art"%string)] ->
                 classify_entry ((fun _ => " 75.5 "%string) (fst p)) <> Rejected).
  { intros p _. vm_compute. discriminate. }
  split; [exact H1|split; [exact H2|split; [exact H3|]]].
  exact (proj1 (save_marks_writes_entries [AddSubject "Art"] 1
                  (fun _ => " 75.5 "%string) [(1, "Art"%string)] H1 H2 H3)).
Defined.

(** ** Adding and updating students *)

Lemma student_id_taken_iff (d : db) (code : string) :
  student_id_taken d None code = true <->
  exists r, In r (students d) /\ st_student_id r = code.
Proof.
  unfold student_id_taken. rewrite existsb_exists. split.
  - intros (r & Hr & E). exists r. split; [exact Hr|].
    apply andb_true_iff in E. apply String.eqb_eq. tauto.
  - intros (r & Hr & E). exists r. split; [exact Hr|].
    rewrite (proj2 (String.eqb_eq _ _) E). reflexivity.
Qed.

Lemma eqb_empty_false (s : string) : s <> EmptyString -> String.eqb s EmptyString = false.
Proof. intro H. apply String.eqb_neq. exact H. Qed.

(** X16: the student id that [add_student] makes up for a blank entry is
    the second of the clock: a second student added with a blank id in
    the same second is refused with [Student ID already exists.], and the
    store is not changed by the second call. *)
Theorem auto_id_collides_within_a_second (d : db)
  (sid1 name1 class1 sid2 name2 class2 : string) (now : Z) :
  str_strip sid1 = EmptyString -> str_strip sid2 = EmptyString ->
  str_strip name1 <> EmptyString -> str_strip name2 <> EmptyString ->
  add_student sid2 name2 class2 now
    (snd (add_student sid1 name1 class1 now d)) =
  (ShowError "Student ID already exists.",
   snd (add_student sid1 name1 class1 now d)).
Proof.
  intros E1 E2 N1 N2. unfold add_student.
  rewrite E1, E2, (eqb_empty_false _ N1), (eqb_empty_false _ N2). simpl String.eqb.
  cbv iota.
  set (code := ("S" ++ str_of_int now)%string).
  assert (T : student_id_taken
                (snd match add_student_to_db d code (str_strip name1)
                             (str_strip class1) with
                     | Ok (d', _) =>
                         (ShowInfo ("Student '" ++ str_strip name1 ++ "' added."), d')
                     | Raise _ => (ShowError "Student ID already exists.", d)
                     end) None code = true).
  { unfold add_student_to_db.
    destruct (student_id_taken d None code) eqn:T; [exact T|].
    simpl. apply student_id_taken_iff. eexists. split.
    - simpl. apply in_or_app. right. left. reflexivity.
    - reflexivity. }
  unfold add_student_to_db at 1. rewrite T. reflexivity.
Qed.

Lemma auto_id_collides_within_a_second_witness :
  str_strip "  " = EmptyString /\ str_strip "" = EmptyString /\
  str_strip "Ann" <> EmptyString /\ str_strip "Bob" <> EmptyString /\
  add_student "" "Bob" "X" 1700000000
    (snd (add_student "  " "Ann" "X" 1700000000 init_db)) =
  (ShowError "Student ID already exists.",
   snd (add_student "  " "Ann" "X" 1700000000 init_db)).
Proof.
  assert (H1 : str_strip "  " = EmptyString) by reflexivity.
  assert (H2 : str_strip "" = EmptyString) by reflexivity.
  assert (H3 : str_strip "Ann" <> EmptyString) by (vm_compute; discriminate).
  assert (H4 : str_strip "Bob" <> EmptyString) by (vm_compute; discriminate).
  split; [exact H1|split; [exact H2|split; [exact H3|split; [exact H4|]]]].
  exact (auto_id_collides_within_a_second init_db "  " "Ann" "X" "" "Bob" "X"
           1700000000 H1 H2 H3 H4).
Defined.

Lemma update_unmatched (d : db) (db_id : Z) (code name klass : string) :
  (forall r, In r (students d) -> st_id r <> db_id) ->
  update_student_in_db d db_id code name klass = Ok d.
Proof.
  intro H. unfold update_student_in_db.
  assert (E : existsb (fun r => st_id r =? db_id) (students d) = false).
  { apply not_true_is_false. intro C. apply existsb_exists in C.
    destruct C as (r & Hr & Hid). apply Z.eqb_eq in Hid. exact (H r Hr Hid). }
  rewrite E. simpl.
  rewrite (map_untouched st_id _ db_id (students d)); [destruct d; reflexivity| |exact E].
  intros r Hr. destruct (Z.eqb_spec (st_id r) db_id); [contradiction|reflexivity].
Qed.

(** X17: [update_selected_student] with a name that is not blank: when
    the selected row is in the store and another student holds the
    entered student id, it shows [Student ID already exists.] and changes
    nothing; when no student holds the selected id any more, it shows
    [Student updated.] although nothing is changed. *)
Theorem update_selected_student_outcomes (db_id : Z)
  (sid_var name_var class_var : string) (d : db) :
  str_strip name_var <> EmptyString ->
  ((exists r, In r (students d) /\ st_id r = db_id) ->
   (exists r, In r (students d) /\ st_id r <> db_id /\
              st_student_id r = str_strip sid_var) ->
   update_selected_student (Some db_id) sid_var name_var class_var d =
   (ShowError "Student ID already exists.", d)) /\
  ((forall r, In r (students d) -> st_id r <> db_id) ->
   update_selected_student (Some db_id) sid_var name_var class_var d =
   (ShowInfo "Student updated.", d)).
Proof.
  intro Hn. unfold update_selected_student.
  rewrite (eqb_empty_false _ Hn). split.
  - intros (r & Hr & Er) (r' & Hr' & Ne & Ec).
    unfold update_student_in_db.
    assert (E1 : existsb (fun x => st_id x =? db_id) (students d) = true).
    { apply existsb_exists. exists r. split; [exact Hr|lia]. }
    assert (E2 : student_id_taken d (Some db_id) (str_strip sid_var) = true).
    { unfold student_id_taken. apply existsb_exists. exists r'.
      split; [exact Hr'|]. rewrite (proj2 (String.eqb_eq _ _) Ec). simpl.
      apply negb_true_iff. lia. }
    rewrite E1, E2. reflexivity.
  - intro H. rewrite (update_unmatched d db_id _ _ _ H). reflexivity.
Qed.

Lemma update_selected_student_outcomes_witness :
  str_strip "Bob" <> EmptyString /\
  update_selected_student (Some 5) "S9" "Bob" "Y"
    (run [AddStudent "S1" "Ann" "X"] init_db) =
  (ShowInfo "Student updated.", run [AddStudent "S1" "Ann" "X"] init_db).
Proof.
  assert (H : str_strip "Bob" <> EmptyString) by (vm_compute; discriminate).
  split; [exact H|].
  apply (proj2 (update_selected_student_outcomes 5 "S9" "Bob" "Y"
                  (run [AddStudent "S1" "Ann" "X"] init_db) H)).
  intros r [<-|[]]. simpl. discriminate.
Defined.

(** ** Adding a subject *)



(** ** Bounds from below *)

Lemma fge_weaken (f : float) (q q' : Q) : fge f q -> (q' <= q)%Q -> fge f q'.
Proof.
  destruct f as [s|s| |[|] m e]; simpl; auto. intros. lra.
Qed.

(** The quotient the division hands to the rounding is not below a number
    of the format that the exact quotient reaches. *)
Lemma div_core_lower (mx my : positive) (ex ey mz ez : Z) (lz : location)
  (b eb : Z) :
  SFdiv_core_binary F64.prec F64.emax (Zpos mx) ex (Zpos my) ey = (mz, ez, lz) ->
  0 < b < 2 ^ F64.prec ->
  emin F64.prec F64.emax <= eb ->
  (F2Q b eb * F2Q (Zpos my) ey <= F2Q (Zpos mx) ex)%Q ->
  (F2Q b eb <= F2Q mz ez)%Q.
Proof.
  unfold SFdiv_core_binary.
  set (d1 := Zdigits2 (Zpos mx)). set (d2 := Zdigits2 (Zpos my)).
  set (e' := Z.min (fexp F64.prec F64.emax (d1 + ex - (d2 + ey))) (ex - ey)).
  set (s := ex - ey - e').
  assert (Hs : 0 <= s) by (unfold s, e'; lia).
  set (m' := match s with
             | 0 => Zpos mx
             | Zpos _ => Z.shiftl (Zpos mx) s
             | Zneg _ => 0
             end).
  assert (Hm' : m' = Zpos mx * 2 ^ s).
  { unfold m'. destruct s as [|p|p] eqn:Es; try lia.
    rewrite Z.shiftl_mul_pow2 by lia. reflexivity. }
  clearbody m'.
  pose proof (Z_div_mod m' (Zpos my) ltac:(lia)) as DM.
  destruct (Z.div_eucl m' (Zpos my)) as [q r].
  destruct DM as [DM Hr].
  intros H Hb Heb Hle. inversion H; subst mz ez lz; clear H.
  assert (Hp : 0 < 2 ^ s) by (apply Z.pow_pos_nonneg; lia).
  assert (Hq : 0 <= q) by nia.
  pose proof (Zdigits2_bounds (Zpos mx) ltac:(lia)) as [L1 U1].
  pose proof (Zdigits2_bounds (Zpos my) ltac:(lia)) as [L2 U2].
  fold d1 in L1, U1. fold d2 in L2, U2.
  assert (Hd1 : 1 <= d1) by (unfold d1; simpl; lia).
  assert (Hd2 : 1 <= d2) by (unfold d2; simpl; lia).
  assert (Ev : (F2Q (Zpos mx) ex == F2Q (Zpos mx * 2 ^ s) (e' + ey))%Q).
  { rewrite F2Q_shift by lia.
    replace (e' + ey + s) with ex by (unfold s; lia). reflexivity. }
  destruct (Z_le_gt_dec e' eb) as [C|C].
  - (* the bound lies on the grid of the quotient *)
    replace eb with (e' + (eb - e')) in * by lia.
    rewrite <- F2Q_shift in * by lia.
    set (B := b * 2 ^ (eb - e')) in *.
    rewrite F2Q_mul, Ev in Hle. apply F2Q_le in Hle.
    apply F2Q_le. rewrite <- Hm' in Hle. nia.
  - (* the quotient carries a full significand *)
    assert (Hdq : d1 + s - d2 <= Zdigits2 q).
    { destruct (Z_le_gt_dec (d1 + s - d2) 0) as [C0|C0].
      - pose proof (Zdigits2_nonneg q). lia.
      - set (k := d1 + s - d2 - 1).
        assert (Hk : 0 <= k) by (unfold k; lia).
        assert (Hpow : 2 ^ (d1 - 1) * 2 ^ s = 2 ^ k * 2 ^ d2).
        { rewrite <- !Z.pow_add_r by lia. f_equal. unfold k. lia. }
        assert (0 < 2 ^ k) by (apply Z.pow_pos_nonneg; lia).
        assert (2 ^ k <= q) by nia.
        pose proof (Zdigits2_ge_pow q k Hk ltac:(lia)). unfold k in *. lia. }
    assert (H53 : 53 <= Zdigits2 q).
    { unfold s, e' in *. unfold_format. lia. }
    assert (Hqpos : 0 < q).
    { destruct (Z.eq_dec q 0) as [->|]; [simpl in H53; lia|lia]. }
    pose proof (Zdigits2_bounds q Hqpos) as [Lq _].
    assert (H52 : 2 ^ 52 <= q).
    { eapply Z.le_trans; [|exact Lq]. apply Z.pow_le_mono_r; lia. }
    pose proof (F2Q_upper b 53 eb ltac:(lia) ltac:(unfold F64.prec in Hb; lia)) as U.
    apply Qlt_le_weak. eapply Qlt_le_trans; [exact U|].
    eapply Qle_trans; [apply bpow_le with (b := 52 + e'); lia|].
    rewrite bpow_add, (bpow_Z 52) by lia.
    apply (proj1 (F2Q_le _ _ e')). exact H52.
Qed.

Lemma div_fge (x : float) (my : positive) (ey : Z) (qx q : Q) :
  fge x qx -> representable q -> (q * F2Q (Zpos my) ey <= qx)%Q ->
  fge (F64.div x (S754_finite false my ey)) q.
Proof.
  intros Hx Hr Hq.
  destruct x as [sx|sx| |sx mx ex]; simpl in Hx; try contradiction.
  - destruct sx; [contradiction|]. exact I.
  - destruct sx; [contradiction|].
    unfold F64.div, SFdiv.
    destruct (SFdiv_core_binary F64.prec F64.emax (Zpos mx) ex (Zpos my) ey)
      as [[mz ez] lz] eqn:E.
    destruct (div_core_spec _ _ _ _ _ _ _ E) as (Hm & HP & _ & _).
    simpl xorb.
    apply binary_round_aux_ge; try assumption.
    destruct Hr as (b & eb & Hb & Heb & Hv). rewrite Hv.
    apply (div_core_lower _ _ _ _ _ _ _ b eb E Hb (proj1 Heb)).
    rewrite <- Hv. lra.
Qed.

Lemma mul_fge (x : float) (my : positive) (ey : Z) (q1 q3 : Q) :
  fge x q1 -> 2 ^ (F64.prec - 1) <= Zpos my ->
  representable q3 -> (q3 <= q1 * F2Q (Zpos my) ey)%Q ->
  fge (F64.mul x (S754_finite false my ey)) q3.
Proof.
  intros Hx Hmy Hr Hq.
  destruct x as [sx|sx| |sx mx ex]; simpl in Hx; try contradiction.
  - destruct sx; [contradiction|]. exact I.
  - destruct sx; [contradiction|].
    unfold F64.mul, SFmul. simpl xorb.
    apply binary_round_aux_ge; [lia | | exact Hr | ].
    + unfold F64.prec in Hmy. simpl in Hmy.
      assert (52 + 1 <= Zdigits2 (Zpos (mx * my))).
      { apply Zdigits2_ge_pow; [lia|]. rewrite Pos2Z.inj_mul. nia. }
      unfold_format. lia.
    + rewrite Pos2Z.inj_mul, <- F2Q_mul.
      eapply Qle_trans; [exact Hq|].
      apply Qmult_le_compat_r; [exact Hx|].
      apply Qlt_le_weak, F2Q_pos. lia.
Qed.

Lemma round_half_even_ge (n d K : Z) :
  0 < d -> K * d <= n -> K <= F64.round_half_even n d.
Proof.
  intros Hd HK. unfold F64.round_half_even.
  assert (K <= n / d) by (apply Z.div_le_lower_bound; lia).
  destruct (2 * (n mod d) ?= d); [destruct (Z.even (n / d))| |]; lia.
Qed.

Lemma fge_int_bound (m : positive) (e N : Z) :
  (inject_Z N <= F2Q (Zpos m) e)%Q ->
  if 0 <=? e then N <= Zpos m * 2 ^ e else N * 2 ^ (- e) <= Zpos m.
Proof.
  intro H. destruct (Z.leb_spec 0 e) as [C|C].
  - rewrite (F2Q_nonneg_exp _ _ C) in H. rewrite <- Zle_Qle in H. exact H.
  - rewrite (inject_Z_as_F2Q N e) in H by lia. apply F2Q_le in H. exact H.
Qed.

Lemma round_fge (x : float) (N : Z) :
  0 < N < 2 ^ 53 ->
  fge x (inject_Z N) ->
  fge (F64.round_ndigits x 2) (inject_Z N).
Proof.
  intros HN Hx.
  destruct x as [sx|sx| |sx m e]; simpl in Hx; try contradiction.
  - destruct sx; [contradiction|]. exact I.
  - destruct sx; [contradiction|].
    unfold F64.round_ndigits. cbv zeta.
    change (10 ^ 2) with 100. change (Z.to_pos 100) with 100%positive.
    pose proof (fge_int_bound m e N Hx) as B.
    set (q := if 0 <=? e then Zpos m * 2 ^ e * 100
              else F64.round_half_even (Zpos m * 100) (2 ^ (- e))).
    assert (Hq : 100 * N <= q).
    { unfold q. destruct (Z.leb_spec 0 e) as [C|C].
      - lia.
      - assert (0 < 2 ^ (- e)) by (apply Z.pow_pos_nonneg; lia).
        apply round_half_even_ge; nia. }
    clearbody q. unfold F64.of_ratio. destruct q as [|p|p]; try lia.
    apply div_fge with (qx := F2Q (Zpos p) 0).
    + simpl. apply Qle_refl.
    + apply representable_int. exact HN.
    + rewrite !F2Q_int. rewrite <- inject_Z_mult, <- Zle_Qle. lia.
Qed.

Lemma fle_fge_eq (f : float) (N : Z) :
  fle f (inject_Z N) -> fge f (inject_Z N) -> F64.eqb_Z f N = true.
Proof.
  intros H1 H2. unfold F64.eqb_Z, F64.compare_Z.
  destruct f as [s|s| |s m e]; simpl in H1, H2; try contradiction.
  destruct s; [contradiction|]. simpl cond_Zopp.
  pose proof (fle_int_bound m e N H1) as B1.
  pose proof (fge_int_bound m e N H2) as B2.
  destruct (0 <=? e).
  - destruct (Z.compare_spec (Zpos m * 2 ^ e) N); try reflexivity; lia.
  - destruct (Z.compare_spec (Zpos m) (N * 2 ^ (- e))); try reflexivity; lia.
Qed.

(** ** Attendance that only records presence *)

(** The percentage of a full attendance. *)
Lemma ratio_full (T : Z) :
  0 < T ->
  exists f,
    (q <- Py.truediv (NInt T) (NInt T) ;;
     p <- Py.mul q (NInt 100) ;; Ok (Py.round p 2)) = Ok (NFloat f) /\
    F64.eqb_Z f 100 = true.
Proof.
  intro HT.
  assert (Hg : fle (F64.of_ratio false T (Z.to_pos T)) (inject_Z 1) /\
               fge (F64.of_ratio false T (Z.to_pos T)) (inject_Z 1)).
  { unfold F64.of_ratio. destruct T as [|p|p]; try lia. split.
    - apply div_fle with (qx := F2Q (Zpos p) 0).
      + simpl. apply Qle_refl.
      + apply representable_int. lia.
      + rewrite inject_Z_1, Qmult_1_l. apply F2Q_le. simpl. lia.
    - apply div_fge with (qx := F2Q (Zpos p) 0).
      + simpl. apply Qle_refl.
      + apply representable_int. lia.
      + rewrite inject_Z_1, Qmult_1_l. apply F2Q_le. simpl. lia. }
  destruct Hg as [G1 G2].
  set (g := F64.of_ratio false T (Z.to_pos T)) in *.
  assert (Eg : Py.truediv (NInt T) (NInt T) = Ok (NFloat g)).
  { unfold Py.truediv, Py.int_truediv.
    destruct (Z.eqb_spec T 0) as [C|_]; [lia|].
    destruct (Z.ltb_spec T 0) as [C|_]; [lia|].
    cbn [xorb]. rewrite (Z.abs_eq T) by lia. fold g.
    rewrite (fle_finite _ _ G1). reflexivity. }
  set (p0 := F64.mul g (S754_finite false 7036874417766400 (-46))).
  assert (Ep : Py.mul (NFloat g) (NInt 100) = Ok (NFloat p0)).
  { unfold Py.mul. simpl Py.num_to_float. rewrite int_to_float_100. reflexivity. }
  exists (F64.round_ndigits p0 2). split.
  - rewrite Eg. cbn [bind]. rewrite Ep. reflexivity.
  - apply fle_fge_eq.
    + apply round_fle; [lia|]. apply mul_fle with (q1 := inject_Z 1).
      * exact G1.
      * unfold F64.prec. simpl. lia.
      * apply representable_int. lia.
      * rewrite F2Q_hundred, inject_Z_1. lra.
    + apply round_fge; [lia|]. apply mul_fge with (q1 := inject_Z 1).
      * exact G2.
      * unfold F64.prec. simpl. lia.
      * apply representable_int. lia.
      * rewrite F2Q_hundred, inject_Z_1. lra.
Qed.

Lemma sum_all_present (rows : list attendance_row) :
  Forall (fun r => at_present r = 1) rows ->
  fold_left (fun a r => a + at_present r) rows 0 = Z.of_nat (List.length rows).
Proof.
  induction 1 as [|r rows Hr _ IH]; [reflexivity|].
  simpl fold_left. rewrite fold_present_acc, IH, Hr.
  simpl List.length. lia.
Qed.

Lemma apply_op_all_present (d : db) (o : op) :
  records_presence_only o = true -> all_present d -> all_present (apply_op d o).
Proof.
  unfold all_present. intros Ho H.
  destruct o as [sid nm kl|i sid nm kl|i|nm|i nm|i|st sj v|sj|st dt p]; simpl.
  - unfold add_student_to_db. destruct (student_id_taken _ _ _); exact H.
  - unfold update_student_in_db. destruct (_ && _); exact H.
  - apply Forall_forall. intros r Hr. apply filter_In in Hr.
    rewrite Forall_forall in H. apply H. tauto.
  - unfold add_subject_to_db. destruct (subject_name_taken _ _ _); exact H.
  - unfold update_subject_name. destruct (_ && _); exact H.
  - exact H.
  - rewrite (proj2 (proj2 (set_mark_tables d st sj v))). exact H.
  - exact H.
  - apply Forall_app. split; [exact H|]. constructor; [|constructor].
    simpl in Ho |- *. rewrite Ho. reflexivity.
Qed.

Lemma run_all_present (ops : list op) :
  forall d, forallb records_presence_only ops = true ->
            all_present d -> all_present (run ops d).
Proof.
  induction ops as [|o ops IH]; intros d Ho H; [exact H|].
  simpl in Ho. apply andb_true_iff in Ho. destruct Ho as [Ho Hops].
  apply (IH _ Hops). apply apply_op_all_present; assumption.
Qed.

(** X19: the window records attendance only through
    [mark_present_today], which stores the flag 1.  Along every run of
    the repository that records attendance in this way only, the
    attendance percentage of a student is 0.0 when the student has no
    attendance row and compares equal to 100 otherwise. *)
Theorem presence_only_attendance (ops : list op) (st : Z) :
  forallb records_presence_only ops = true ->
  (attendance_of (run ops init_db) st = [] ->
   get_attendance_percent_from_db (run ops init_db) st = Ok (NFloat lit_0_0)) /\
  (attendance_of (run ops init_db) st <> [] ->
   exists f,
     get_attendance_percent_from_db (run ops init_db) st = Ok (NFloat f) /\
     F64.eqb_Z f 100 = true).
Proof.
  intro Hops.
  assert (H : all_present (run ops init_db)).
  { apply run_all_present; [exact Hops|constructor]. }
  set (d := run ops init_db) in *.
  unfold get_attendance_percent_from_db. split.
  - intro E. rewrite E. reflexivity.
  - intro Hne.
    assert (Hrows : Forall (fun r => at_present r = 1) (attendance_of d st)).
    { unfold attendance_of. apply Forall_forall. intros r Hr.
      apply filter_In in Hr. destruct Hr as [Hr _].
      unfold all_present in H. rewrite Forall_forall in H. auto. }
    pose proof (sum_all_present _ Hrows) as Hsum.
    destruct (attendance_of d st) as [|r rows] eqn:E; [congruence|].
    set (rs := r :: rows) in *.
    assert (HT : 0 < Z.of_nat (List.length rs)).
    { unfold rs. simpl List.length. lia. }
    destruct (Z.eqb_spec (Z.of_nat (List.length rs)) 0) as [C|_]; [lia|].
    unfold sum_present. fold rs. unfold rs at 1. rewrite or_zero_some, Hsum.
    apply ratio_full. exact HT.
Qed.

Lemma presence_only_attendance_witness :
  forallb records_presence_only
    [AddStudent "S1" "Ann" "X"; AddAttendance 1 "2024-01-01" (PyBool true);
     AddAttendance 1 "2024-01-01" (PyBool true)] = true /\
  attendance_of
    (run [AddStudent "S1" "Ann" "X"; AddAttendance 1 "2024-01-01" (PyBool true);
          AddAttendance 1 "2024-01-01" (PyBool true)] init_db) 1 <> [] /\
  exists f,
    get_attendance_percent_from_db
      (run [AddStudent "S1" "Ann" "X"; AddAttendance 1 "2024-01-01" (PyBool true);
            AddAttendance 1 "2024-01-01" (PyBool true)] init_db) 1 =
    Ok (NFloat f) /\ F64.eqb_Z f 100 = true.
Proof.
  assert (H : forallb records_presence_only
                [AddStudent "S1" "Ann" "X";
                 AddAttendance 1 "2024-01-01" (PyBool true);
                 AddAttendance 1 "2024-01-01" (PyBool true)] = true)
    by reflexivity.
  assert (H2 : attendance_of
                 (run [AddStudent "S1" "Ann" "X";
                       AddAttendance 1 "2024-01-01" (PyBool true);
                       AddAttendance 1 "2024-01-01" (PyBool true)] init_db) 1 <> [])
    by (vm_compute; discriminate).
  split; [exact H|split; [exact H2|]].
  exact (proj2 (presence_only_attendance _ 1 H) H2).
Defined.

(** ** A mark that is not a number *)

Lemma add_nan_r (x : float) : F64.add x S754_nan = S754_nan.
Proof. destruct x as [s|s| |s m e]; reflexivity. Qed.

Lemma add_nan_l (x : float) : F64.add S754_nan x = S754_nan.
Proof. destruct x as [s|s| |s m e]; reflexivity. Qed.

Lemma add_mark_after_nan (m : pyval) :
  add_mark (NFloat S754_nan) m = Ok (NFloat S754_nan).
Proof.
  unfold add_mark, try_except. destruct (Py.py_float m) as [f|e]; cbn [bind].
  - unfold Py.add. cbn [Py.num_to_float bind]. rewrite add_nan_l. reflexivity.
  - reflexivity.
Qed.

Lemma sum_marks_after_nan (l : list (string * pyval)) :
  sum_marks (NFloat S754_nan) l = Ok (NFloat S754_nan).
Proof.
  induction l as [|[n m] l IH]; [reflexivity|].
  cbn [sum_marks]. rewrite add_mark_after_nan. cbn [bind]. exact IH.
Qed.

Lemma add_mark_nan (t : num) (m : pyval) :
  int_total t -> mark_is_nan m = true -> add_mark t m = Ok (NFloat S754_nan).
Proof.
  intros Ht Hm. unfold mark_is_nan in Hm. unfold add_mark, try_except.
  destruct (Py.py_float m) as [f|e]; [|discriminate].
  destruct f; try discriminate. cbn [bind].
  destruct t as [z|f]; simpl in Ht.
  - subst z. reflexivity.
  - unfold Py.add. cbn [Py.num_to_float bind]. rewrite add_nan_r. reflexivity.
Qed.

Lemma percentage_of_nan (M : Z) :
  0 < M <= 2 ^ 1023 ->
  percentage_of (NFloat S754_nan) M = Ok (NFloat S754_nan).
Proof.
  intro HM. unfold percentage_of.
  destruct (Z.ltb_spec 0 M) as [_|C]; [|lia].
  destruct (of_Z_finite M HM) as (m & e & E).
  unfold Py.truediv. cbn [Py.num_to_float bind]. unfold Py.int_to_float.
  rewrite E. reflexivity.
Qed.

(** X20: a mark that [float] reads as NaN, such as the text nan, among
    the marks makes the total and the percentage NaN, and the grade F with
    the GPA 0.0, whatever the other marks are. *)
Theorem nan_mark_grades_F (marks_list : list (string * pyval)) :
  (exists entry, In entry marks_list /\ mark_is_nan (snd entry) = true) ->
  100 * Z.of_nat (List.length marks_list) <= 2 ^ 1023 ->
  calculate_total_percentage_gpa_grade marks_list =
  Ok (NFloat S754_nan, 100 * Z.of_nat (List.length marks_list),
      NFloat S754_nan, NFloat lit_0_0, "F"%string).
Proof.
  intros (entry & Hin & Hnan) Hlen.
  assert (Hpos : 0 < 100 * Z.of_nat (List.length marks_list)).
  { destruct marks_list; [destruct Hin|simpl List.length; lia]. }
  assert (Hs : sum_marks (NInt 0) marks_list = Ok (NFloat S754_nan)).
  { apply in_split in Hin. destruct Hin as (l1 & l2 & ->).
    rewrite sum_marks_app.
    destruct (sum_marks_ok l1 (NInt 0) eq_refl) as (t1 & E1 & I1).
    rewrite E1. cbn [bind]. destruct entry as [n m]. cbn [sum_marks].
    rewrite (add_mark_nan t1 m I1 Hnan). cbn [bind].
    apply sum_marks_after_nan. }
  unfold calculate_total_percentage_gpa_grade.
  destruct marks_list as [|e0 rest]; [destruct Hin|].
  cbv zeta. rewrite Hs. cbn [bind].
  rewrite percentage_of_nan by (split; assumption). reflexivity.
Qed.

Lemma nan_mark_grades_F_witness :
  (exists entry,
      In entry [("Art"%string, PyInt 100); ("Bio"%string, PyStr "nan")] /\
      mark_is_nan (snd entry) = true) /\
  100 * Z.of_nat (List.length
                    [("Art"%string, PyInt 100); ("Bio"%string, PyStr "nan")])
    <= 2 ^ 1023 /\
  calculate_total_percentage_gpa_grade
    [("Art"%string, PyInt 100); ("Bio"%string, PyStr "nan")] =
  Ok (NFloat S754_nan, 200, NFloat S754_nan, NFloat lit_0_0, "F"%string).
Proof.
  assert (H1 : exists entry,
             In entry [("Art"%string, PyInt 100); ("Bio"%string, PyStr "nan")] /\
             mark_is_nan (snd entry) = true).
  { exists ("Bio"%string, PyStr "nan"). split; [right; left; reflexivity|reflexivity]. }
  assert (H2 : 100 * Z.of_nat (List.length
                 [("Art"%string, PyInt 100); ("Bio"%string, PyStr "nan")])
               <= 2 ^ 1023).
  { simpl List.length. change (100 * Z.of_nat 2) with 200.
    apply Z.le_trans with (2 ^ 8); [lia|]. apply Z.pow_le_mono_r; lia. }
  split; [exact H1|split; [exact H2|]].
  exact (nan_mark_grades_F _ H1 H2).
Defined.

(** ** Whole marks: the exact total *)

Lemma fval_fle (f : float) (q : Q) : fval f q -> (0 <= q)%Q -> fle f q.
Proof.
  destruct f as [s|s| |[|] m e]; simpl; intros H H0; try contradiction; auto.
  rewrite H. apply Qle_refl.
Qed.

Lemma fval_fge (f : float) (q : Q) : fval f q -> (0 < q)%Q -> fge f q.
Proof.
  destruct f as [s|s| |[|] m e]; simpl; intros H H0; try contradiction.
  - rewrite H in H0. apply Qlt_irrefl in H0. exact H0.
  - rewrite H. apply Qle_refl.
Qed.

Lemma fle_fge_fval (f : float) (q : Q) : fle f q -> fge f q -> fval f q.
Proof.
  destruct f as [s|s| |[|] m e]; simpl; intros H1 H2; try contradiction.
  apply Qle_antisym; assumption.
Qed.

Lemma add_fval (x y : float) (q1 q2 : Q) :
  fval x q1 -> fval y q2 ->
  (q1 + q2 == 0)%Q \/ representable (q1 + q2) ->
  fval (F64.add x y) (q1 + q2).
Proof.
  intros Hx Hy Hr.
  destruct x as [sx|sx| |sx mx ex]; simpl in Hx; try contradiction;
  destruct y as [sy|sy| |sy my ey]; simpl in Hy; try contradiction.
  - assert (E : (q1 + q2 == 0)%Q) by (rewrite Hx, Hy; reflexivity).
    destruct sx, sy; simpl; exact E.
  - destruct sy; [contradiction|]. simpl. rewrite Hx, Hy. ring.
  - destruct sx; [contradiction|]. simpl. rewrite Hx, Hy. ring.
  - destruct sx; [contradiction|]. destruct sy; [contradiction|].
    assert (P1 : (0 < q1)%Q) by (rewrite <- Hx; apply F2Q_pos; lia).
    assert (P2 : (0 < q2)%Q) by (rewrite <- Hy; apply F2Q_pos; lia).
    destruct Hr as [Hr|Hr]; [exfalso; lra|].
    unfold F64.add, SFadd. cbv zeta.
    set (ez := Z.min ex ey).
    pose proof (shl_align_spec mx ex ez) as Sx.
    pose proof (shl_align_value mx ex ez) as Vx.
    pose proof (shl_align_spec my ey ez) as Sy.
    pose proof (shl_align_value my ey ez) as Vy.
    destruct (shl_align mx ex ez) as [ax ex'].
    destruct (shl_align my ey ez) as [ay ey'].
    destruct Sx as (Sx & _). destruct Sy as (Sy & _).
    simpl in Vx, Vy |- *.
    assert (Ex : ex' = ez) by (unfold ez in *; lia).
    assert (Ey : ey' = ez) by (unfold ez in *; lia).
    rewrite Ex in Vx. rewrite Ey in Vy. clear Sx Sy Ex Ey.
    assert (V : (F2Q (Zpos (ax + ay)) ez == q1 + q2)%Q).
    { rewrite Pos2Z.inj_add, <- F2Q_add, Vx, Vy, Hx, Hy. reflexivity. }
    apply fle_fge_fval.
    + apply (proj1 (binary_round_bounds (ax + ay) ez)); [exact Hr|].
      rewrite V. apply Qle_refl.
    + apply (proj2 (binary_round_bounds (ax + ay) ez)); [exact Hr|].
      rewrite V. apply Qle_refl.
Qed.

Lemma eqb_Z_fval (f : float) (k : Z) :
  0 <= k -> F64.eqb_Z f k = true -> fval f (inject_Z k).
Proof.
  intros Hk. unfold F64.eqb_Z, F64.compare_Z.
  destruct f as [s|s| |s m e]; simpl.
  all: try (destruct s; discriminate); try discriminate.
  - destruct k; try discriminate. intros _. reflexivity.
  - destruct s; simpl cond_Zopp.
    + intro H. exfalso. destruct (Z.leb_spec 0 e).
      * assert (0 < 2 ^ e) by (apply Z.pow_pos_nonneg; lia).
        destruct (Z.compare_spec (Zneg m * 2 ^ e) k); try discriminate. nia.
      * assert (0 < 2 ^ (- e)) by (apply Z.pow_pos_nonneg; lia).
        destruct (Z.compare_spec (Zneg m) (k * 2 ^ (- e))); try discriminate. nia.
    + intro H. apply Qle_antisym.
      * apply int_bound_fle. destruct (0 <=? e).
        -- destruct (Z.compare_spec (Zpos m * 2 ^ e) k); try discriminate; lia.
        -- destruct (Z.compare_spec (Zpos m) (k * 2 ^ (- e))); try discriminate; lia.
      * destruct (Z.leb_spec 0 e) as [C|C].
        -- rewrite (F2Q_nonneg_exp _ _ C). rewrite <- Zle_Qle.
           destruct (Z.compare_spec (Zpos m * 2 ^ e) k); try discriminate; lia.
        -- rewrite (inject_Z_as_F2Q k e) by lia. apply F2Q_le.
           destruct (Z.compare_spec (Zpos m) (k * 2 ^ (- e))); try discriminate; lia.
Qed.

Lemma fval_eqb_Z (f : float) (k : Z) :
  fval f (inject_Z k) -> F64.eqb_Z f k = true.
Proof.
  destruct f as [s|s| |s m e]; simpl; try contradiction.
  - intro H. unfold F64.eqb_Z, F64.compare_Z.
    assert (k = 0).
    { unfold Qeq in H. simpl in H. lia. }
    subst k. reflexivity.
  - destruct s; [contradiction|]. intro H. apply fle_fge_eq; simpl; rewrite H;
      apply Qle_refl.
Qed.

(** The running total as a number: the initial [0] or a float of value
    [s]. *)
Lemma add_mark_whole (t : num) (m : pyval) (s k : Z) :
  match t with NInt z => z = 0 /\ s = 0 | NFloat f => fval f (inject_Z s) end ->
  mark_is_int m k = true -> 0 <= s -> 0 <= k -> s + k < 2 ^ 53 ->
  exists f, add_mark t m = Ok (NFloat f) /\ fval f (inject_Z (s + k)).
Proof.
  intros Ht Hm Hs Hk Hb. unfold mark_is_int in Hm.
  unfold add_mark, try_except.
  destruct (Py.py_float m) as [f0|e]; [|discriminate]. cbn [bind].
  pose proof (eqb_Z_fval f0 k Hk Hm) as V0.
  assert (Hr : (inject_Z s + inject_Z k == 0)%Q \/
               representable (inject_Z s + inject_Z k)).
  { rewrite <- inject_Z_plus. destruct (Z.eq_dec (s + k) 0) as [E|E].
    - left. rewrite E. reflexivity.
    - right. apply representable_int. lia. }
  destruct t as [z|f]; simpl in Ht.
  - destruct Ht as [-> ->]. unfold Py.add. cbn [Py.num_to_float].
    change (Py.int_to_float 0) with (Ok (S754_zero false)). cbn [bind].
    eexists. split; [reflexivity|]. rewrite inject_Z_plus.
    apply add_fval; [reflexivity|exact V0|exact Hr].
  - unfold Py.add. cbn [Py.num_to_float bind].
    eexists. split; [reflexivity|]. rewrite inject_Z_plus.
    apply add_fval; assumption.
Qed.

Lemma sum_Z_nonneg (ks : list Z) :
  Forall (fun k => 0 <= k <= 100) ks ->
  0 <= sum_Z ks <= 100 * Z.of_nat (List.length ks).
Proof.
  induction 1 as [|k ks Hk _ IH]; simpl; [lia|].
  change (fold_right Z.add 0 ks) with (sum_Z ks). lia.
Qed.

Lemma whole_marks_range (l : list (string * pyval)) (ks : list Z) :
  whole_marks l ks ->
  Forall (fun k => 0 <= k <= 100) ks /\ List.length ks = List.length l.
Proof.
  induction 1 as [|e k l ks [_ Hk] _ [IH1 IH2]]; [split; [constructor|reflexivity]|].
  split; [constructor; assumption|simpl; congruence].
Qed.

Lemma sum_marks_whole (l : list (string * pyval)) (ks : list Z) :
  whole_marks l ks ->
  forall t s,
    match t with NInt z => z = 0 /\ s = 0 | NFloat f => fval f (inject_Z s) end ->
    0 <= s -> s + 100 * Z.of_nat (List.length l) < 2 ^ 53 ->
    exists t',
      sum_marks t l = Ok t' /\
      match t' with
      | NInt z => z = 0 /\ s + sum_Z ks = 0 /\ l = []
      | NFloat f => fval f (inject_Z (s + sum_Z ks))
      end.
Proof.
  induction 1 as [|[n m] k l ks [Hm Hk] Hrest IH]; intros t s Ht Hs Hb.
  - exists t. split; [reflexivity|]. simpl. rewrite Z.add_0_r.
    destruct t; [|exact Ht]. destruct Ht as [-> ->]. auto.
  - simpl List.length in Hb. cbn [sum_marks]. simpl in Hm.
    destruct (add_mark_whole t m s k Ht Hm Hs ltac:(lia) ltac:(lia))
      as (f & E & V).
    rewrite E. cbn [bind].
    destruct (IH (NFloat f) (s + k) V ltac:(lia) ltac:(lia)) as (t' & E' & V').
    exists t'. split; [exact E'|].
    simpl sum_Z. change (fold_right Z.add 0 ks) with (sum_Z ks).
    replace (s + (k + sum_Z ks)) with (s + k + sum_Z ks) by lia.
    destruct t' as [z|f'].
    + destruct V' as (Hz & Hsum & Hnil). subst l.
      simpl in E'. discriminate.
    + exact V'.
Qed.

(** ** Whole marks: the thresholds *)

Lemma round_half_even_above (n d K : Z) :
  0 < d -> (2 * K - 1) * d < 2 * n -> K <= F64.round_half_even n d.
Proof.
  intros Hd H. unfold F64.round_half_even.
  pose proof (Z.div_mod n d ltac:(lia)) as E.
  pose proof (Z.mod_pos_bound n d Hd) as B.
  set (q := n / d) in *. set (r := n mod d) in *.
  destruct (Z.compare_spec (2 * r) d) as [C|C|C];
    [destruct (Z.even q)| |]; nia.
Qed.

Lemma round_half_even_below (n d K : Z) :
  0 < d -> 2 * n < (2 * K + 1) * d -> F64.round_half_even n d <= K.
Proof.
  intros Hd H. unfold F64.round_half_even.
  pose proof (Z.div_mod n d ltac:(lia)) as E.
  pose proof (Z.mod_pos_bound n d Hd) as B.
  set (q := n / d) in *. set (r := n mod d) in *.
  destruct (Z.compare_spec (2 * r) d) as [C|C|C];
    [destruct (Z.even q)| |]; nia.
Qed.

Lemma round_half_even_nonneg (n d : Z) :
  0 < d -> 0 <= n -> 0 <= F64.round_half_even n d.
Proof.
  intros Hd Hn. apply round_half_even_above; [exact Hd|]. nia.
Qed.

(** Comparing two dyadic numbers of exponents that are not positive. *)
Lemma F2Q_le_scaled (a b ea eb : Z) :
  ea <= 0 -> eb <= 0 ->
  ((F2Q a ea <= F2Q b eb)%Q <-> a * 2 ^ (- eb) <= b * 2 ^ (- ea)).
Proof.
  intros Ha Hb.
  assert (Ea : (F2Q a ea == F2Q (a * 2 ^ (- eb)) (ea + eb))%Q).
  { rewrite F2Q_shift by lia. replace (ea + eb + - eb) with ea by lia. reflexivity. }
  assert (Eb : (F2Q b eb == F2Q (b * 2 ^ (- ea)) (ea + eb))%Q).
  { rewrite F2Q_shift by lia. replace (ea + eb + - ea) with eb by lia. reflexivity. }
  rewrite Ea, Eb. symmetry. apply F2Q_le.
Qed.

Lemma F2Q_le_int (a ea X : Z) :
  ea <= 0 -> ((F2Q a ea <= inject_Z X)%Q <-> a <= X * 2 ^ (- ea)).
Proof.
  intro Ha. rewrite (inject_Z_as_F2Q X ea) by lia. symmetry. apply F2Q_le.
Qed.

Lemma int_le_F2Q (a ea X : Z) :
  ea <= 0 -> ((inject_Z X <= F2Q a ea)%Q <-> X * 2 ^ (- ea) <= a).
Proof.
  intro Ha. rewrite (inject_Z_as_F2Q X ea) by lia. symmetry. apply F2Q_le.
Qed.

(** A float within [2 ^ -10] below the integer [T] rounds, at two
    decimal places, to [T] or more. *)
Lemma round_fge_frac (x : float) (T : Z) :
  0 < T < 2 ^ 53 ->
  fge x (F2Q (1024 * T - 1) (-10)) ->
  fge (F64.round_ndigits x 2) (inject_Z T).
Proof.
  intros HT Hx.
  destruct x as [sx|sx| |sx m e]; cbn [fge fle] in Hx; try contradiction.
  - destruct sx; [contradiction|]. exact I.
  - destruct sx; [contradiction|].
    unfold F64.round_ndigits. cbv zeta.
    change (10 ^ 2) with 100. change (Z.to_pos 100) with 100%positive.
    set (q := if 0 <=? e then Zpos m * 2 ^ e * 100
              else F64.round_half_even (Zpos m * 100) (2 ^ (- e))).
    assert (Hq : 100 * T <= q).
    { unfold q. destruct (Z.leb_spec 0 e) as [C|C].
      - rewrite (F2Q_nonneg_exp _ _ C) in Hx.
        apply F2Q_le_int in Hx; [|lia]. change (2 ^ (- (-10))) with 1024 in Hx. lia.
      - apply F2Q_le_scaled in Hx; [|lia|lia].
        change (2 ^ (- (-10))) with 1024 in Hx.
        assert (0 < 2 ^ (- e)) by (apply Z.pow_pos_nonneg; lia).
        apply round_half_even_above; [assumption|]. nia. }
    clearbody q. unfold F64.of_ratio. destruct q as [|p|p]; try lia.
    apply div_fge with (qx := F2Q (Zpos p) 0).
    + simpl. apply Qle_refl.
    + apply representable_int. exact HT.
    + rewrite !F2Q_int. rewrite <- inject_Z_mult, <- Zle_Qle. lia.
Qed.

Lemma representable_dyadic (a e : Z) :
  0 < a < 2 ^ 53 -> -1074 <= e <= 971 -> representable (F2Q a e).
Proof.
  intros Ha He. exists a, e. unfold emin, F64.prec, F64.emax.
  repeat split; try lia. 
Qed.

(** A float at least [2 ^ -7] below the integer [T] stays there when it
    is rounded at two decimal places. *)
Lemma round_fle_frac (x : float) (T : Z) :
  0 < T < 2 ^ 45 ->
  fle x (F2Q (128 * T - 1) (-7)) ->
  fle (F64.round_ndigits x 2) (F2Q (128 * T - 1) (-7)).
Proof.
  intros HT Hx.
  assert (H45 : 2 ^ 45 * 128 = 2 ^ 52) by reflexivity.
  assert (H53 : 2 ^ 52 < 2 ^ 53) by reflexivity.
  destruct x as [sx|sx| |sx m e]; cbn [fge fle] in Hx; try contradiction.
  - exact I.
  - destruct sx; [contradiction|].
    unfold F64.round_ndigits. cbv zeta.
    change (10 ^ 2) with 100. change (Z.to_pos 100) with 100%positive.
    set (q := if 0 <=? e then Zpos m * 2 ^ e * 100
              else F64.round_half_even (Zpos m * 100) (2 ^ (- e))).
    assert (Hq : 0 <= q <= 100 * T - 1).
    { unfold q. destruct (Z.leb_spec 0 e) as [C|C].
      - rewrite (F2Q_nonneg_exp _ _ C) in Hx.
        apply int_le_F2Q in Hx; [|lia]. change (2 ^ (- (-7))) with 128 in Hx.
        assert (0 < 2 ^ e) by (apply Z.pow_pos_nonneg; lia). nia.
      - apply F2Q_le_scaled in Hx; [|lia|lia].
        change (2 ^ (- (-7))) with 128 in Hx.
        assert (0 < 2 ^ (- e)) by (apply Z.pow_pos_nonneg; lia). split.
        + apply round_half_even_nonneg; lia.
        + apply round_half_even_below; [assumption|]. nia. }
    clearbody q. unfold F64.of_ratio. destruct q as [|p|p]; try lia.
    + exact I.
    + apply div_fle with (qx := F2Q (Zpos p) 0).
      * simpl. apply Qle_refl.
      * apply representable_dyadic; lia.
      * rewrite F2Q_mul. apply F2Q_le_scaled; [lia|lia|].
        change (2 ^ (- (-7 + 0))) with 128. change (2 ^ (- 0)) with 1. lia.
Qed.

Lemma fge_geb (f : float) (T : Z) : fge f (inject_Z T) -> F64.geb_Z f T = true.
Proof.
  unfold F64.geb_Z, F64.compare_Z.
  destruct f as [s|s| |s m e]; simpl; try contradiction.
  - destruct s; try contradiction; intros; reflexivity.
  - destruct s; [contradiction|]. intro H. simpl cond_Zopp.
    pose proof (fge_int_bound m e T H) as B.
    destruct (0 <=? e).
    + destruct (Z.compare_spec (Zpos m * 2 ^ e) T); try reflexivity; lia.
    + destruct (Z.compare_spec (Zpos m) (T * 2 ^ (- e))); try reflexivity; lia.
Qed.

Lemma fle_below_geb (f : float) (a T : Z) :
  0 < T -> a < 128 * T -> fle f (F2Q a (-7)) -> F64.geb_Z f T = false.
Proof.
  intros HT Ha. unfold F64.geb_Z, F64.compare_Z.
  destruct f as [s|s| |s m e]; simpl; try contradiction.
  - intros _. destruct T; first [reflexivity|lia].
  - destruct s; [contradiction|]. intro H. simpl cond_Zopp.
    destruct (Z.leb_spec 0 e) as [C|C].
    + rewrite (F2Q_nonneg_exp _ _ C) in H.
      apply int_le_F2Q in H; [|lia]. change (2 ^ (- (-7))) with 128 in H.
      destruct (Z.compare_spec (Zpos m * 2 ^ e) T); try reflexivity; lia.
    + apply F2Q_le_scaled in H; [|lia|lia].
      change (2 ^ (- (-7))) with 128 in H.
      assert (0 < 2 ^ (- e)) by (apply Z.pow_pos_nonneg; lia).
      destruct (Z.compare_spec (Zpos m) (T * 2 ^ (- e))); try reflexivity; nia.
Qed.

Lemma percentage_of_float (t : float) (M : Z) :
  0 < M < 2 ^ 53 ->
  exists m e,
    (F2Q (Zpos m) e == inject_Z M)%Q /\
    percentage_of (NFloat t) M =
    Ok (NFloat (F64.round_ndigits
                  (F64.mul (F64.div t (S754_finite false m e)) hundred) 2)).
Proof.
  intro HM. destruct (of_Z_exact M HM) as (m & e & E & V).
  exists m, e. split; [exact V|].
  unfold percentage_of. destruct (Z.ltb_spec 0 M) as [_|C]; [|lia].
  unfold Py.truediv. cbn [Py.num_to_float bind]. unfold Py.int_to_float at 1.
  rewrite E. cbn [F64.is_finite bind F64.is_zero].
  unfold Py.mul. cbn [Py.num_to_float bind]. rewrite int_to_float_100.
  reflexivity.
Qed.

Lemma F2Q_times_int (a e X : Z) : (F2Q a e * inject_Z X == F2Q (a * X) e)%Q.
Proof. rewrite <- (F2Q_int X), F2Q_mul, Z.add_0_r. reflexivity. Qed.

(** The comparison of the percentage with a threshold is the comparison
    of the exact sum with the threshold times the number of marks. *)
Lemma pct_threshold (t : float) (S n T : Z) (p : float) :
  fval t (inject_Z S) -> 0 <= S -> 0 < n <= 100 -> 1 <= T <= 100 ->
  percentage_of (NFloat t) (100 * n) = Ok (NFloat p) ->
  F64.geb_Z p T = (T * n <=? S).
Proof.
  intros Ht HS Hn HT Hp.
  assert (H53 : 2 ^ 53 = 9007199254740992) by reflexivity.
  destruct (percentage_of_float t (100 * n) ltac:(lia)) as (m & e & V & E).
  rewrite E in Hp. inversion Hp as [Hp']. clear Hp E.
  destruct (Z.leb_spec (T * n) S) as [C|C].
  - (* the average reaches the threshold *)
    apply fge_geb. apply round_fge_frac; [lia|].
    set (a := T * 1048576 / 100).
    assert (A1 : a * 100 <= T * 1048576).
    { unfold a. rewrite Z.mul_comm. apply Z.mul_div_le. lia. }
    assert (A2 : T * 1048576 < a * 100 + 100).
    { unfold a. pose proof (Z.mul_succ_div_gt (T * 1048576) 100 ltac:(lia)). lia. }
    apply mul_fge with (q1 := F2Q a (-20)).
    + apply div_fge with (qx := inject_Z S).
      * apply fval_fge; [exact Ht|].
        change 0%Q with (inject_Z 0). rewrite <- Zlt_Qlt. nia.
      * apply representable_dyadic; lia.
      * rewrite V, F2Q_times_int. apply F2Q_le_int; [lia|].
        change (2 ^ (- (-20))) with 1048576. nia.
    + unfold F64.prec. simpl. lia.
    + apply representable_dyadic; lia.
    + rewrite F2Q_hundred, F2Q_times_int. apply F2Q_le_scaled; [lia|lia|].
      change (2 ^ (- (-20))) with 1048576. change (2 ^ (- (-10))) with 1024. lia.
  - (* the average stays below the threshold *)
    apply (fle_below_geb _ (128 * T - 1)); [lia|lia|].
    apply round_fle_frac; [change (2 ^ 45) with 35184372088832; lia|].
    set (c := (100 * T - 1) * 1073741824 / 10000 + 1).
    assert (C1 : (c - 1) * 10000 <= (100 * T - 1) * 1073741824).
    { unfold c. replace (_ + 1 - 1) with ((100 * T - 1) * 1073741824 / 10000) by lia.
      rewrite Z.mul_comm. apply Z.mul_div_le. lia. }
    assert (C2 : (100 * T - 1) * 1073741824 < c * 10000).
    { unfold c.
      pose proof (Z.mul_succ_div_gt ((100 * T - 1) * 1073741824) 10000 ltac:(lia)).
      lia. }
    apply mul_fle with (q1 := F2Q c (-30)).
    + apply div_fle with (qx := inject_Z S).
      * apply fval_fle; [exact Ht|].
        change 0%Q with (inject_Z 0). rewrite <- Zle_Qle. exact HS.
      * apply representable_dyadic; lia.
      * rewrite V, F2Q_times_int. apply int_le_F2Q; [lia|].
        change (2 ^ (- (-30))) with 1073741824.
        assert (100 * S <= (100 * T - 1) * n) by nia.
        nia.
    + unfold F64.prec. simpl. lia.
    + apply representable_dyadic; lia.
    + rewrite F2Q_hundred, F2Q_times_int. apply F2Q_le_scaled; [lia|lia|].
      change (2 ^ (- (-30))) with 1073741824. change (2 ^ (- (-7))) with 128. lia.
Qed.

Lemma gpa_grade_exact (p : float) (S n : Z) :
  (forall T, 1 <= T <= 100 -> F64.geb_Z p T = (T * n <=? S)) ->
  gpa_grade (NFloat p) = exact_grade S n.
Proof.
  intro H. unfold gpa_grade, exact_grade, Py.ge_int.
  rewrite !H by lia. reflexivity.
Qed.

(** X21: for at most 100 marks that are whole numbers of 0 to 100, the
    floating-point computation decides the grade exactly: the total
    compares equal to the sum of the marks, and the GPA and the letter are
    those of the exact average, a threshold being reached if and only if
    the sum is at least the threshold times the number of marks. *)
Theorem whole_marks_graded_exactly (marks_list : list (string * pyval))
  (ks : list Z) :
  whole_marks marks_list ks ->
  (0 < List.length marks_list <= 100)%nat ->
  exists total percentage,
    calculate_total_percentage_gpa_grade marks_list =
    Ok (NFloat total, 100 * Z.of_nat (List.length marks_list),
        NFloat percentage,
        fst (exact_grade (sum_Z ks) (Z.of_nat (List.length marks_list))),
        snd (exact_grade (sum_Z ks) (Z.of_nat (List.length marks_list)))) /\
    F64.eqb_Z total (sum_Z ks) = true.
Proof.
  intros Hw Hlen.
  destruct (whole_marks_range _ _ Hw) as [Hks Hl].
  pose proof (sum_Z_nonneg ks Hks) as HS. rewrite Hl in HS.
  set (n := Z.of_nat (List.length marks_list)) in *.
  assert (Hn : 0 < n <= 100) by (unfold n; lia).
  assert (H53 : 2 ^ 53 = 9007199254740992) by reflexivity.
  destruct (sum_marks_whole _ _ Hw (NInt 0) 0 (conj eq_refl eq_refl)
              ltac:(lia) ltac:(fold n; lia)) as (t & Et & Vt).
  rewrite Z.add_0_l in Vt.
  destruct t as [z|total].
  { destruct Vt as (_ & _ & Hnil). subst marks_list. simpl in Hlen. lia. }
  destruct (percentage_of_float total (100 * n) ltac:(lia)) as (m & e & _ & Ep).
  set (p := F64.round_ndigits
              (F64.mul (F64.div total (S754_finite false m e)) hundred) 2) in *.
  exists total, p. split; [|apply fval_eqb_Z; exact Vt].
  unfold calculate_total_percentage_gpa_grade.
  destruct marks_list as [|e0 rest]; [simpl in Hlen; lia|].
  cbv zeta. fold n. rewrite Et. cbn [bind]. rewrite Ep. cbn [bind].
  rewrite (gpa_grade_exact p (sum_Z ks) n).
  - destruct (exact_grade (sum_Z ks) n). reflexivity.
  - intros T HT. apply (pct_threshold total); try assumption; lia.
Qed.

Lemma whole_marks_graded_exactly_witness :
  whole_marks [("Art"%string, PyStr "89"); ("Bio"%string, PyInt 90);
               ("Chem"%string, PyFloat lit_4_0)] [89; 90; 4] /\
  (0 < List.length [("Art"%string, PyStr "89"); ("Bio"%string, PyInt 90);
                    ("Chem"%string, PyFloat lit_4_0)] <= 100)%nat /\
  exists total percentage,
    calculate_total_percentage_gpa_grade
      [("Art"%string, PyStr "89"); ("Bio"%string, PyInt 90);
       ("Chem"%string, PyFloat lit_4_0)] =
    Ok (NFloat total, 300, NFloat percentage, NFloat lit_2_0, "C"%string) /\
    F64.eqb_Z total 183 = true.
Proof.
  assert (H1 : whole_marks [("Art"%string, PyStr "89"); ("Bio"%string, PyInt 90);
                            ("Chem"%string, PyFloat lit_4_0)] [89; 90; 4]).
  { repeat constructor; simpl; lia. }
  assert (H2 : (0 < List.length [("Art"%string, PyStr "89");
                                 ("Bio"%string, PyInt 90);
                                 ("Chem"%string, PyFloat lit_4_0)] <= 100)%nat).
  { simpl. lia. }
  split; [exact H1|split; [exact H2|]].
  exact (whole_marks_graded_exactly _ _ H1 H2).
Defined.

(** ** The table of the window *)

Lemma display_rows_spec (d : db) (fg : string)
  (fetched : list (Z * string * string * string)) :
  forall rows,
    display_rows d fg fetched = Ok rows ->
    (forall r, In r rows ->
       In (row_db_id r, row_student_id r, row_name r, row_klass r) fetched /\
       (exists max_total,
           calculate_total_percentage_gpa_grade
             (get_marks_for_student_from_db d (row_db_id r)) =
           Ok (row_total r, max_total, row_percentage r, row_gpa r, row_grade r)) /\
       get_attendance_percent_from_db d (row_db_id r) = Ok (row_attendance r) /\
       (fg = "All"%string \/ row_grade r = fg)) /\
    (fg = "All"%string ->
     map (fun r => (row_db_id r, row_student_id r, row_name r, row_klass r)) rows
     = fetched).
Proof.
  induction fetched as [|[[[i sid] nm] kl] rest IH]; intros rows H.
  - simpl in H. inversion H; subst. split; [intros r []|reflexivity].
  - cbn [display_rows] in H.
    destruct (calculate_total_percentage_gpa_grade
                (get_marks_for_student_from_db d i))
      as [[[[[total mx] pct] gpa] grade]|e] eqn:Ec; [|discriminate].
    cbn [bind] in H.
    destruct (get_attendance_percent_from_db d i) as [a|e] eqn:Ea; [|discriminate].
    cbn [bind] in H.
    destruct (display_rows d fg rest) as [rows'|e] eqn:Er; [|discriminate].
    cbn [bind] in H. destruct (IH rows' eq_refl) as [I1 I2].
    destruct (String.eqb_spec fg "All") as [EA|NA]; simpl negb in H; cbn [andb] in H.
    + inversion H; subst rows. split.
      * intros r [<-|Hr].
        -- simpl. split; [left; reflexivity|]. split; [exists mx; exact Ec|].
           split; [exact Ea|left; exact EA].
        -- destruct (I1 r Hr) as (J1 & J2). split; [right; exact J1|exact J2].
      * intros _. simpl. rewrite (I2 EA). reflexivity.
    + destruct (String.eqb_spec grade fg) as [EG|NG]; simpl negb in H.
      * inversion H; subst rows. split; [|intro; contradiction].
        intros r [<-|Hr].
        -- simpl. split; [left; reflexivity|]. split; [exists mx; exact Ec|].
           split; [exact Ea|right; exact EG].
        -- destruct (I1 r Hr) as (J1 & J2). split; [right; exact J1|exact J2].
      * inversion H; subst rows. split; [|intro; contradiction].
        intros r Hr. destruct (I1 r Hr) as (J1 & J2).
        split; [right; exact J1|exact J2].
Qed.

Lemma fetched_are_students (search_var : string) (d : db)
  (fetched : list (Z * string * string * string)) :
  (if String.eqb (str_strip search_var) EmptyString
   then Some (list_students_from_db d)
   else find_students_by_name d (str_strip search_var)) = Some fetched ->
  forall t, In t fetched -> In t (map student_tuple (students d)).
Proof.
  destruct (String.eqb (str_strip search_var) EmptyString); intros H t Ht.
  - inversion H; subst fetched. apply list_students_In in Ht.
    destruct Ht as (r & Hr & ->). apply in_map. exact Hr.
  - apply (find_students_In _ _ _ t H) in Ht.
    destruct Ht as (r & Hr & -> & _). apply in_map. exact Hr.
Qed.

(** X22: where [refresh_student_list] returns, every row of the table is
    a student of the store with the grading of that student's marks and
    the student's attendance percentage; with a grade filter other than
    [All] every row has that grade, and with one of the grades the filter
    offers no student without marks is shown; with [All] and no search
    text the table lists every student, in ascending order of name. *)
Theorem refresh_applies_grade_filter (search_var fg : string) (d : db)
  (rows : list display_row) :
  refresh_student_list search_var fg d = Some (Ok rows) ->
  (forall r, In r rows -> row_of_student d r) /\
  (fg <> "All"%string -> forall r, In r rows -> row_grade r = fg) /\
  (In fg grade_options ->
   forall r, In r rows -> get_marks_for_student_from_db d (row_db_id r) <> []) /\
  (fg = "All"%string -> str_strip search_var = EmptyString ->
   map (fun r => (row_db_id r, row_student_id r, row_name r, row_klass r)) rows
   = list_students_from_db d).
Proof.
  intro H. unfold refresh_student_list in H.
  assert (F : exists fetched,
             (if String.eqb (str_strip search_var) EmptyString
              then Some (list_students_from_db d)
              else find_students_by_name d (str_strip search_var)) = Some fetched /\
             display_rows d fg fetched = Ok rows).
  { destruct (String.eqb (str_strip search_var) EmptyString).
    - exists (list_students_from_db d). split; [reflexivity|].
      inversion H. reflexivity.
    - destruct (find_students_by_name d (str_strip search_var)) as [f|];
        [|discriminate].
      exists f. split; [reflexivity|]. inversion H. reflexivity. }
  destruct F as (fetched & Hf & Hd).
  destruct (display_rows_spec d fg fetched rows Hd) as [S1 S2].
  assert (G : fg <> "All"%string -> forall r, In r rows -> row_grade r = fg).
  { intros Hn r Hr. destruct (S1 r Hr) as (_ & _ & _ & [E|E]); [contradiction|exact E]. }
  split; [|split; [exact G|split]].
  - intros r Hr. destruct (S1 r Hr) as (J1 & J2 & J3 & _).
    split; [exact (fetched_are_students _ _ _ Hf _ J1)|]. split; assumption.
  - intros Ho r Hr Hm.
    assert (Hn : fg <> "All"%string).
    { intro E. subst fg. simpl in Ho. intuition discriminate. }
    pose proof (G Hn r Hr) as Eg.
    destruct (S1 r Hr) as (_ & (mx & Ec) & _). rewrite Hm in Ec. simpl in Ec.
    inversion Ec as [[E1 E2 E3 E4 E5]]. rewrite <- E5 in Eg. subst fg.
    simpl in Ho. intuition discriminate.
  - intros EA Es. rewrite Es in Hf. simpl in Hf. inversion Hf; subst fetched.
    exact (S2 EA).
Qed.

Lemma refresh_applies_grade_filter_witness :
  refresh_student_list "" "All"
    (run [AddStudent "S1" "Bob" "X"; AddStudent "S2" "Ann" "Y"] init_db) =
    Some (Ok [ {| row_db_id := 2; row_student_id := "S2"; row_name := "Ann";
                  row_klass := "Y"; row_total := NInt 0;
                  row_percentage := NInt 0; row_gpa := NInt 0;
                  row_grade := "N/A"; row_attendance := NFloat lit_0_0 |};
               {| row_db_id := 1; row_student_id := "S1"; row_name := "Bob";
                  row_klass := "X"; row_total := NInt 0;
                  row_percentage := NInt 0; row_gpa := NInt 0;
                  row_grade := "N/A"; row_attendance := NFloat lit_0_0 |} ]) /\
  map (fun r => (row_db_id r, row_student_id r, row_name r, row_klass r))
      [ {| row_db_id := 2; row_student_id := "S2"; row_name := "Ann";
           row_klass := "Y"; row_total := NInt 0;
           row_percentage := NInt 0; row_gpa := NInt 0;
           row_grade := "N/A"; row_attendance := NFloat lit_0_0 |};
        {| row_db_id := 1; row_student_id := "S1"; row_name := "Bob";
           row_klass := "X"; row_total := NInt 0;
           row_percentage := NInt 0; row_gpa := NInt 0;
           row_grade := "N/A"; row_attendance := NFloat lit_0_0 |} ] =
  list_students_from_db
    (run [AddStudent "S1" "Bob" "X"; AddStudent "S2" "Ann" "Y"] init_db).
Proof.
  assert (H : refresh_student_list "" "All"
                (run [AddStudent "S1" "Bob" "X"; AddStudent "S2" "Ann" "Y"]
                     init_db) =
              Some (Ok [ {| row_db_id := 2; row_student_id := "S2";
                            row_name := "Ann"; row_klass := "Y";
                            row_total := NInt 0; row_percentage := NInt 0;
                            row_gpa := NInt 0; row_grade := "N/A";
                            row_attendance := NFloat lit_0_0 |};
                         {| row_db_id := 1; row_student_id := "S1";
                            row_name := "Bob"; row_klass := "X";
                            row_total := NInt 0; row_percentage := NInt 0;
                            row_gpa := NInt 0; row_grade := "N/A";
                            row_attendance := NFloat lit_0_0 |} ]))
    by reflexivity.
  split; [exact H|].
  exact (proj2 (proj2 (proj2 (refresh_applies_grade_filter _ _ _ _ H)))
           eq_refl eq_refl).
Defined.

(** ** Pressing the attendance button *)

Lemma press_once (db_id : Z) (name today : string) (d : db) :
  List.length
    (attendance_of (snd (mark_present_today (Some (db_id, name)) today d)) db_id) =
    S (List.length (attendance_of d db_id)) /\
  (forall other, other <> db_id ->
     attendance_of (snd (mark_present_today (Some (db_id, name)) today d)) other =
     attendance_of d other) /\
  students (snd (mark_present_today (Some (db_id, name)) today d)) = students d /\
  subjects (snd (mark_present_today (Some (db_id, name)) today d)) = subjects d /\
  marks (snd (mark_present_today (Some (db_id, name)) today d)) = marks d.
Proof.
  unfold attendance_of. simpl. repeat split.
  - rewrite filter_app. simpl. rewrite Z.eqb_refl, length_app. simpl. lia.
  - intros other Hne. rewrite filter_app. simpl.
    destruct (Z.eqb_spec db_id other) as [C|_]; [congruence|].
    apply app_nil_r.
Qed.

(** X23: [mark_present_today] does not look for a row of the same day:
    every press adds a row, so [n] presses on one day for one student
    leave that student with [n] more attendance rows; the rows of the
    other students and the other tables are not touched. *)
Theorem mark_present_today_counts_every_press (n : nat) (db_id : Z)
  (name today : string) (d : db) :
  List.length (attendance_of (presses n db_id name today d) db_id) =
    (List.length (attendance_of d db_id) + n)%nat /\
  (forall other, other <> db_id ->
     attendance_of (presses n db_id name today d) other = attendance_of d other) /\
  students (presses n db_id name today d) = students d /\
  subjects (presses n db_id name today d) = subjects d /\
  marks (presses n db_id name today d) = marks d.
Proof.
  unfold presses. induction n as [|n (I1 & I2 & I3 & I4 & I5)].
  - simpl. repeat split; auto.
  - rewrite Nat.iter_succ.
    destruct (press_once db_id name today
                (Nat.iter n
                   (fun acc => snd (mark_present_today (Some (db_id, name)) today acc))
                   d)) as (P1 & P2 & P3 & P4 & P5).
    repeat split.
    + rewrite P1, I1. lia.
    + intros other Hne. rewrite (P2 other Hne). apply I2. exact Hne.
    + congruence.
    + congruence.
    + congruence.
Qed.

(** ** Removing the marks of a subject *)

(** X24: on a store reached by a run of the repository,
    [delete_marks_for_subject] for a subject of the store removes that
    subject's entry from every student's list of marks and leaves the
    other entries; the subject stays listed. *)
Theorem delete_marks_for_subject_clears (ops : list op) (s : subject_row) :
  In s (subjects (run ops init_db)) ->
  list_subjects_from_db (delete_marks_for_subject (run ops init_db) (sub_id s)) =
    list_subjects_from_db (run ops init_db) /\
  (forall st nm x,
      In (nm, x)
         (get_marks_for_student_from_db
            (delete_marks_for_subject (run ops init_db) (sub_id s)) st) <->
      In (nm, x) (get_marks_for_student_from_db (run ops init_db) st) /\
      nm <> sub_name s).
Proof.
  intro Hs.
  destruct (run_constraints ops) as (_ & (B1 & _) & _ & _ & _ & Hname).
  set (d := run ops init_db) in *.
  split; [reflexivity|].
  intros st nm x. rewrite !get_marks_In. simpl. split.
  - intros (m & s' & Hm & E1 & Hs' & E2 & E3 & E4).
    apply (filter_other_ids mk_subject_db_id) in Hm. destruct Hm as [Hm Hne].
    split; [exists m, s'; tauto|].
    intro E. apply Hne. rewrite <- E2. f_equal.
    apply (text_injective sub_name (subjects d)); congruence.
  - intros [(m & s' & Hm & E1 & Hs' & E2 & E3 & E4) Hne].
    exists m, s'. repeat split; try assumption.
    apply (filter_other_ids mk_subject_db_id). split; [exact Hm|].
    intro E. apply Hne. rewrite E3. f_equal.
    apply (key_injective sub_id (subjects d)); congruence.
Qed.

Lemma delete_marks_for_subject_clears_witness :
  In {| sub_id := 1; sub_name := "Math" |}
     (subjects (run [AddSubject "Math"; SetMark 7 1 lit_4_0] init_db)) /\
  list_subjects_from_db
    (delete_marks_for_subject
       (run [AddSubject "Math"; SetMark 7 1 lit_4_0] init_db) 1) =
  list_subjects_from_db (run [AddSubject "Math"; SetMark 7 1 lit_4_0] init_db).
Proof.
  assert (H : In {| sub_id := 1; sub_name := "Math" |}
                 (subjects (run [AddSubject "Math"; SetMark 7 1 lit_4_0] init_db)))
    by (left; reflexivity).
  split; [exact H|].
  exact (proj1 (delete_marks_for_subject_clears
                  [AddSubject "Math"; SetMark 7 1 lit_4_0]
                  {| sub_id := 1; sub_name := "Math" |} H)).
Defined.

(** ** Updating a student, renaming a subject *)

(** X25: on a store reached by a run of the repository, a successful
    [update_student_in_db] of a student of the store changes exactly that
    student's row of the listing, to the new values under the old id;
    marks and attendance are not touched. *)
Theorem update_student_round_trip (ops : list op) (db_id : Z)
  (student_id name klass : string) (d' : db) :
  (exists r, In r (students (run ops init_db)) /\ st_id r = db_id) ->
  update_student_in_db (run ops init_db) db_id student_id name klass = Ok d' ->
  (forall t, In t (list_students_from_db d') <->
             t = (db_id, student_id, name, klass) \/
             (In t (list_students_from_db (run ops init_db)) /\
              fst (fst (fst t)) <> db_id)) /\
  marks d' = marks (run ops init_db) /\
  attendance d' = attendance (run ops init_db).
Proof.
  intros (r0 & Hr0 & E0) Hu.
  set (d := run ops init_db) in *.
  unfold update_student_in_db in Hu.
  destruct (existsb _ _ && student_id_taken d (Some db_id) student_id);
    [discriminate|].
  inversion Hu; subst d'. clear Hu. split; [|split; reflexivity].
  intro t. rewrite !list_students_In. simpl. split.
  - intros (r & Hr & ->). apply in_map_iff in Hr. destruct Hr as (r1 & <- & Hr1).
    destruct (Z.eqb_spec (st_id r1) db_id) as [C|C].
    + left. unfold student_tuple. simpl. rewrite C. reflexivity.
    + right. split; [exists r1; split; [exact Hr1|reflexivity]|exact C].
  - intros [->|[(r & Hr & ->) Hne]].
    + exists {| st_id := st_id r0; st_student_id := student_id;
                st_name := name; st_klass := klass |}.
      split; [|unfold student_tuple; simpl; rewrite E0; reflexivity].
      apply in_map_iff. exists r0. split; [|exact Hr0].
      rewrite (proj2 (Z.eqb_eq _ _) E0). reflexivity.
    + exists r. split; [|reflexivity]. apply in_map_iff. exists r.
      split; [|exact Hr]. simpl in Hne.
      destruct (Z.eqb_spec (st_id r) db_id) as [C|_]; [contradiction|reflexivity].
Qed.

Lemma update_student_round_trip_witness :
  (exists r, In r (students (run [AddStudent "S1" "Ann" "X"] init_db)) /\
             st_id r = 1) /\
  update_student_in_db (run [AddStudent "S1" "Ann" "X"] init_db) 1 "S1" "Anna" "Y" =
    Ok (snd (update_selected_student (Some 1) "S1" "Anna" "Y"
               (run [AddStudent "S1" "Ann" "X"] init_db))) /\
  marks (snd (update_selected_student (Some 1) "S1" "Anna" "Y"
                (run [AddStudent "S1" "Ann" "X"] init_db))) =
  marks (run [AddStudent "S1" "Ann" "X"] init_db).
Proof.
  assert (H1 : exists r, In r (students (run [AddStudent "S1" "Ann" "X"] init_db)) /\
                         st_id r = 1).
  { eexists. split; [left; reflexivity|reflexivity]. }
  assert (H2 : update_student_in_db (run [AddStudent "S1" "Ann" "X"] init_db)
                 1 "S1" "Anna" "Y" =
               Ok (snd (update_selected_student (Some 1) "S1" "Anna" "Y"
                          (run [AddStudent "S1" "Ann" "X"] init_db))))
    by reflexivity.
  split; [exact H1|split; [exact H2|]].
  exact (proj1 (proj2 (update_student_round_trip _ _ _ _ _ _ H1 H2))).
Defined.

(** X26: on a store reached by a run of the repository, a successful
    rename of a subject of the store keeps every mark: each student's list
    of marks holds the same values as before, the entries of the renamed
    subject under the new name and the others under their own. *)
Theorem rename_subject_keeps_marks (ops : list op) (s : subject_row)
  (new_name : string) (d' : db) :
  In s (subjects (run ops init_db)) ->
  update_subject_name (run ops init_db) (sub_id s) new_name = Ok d' ->
  forall st nm x,
    In (nm, x) (get_marks_for_student_from_db d' st) <->
    exists nm0,
      In (nm0, x) (get_marks_for_student_from_db (run ops init_db) st) /\
      nm = renamed (sub_name s) new_name nm0.
Proof.
  intros Hs Hu.
  destruct (run_constraints ops) as (_ & (B1 & _) & _ & _ & _ & Hname).
  set (d := run ops init_db) in *.
  unfold update_subject_name in Hu.
  destruct (existsb _ _ && subject_name_taken d (Some (sub_id s)) new_name);
    [discriminate|].
  inversion Hu; subst d'. clear Hu.
  assert (K : forall s', In s' (subjects d) ->
                sub_name (if sub_id s' =? sub_id s
                          then {| sub_id := sub_id s'; sub_name := new_name |}
                          else s') =
                renamed (sub_name s) new_name (sub_name s')).
  { intros s' Hs'. unfold renamed.
    destruct (Z.eqb_spec (sub_id s') (sub_id s)) as [C|C].
    - assert (s' = s) by (apply (key_injective sub_id (subjects d)); auto).
      subst s'. rewrite String.eqb_refl. reflexivity.
    - destruct (String.eqb_spec (sub_name s') (sub_name s)) as [E|_]; [|reflexivity].
      exfalso. apply C. f_equal.
      apply (text_injective sub_name (subjects d)); auto. }
  intros st nm x. split.
  - intro H. apply get_marks_In in H. simpl in H.
    destruct H as (m & s2 & Hm & E1 & Hs2 & E2 & E3 & E4).
    apply in_map_iff in Hs2. destruct Hs2 as (s' & <- & Hs').
    exists (sub_name s'). split.
    + apply get_marks_In. exists m, s'. repeat split; try assumption.
      rewrite <- E2. destruct (sub_id s' =? sub_id s); reflexivity.
    + rewrite E3. apply K. exact Hs'.
  - intros (nm0 & H & ->). apply get_marks_In in H.
    destruct H as (m & s' & Hm & E1 & Hs' & E2 & E3 & E4).
    apply get_marks_In. simpl.
    exists m, (if sub_id s' =? sub_id s
               then {| sub_id := sub_id s'; sub_name := new_name |} else s').
    repeat split; try assumption.
    + apply in_map_iff. exists s'. split; [reflexivity|exact Hs'].
    + rewrite <- E2. destruct (sub_id s' =? sub_id s); reflexivity.
    + rewrite E3. symmetry. apply K. exact Hs'.
Qed.

Lemma rename_subject_keeps_marks_witness :
  In {| sub_id := 1; sub_name := "Math" |}
     (subjects (run [AddSubject "Math"; SetMark 7 1 lit_4_0] init_db)) /\
  update_subject_name (run [AddSubject "Math"; SetMark 7 1 lit_4_0] init_db)
    1 "Maths" =
    Ok (run [AddSubject "Math"; SetMark 7 1 lit_4_0; RenameSubject 1 "Maths"]
            init_db) /\
  (In ("Maths"%string, PyFloat lit_4_0)
      (get_marks_for_student_from_db
         (run [AddSubject "Math"; SetMark 7 1 lit_4_0; RenameSubject 1 "Maths"]
              init_db) 7) <->
   exists nm0,
     In (nm0, PyFloat lit_4_0)
        (get_marks_for_student_from_db
           (run [AddSubject "Math"; SetMark 7 1 lit_4_0] init_db) 7) /\
     "Maths"%string = renamed "Math" "Maths" nm0).
Proof.
  assert (H1 : In {| sub_id := 1; sub_name := "Math" |}
                  (subjects (run [AddSubject "Math"; SetMark 7 1 lit_4_0] init_db)))
    by (left; reflexivity).
  assert (H2 : update_subject_name
                 (run [AddSubject "Math"; SetMark 7 1 lit_4_0] init_db) 1 "Maths" =
               Ok (run [AddSubject "Math"; SetMark 7 1 lit_4_0;
                        RenameSubject 1 "Maths"] init_db))
    by reflexivity.
  split; [exact H1|split; [exact H2|]].
  exact (rename_subject_keeps_marks _ {| sub_id := 1; sub_name := "Math" |}
           _ _ H1 H2 7 "Maths"%string (PyFloat lit_4_0)).
Defined.

